(** * ASOSTORE: a shallow embedding of the store's form handlers

    The application is a set of React views that validate a form against
    the rows they fetched earlier and then issue a short sequence of
    requests to the hosted database.  Each handler is embedded as a
    computation in a small state-and-exception monad over a [World]
    holding the database tables, the outcome the backend will give to
    each coming request, the log of requests issued so far and the
    toasts shown.

    Conventions of the embedding:
    - JavaScript numbers that hold counts are [Z];
    - numbers that hold money are rationals [Q].  A table keeps a
      decimal; JavaScript holds the IEEE 754 double nearest to it
      ([Js.number]) and computes on doubles: [Js.add], [Js.sub],
      [Js.mul] and [Js.div] round the exact result to the nearest double,
      ties to even.  The daily sales view, the stock purchases view and
      src/components/Purchases.tsx are embedded with this arithmetic,
      and the column [stock_items.cost_price], a [numeric(10,2)], rounds
      what it is sent ([numeric_10_2]).  Infinity and NaN are not numbers
      of the model: a result beyond the largest double is kept as it is
      and a quotient by zero is 0;
    - the student purchases view (src/unnamed/part_005) and the
      Transactions view are embedded over exact rationals: the rounding
      of their sums, differences and products is not modelled;
    - JavaScript strings are [string]s of code units below 256;
    - [parseInt] and [parseFloat] are parameters returning [None] for NaN;
    - [new Date().toISOString()] reads the [clock] field of the world. *)

From Stdlib Require Import Ascii String QArith Lqa DecimalString.
From stdpp Require Import base strings list gmap sorting.

Local Open Scope string_scope.
Local Open Scope Z_scope.
Local Open Scope list_scope.

(** ** JavaScript string helpers *)

Module Js.

(** WhiteSpace and LineTerminator code units below 256:
    TAB, LF, VT, FF, CR, SP and NBSP. *)
Definition is_white_space (c : ascii) : bool :=
  let n := nat_of_ascii c in
  ((9 <=? n)%nat && (n <=? 13)%nat) || (n =? 32)%nat || (n =? 160)%nat.

Fixpoint trimStart (s : string) : string :=
  match s with
  | EmptyString => EmptyString
  | String c s' => if is_white_space c then trimStart s' else s
  end.

Fixpoint trimEnd (s : string) : string :=
  match s with
  | EmptyString => EmptyString
  | String c s' =>
      match trimEnd s' with
      | EmptyString => if is_white_space c then EmptyString else String c EmptyString
      | t => String c t
      end
  end.

(** [String.prototype.trim] *)
Definition trim (s : string) : string := trimEnd (trimStart s).

(** Lower-casing of one code unit: A-Z, and the Latin-1 capitals
    U+00C0..U+00DE without the multiplication sign U+00D7. *)
Definition lower_char (c : ascii) : ascii :=
  let n := nat_of_ascii c in
  if ((65 <=? n)%nat && (n <=? 90)%nat)
     || ((192 <=? n)%nat && (n <=? 222)%nat && negb (n =? 215)%nat)
  then ascii_of_nat (n + 32) else c.

(** [String.prototype.toLowerCase] on strings of code units below 256,
    where it works unit by unit.  Beyond them it does not: a capital
    sigma becomes one of two letters by its place in the word, so no
    statement here splits a string under [toLowerCase]. *)
Fixpoint toLowerCase (s : string) : string :=
  match s with
  | EmptyString => EmptyString
  | String c s' => String (lower_char c) (toLowerCase s')
  end.

(** [s.split(sep)] for a separator of one code unit: never the empty
    array, and a trailing separator yields a trailing empty piece. *)
Fixpoint split (sep : ascii) (s : string) : list string :=
  match s with
  | EmptyString => [EmptyString]
  | String c s' =>
      if Ascii.eqb c sep then EmptyString :: split sep s'
      else match split sep s' with
           | [] => [String c EmptyString]
           | w :: ws => String c w :: ws
           end
  end.

(** A string used as a condition: only the empty string is falsy. *)
Definition truthy (s : string) : bool := negb (String.eqb s "").

(** [arr.join(sep)] *)
Definition join (sep : string) (l : list string) : string := String.concat sep l.

(** [arr.includes(x)] on an array of strings *)
Definition includes (l : list string) (x : string) : bool := existsb (String.eqb x) l.

(** [arr.find(p)] *)
Fixpoint find {A} (p : A -> bool) (l : list A) : option A :=
  match l with
  | [] => None
  | x :: l' => if p x then Some x else find p l'
  end.

(** Template-literal rendering of an integer. *)
Definition string_of_Z (z : Z) : string := NilZero.string_of_int (Z.to_int z).
Definition string_of_nat (n : nat) : string := NilZero.string_of_uint (Nat.to_uint n).

(** [a < b] on money *)
Definition Qltb (a b : Q) : bool := negb (Qle_bool b a).

(** *** Numbers: IEEE 754 binary64, on the rationals the doubles are *)

(** The integer nearest to [n / d] for [d > 0], the even one on a tie. *)
Definition round_half_even (n d : Z) : Z :=
  let k := n / d in
  match 2 * (n mod d) ?= d with
  | Lt => k
  | Gt => k + 1
  | Eq => if Z.even k then k else k + 1
  end.

(** The exponent [e] with [2^e <= n / d < 2^(e+1)], for [n, d > 0]. *)
Definition floor_log2 (n d : Z) : Z :=
  let e := Z.log2 n - Z.log2 d in
  if (if 0 <=? e then d * 2 ^ e <=? n else d <=? n * 2 ^ (- e)) then e else e - 1.

(** The double nearest to [n / d] for [n, d > 0]: a multiple of
    [2^(e-52)], where [e] is the exponent of [n / d] or, below the
    normal range, [-1022]. *)
Definition binary64 (n d : Z) : Q :=
  let e := floor_log2 n d in
  let ex := Z.max e (-1022) - 52 in
  if 0 <=? ex
  then inject_Z (round_half_even n (d * 2 ^ ex) * 2 ^ ex)
  else Qred (round_half_even (n * 2 ^ (- ex)) d # Z.to_pos (2 ^ (- ex))).

(** The number JavaScript holds for the decimal [x]. *)
Definition number (x : Q) : Q :=
  match Qnum (Qred x) with
  | Z0 => 0%Q
  | Zpos n => binary64 (Zpos n) (Zpos (Qden (Qred x)))
  | Zneg n => (- binary64 (Zpos n) (Zpos (Qden (Qred x))))%Q
  end.

(** [x + y], [x - y], [x * y] and [x / y] *)
Definition add (x y : Q) : Q := number (number x + number y).
Definition sub (x y : Q) : Q := number (number x - number y).
Definition mul (x y : Q) : Q := number (number x * number y).
Definition div (x y : Q) : Q := number (number x / number y).

(** [x < y] *)
Definition lt (x y : Q) : bool := Qltb (number x) (number y).

(** *** [parseInt] and [parseFloat]

    The handlers take the two built-ins from a [JsRuntime]; [None] stands
    for NaN.  [ecma] below is the instance the examples run with: it
    follows the ECMAScript algorithms on results that are finite. *)

Class JsRuntime := {
  parseInt : string -> option Z;
  parseFloat : string -> option Q }.

Definition digit_value (radix : Z) (c : ascii) : option Z :=
  let n := Z.of_nat (nat_of_ascii c) in
  let v := if (48 <=? n) && (n <=? 57) then Some (n - 48)
           else if (97 <=? n) && (n <=? 122) then Some (n - 87)
           else if (65 <=? n) && (n <=? 90) then Some (n - 55)
           else None in
  match v with
  | Some d => if d <? radix then Some d else None
  | None => None
  end.

(** The value of the longest prefix of digits, [acc] if there is none,
    and what follows the prefix. *)
Fixpoint digits_prefix (radix : Z) (acc : option Z) (s : string) : option Z * string :=
  match s with
  | EmptyString => (acc, s)
  | String c s' =>
      match digit_value radix c with
      | Some d => digits_prefix radix (Some (radix * default 0 acc + d)) s'
      | None => (acc, s)
      end
  end.

Definition strip_sign (s : string) : Z * string :=
  match s with
  | String "-"%char s' => (-1, s')
  | String "+"%char s' => (1, s')
  | _ => (1, s)
  end.

(** [parseInt(s)] with no radix argument. *)
Definition ecma_parseInt (s : string) : option Z :=
  let '(sign, s1) := strip_sign (trimStart s) in
  let '(radix, s2) :=
    match s1 with
    | String "0"%char (String "x"%char s') => (16, s')
    | String "0"%char (String "X"%char s') => (16, s')
    | _ => (10, s1)
    end in
  match fst (digits_prefix radix None s2) with
  | Some v => Some (sign * v)
  | None => None
  end.

(** [parseFloat(s)]: sign, digits, fraction and exponent of the longest
    decimal literal that starts the trimmed string, as the double
    nearest to it (the literal [Infinity] is not covered). *)
Definition ecma_parseFloat (s : string) : option Q :=
  let '(sign, s1) := strip_sign (trimStart s) in
  let '(ip, s2) := digits_prefix 10 None s1 in
  let '(fp, fdigits, s3) :=
    match s2 with
    | String "."%char s' =>
        let '(v, r) := digits_prefix 10 None s' in
        (v, Z.of_nat (String.length s' - String.length r), r)
    | _ => (None, 0, s2)
    end in
  let expo :=
    match s3 with
    | String c s' =>
        if Ascii.eqb c "e" || Ascii.eqb c "E"
        then let '(esign, s4) := strip_sign s' in
             match fst (digits_prefix 10 None s4) with
             | Some e => esign * e
             | None => 0
             end
        else 0
    | EmptyString => 0
    end in
  match ip, fp with
  | None, None => None
  | _, _ =>
      let mant := default 0 ip * 10 ^ fdigits + default 0 fp in
      Some (number (inject_Z (sign * mant) * Qpower (10 # 1) (expo - fdigits)))
  end.

Definition ecma : JsRuntime :=
  {| parseInt := ecma_parseInt; parseFloat := ecma_parseFloat |}.

End Js.

(** ** Rows of the tables (src/types/index.ts and the migrations) *)

Module Student.
Record t := mk {
  id : string;
  name : string;
  admission_no : string;
  class_code : string;
  balance : Q;
  total_paid : Q;
  total_spent : Q;
  last_payment : option string;
  created_at : string }.
End Student.

Module StockItem.
Record t := mk {
  id : string;
  item_name : string;
  quantity : Z;
  cost_price : Q;
  selling_price : Q;
  last_updated : string }.
End StockItem.

(** The rows of the four log tables are kept as the payload the client
    inserts; the columns the database fills in itself ([id], [timestamp],
    [created_at]) are left out. *)

Module Purchase.
Record t := mk {
  student_id : string;
  item_id : string;
  quantity : Z;
  total_price : Q }.
End Purchase.

Inductive transaction_type := deposit | spend.
Inductive payment_method := online | bycash | credit.

Module Transaction.
Record t := mk {
  student_id : string;
  amount : Q;
  type : transaction_type;
  method : payment_method;
  note : option string }.
End Transaction.

Module DailySale.
Record t := mk {
  item_id : string;
  quantity_sold : Z;
  selling_price_per_unit : Q;
  total_revenue : Q;
  cost_price_per_unit : Q;
  total_cost : Q;
  profit : Q;
  sale_date : string;
  notes : option string }.
End DailySale.

Module StockPurchase.
Record t := mk {
  item_id : string;
  quantity : Z;
  cost_per_unit : Q;
  total_cost : Q;
  supplier_name : string;
  purchase_date : string;
  notes : option string }.
End StockPurchase.

(** ** The hosted database and the requests the views send to it *)

Module Db.
Record t := mk {
  students : list Student.t;
  transactions : list Transaction.t;
  stock_items : list StockItem.t;
  purchases : list Purchase.t;
  daily_sales : list DailySale.t;
  stock_purchases : list StockPurchase.t }.
End Db.

(** The error object of a response; the handlers only look at its code. *)
Record PgError := { code : string }.

Inductive Request :=
| insert_purchases (row : Purchase.t)
| insert_transactions (row : Transaction.t)
| insert_daily_sales (row : DailySale.t)
| insert_stock_purchases (row : StockPurchase.t)
| insert_students (rows : list (gmap string string))
| update_stock_items_quantity (id : string) (quantity : Z) (last_updated : string)
| update_stock_items_quantity_cost (id : string) (quantity : Z) (cost_price : Q)
    (last_updated : string)
| update_students_balance (id : string) (balance total_spent : Q)
| update_students_deposit (id : string) (balance total_paid : Q)
| select_purchases
| select_daily_sales
| select_stock_purchases
| select_students
| select_stock_items
| select_students_eq_admission_no (v : string)
| select_students_eq_class_code (v : string).

Definition is_write (rq : Request) : bool :=
  match rq with
  | insert_purchases _ | insert_transactions _ | insert_daily_sales _
  | insert_stock_purchases _ | insert_students _ | update_stock_items_quantity _ _ _
  | update_stock_items_quantity_cost _ _ _ _ | update_students_balance _ _ _
  | update_students_deposit _ _ _ => true
  | _ => false
  end.

(** [.update(fields).eq('id', id)]: every row whose id matches is rewritten. *)
Definition set_stock_quantity (id : string) (q : Z) (now : string)
    (it : StockItem.t) : StockItem.t :=
  if String.eqb (StockItem.id it) id
  then StockItem.mk (StockItem.id it) (StockItem.item_name it) q
         (StockItem.cost_price it) (StockItem.selling_price it) now
  else it.

Definition set_stock_quantity_cost (id : string) (q : Z) (c : Q) (now : string)
    (it : StockItem.t) : StockItem.t :=
  if String.eqb (StockItem.id it) id
  then StockItem.mk (StockItem.id it) (StockItem.item_name it) q
         c (StockItem.selling_price it) now
  else it.

Definition set_student_balance (id : string) (b ts : Q) (s : Student.t) : Student.t :=
  if String.eqb (Student.id s) id
  then Student.mk (Student.id s) (Student.name s) (Student.admission_no s)
         (Student.class_code s) b (Student.total_paid s) ts
         (Student.last_payment s) (Student.created_at s)
  else s.

Definition set_student_deposit (id : string) (b tp : Q) (s : Student.t) : Student.t :=
  if String.eqb (Student.id s) id
  then Student.mk (Student.id s) (Student.name s) (Student.admission_no s)
         (Student.class_code s) b tp (Student.total_spent s)
         (Student.last_payment s) (Student.created_at s)
  else s.

(** The integer nearest to [x], the one away from zero on a tie. *)
Definition round_half_away (x : Q) : Z :=
  Z.sgn (Qnum x) * ((2 * Z.abs (Qnum x) + Zpos (Qden x)) / (2 * Zpos (Qden x))).

(** What a [numeric(10,2)] column keeps of a number the client sends.
    The request carries the shortest decimal that reads back as the
    double, and the column rounds that decimal to two places, half away
    from zero.  Below 10^8, where the column takes a value, the shortest
    decimal matters only when a decimal [t] of three places reads back
    as the double: then [t] is what was sent. *)
Definition numeric_10_2 (x : Q) : Q :=
  let v := Js.number x in
  let t := round_half_away (v * 1000) # 1000 in
  let sent := if Qeq_bool (Js.number t) v then t else v in
  round_half_away (sent * 100) # 100.

(** What an accepted request does to the tables.  A bulk insert into
    [students] sends objects keyed by column name; the rows the database
    makes of them (generated id, defaults, casts) are [stored objs].
    The cost price of a stock item goes through its [numeric(10,2)]
    column; the other money columns keep the number they are sent. *)
Definition apply_request (stored : list (gmap string string) -> list Student.t)
    (rq : Request) (d : Db.t) : Db.t :=
  match rq with
  | insert_students objs =>
      Db.mk (Db.students d ++ stored objs) (Db.transactions d) (Db.stock_items d)
        (Db.purchases d) (Db.daily_sales d) (Db.stock_purchases d)
  | insert_purchases r =>
      Db.mk (Db.students d) (Db.transactions d) (Db.stock_items d)
        (Db.purchases d ++ [r]) (Db.daily_sales d) (Db.stock_purchases d)
  | insert_transactions r =>
      Db.mk (Db.students d) (Db.transactions d ++ [r]) (Db.stock_items d)
        (Db.purchases d) (Db.daily_sales d) (Db.stock_purchases d)
  | insert_daily_sales r =>
      Db.mk (Db.students d) (Db.transactions d) (Db.stock_items d)
        (Db.purchases d) (Db.daily_sales d ++ [r]) (Db.stock_purchases d)
  | insert_stock_purchases r =>
      Db.mk (Db.students d) (Db.transactions d) (Db.stock_items d)
        (Db.purchases d) (Db.daily_sales d) (Db.stock_purchases d ++ [r])
  | update_stock_items_quantity id q now =>
      Db.mk (Db.students d) (Db.transactions d)
        (map (set_stock_quantity id q now) (Db.stock_items d))
        (Db.purchases d) (Db.daily_sales d) (Db.stock_purchases d)
  | update_stock_items_quantity_cost id q c now =>
      Db.mk (Db.students d) (Db.transactions d)
        (map (set_stock_quantity_cost id q (numeric_10_2 c) now) (Db.stock_items d))
        (Db.purchases d) (Db.daily_sales d) (Db.stock_purchases d)
  | update_students_balance id b ts =>
      Db.mk (map (set_student_balance id b ts) (Db.students d)) (Db.transactions d)
        (Db.stock_items d) (Db.purchases d) (Db.daily_sales d) (Db.stock_purchases d)
  | update_students_deposit id b tp =>
      Db.mk (map (set_student_deposit id b tp) (Db.students d)) (Db.transactions d)
        (Db.stock_items d) (Db.purchases d) (Db.daily_sales d) (Db.stock_purchases d)
  | _ => d
  end.

(** [.order(column)]: rows sorted by a text column (byte order stands for
    the collation of the database). *)
Definition order_by {A} (key : A -> string) (l : list A) : list A :=
  merge_sort (fun a b => Is_true (String.leb (key a) (key b))) l.

(** ** The monad of a handler: state, and the exception of [throw] *)

Inductive Toast :=
| toast_error (msg : string)
| toast_success (msg : string).

Record World := mkWorld {
  db : Db.t;
  (** the backend's answer to each coming request, in order: [Some e]
      is an error response that changes nothing, [None] (and an exhausted
      list) lets the request through *)
  faults : list (option PgError);
  clock : string;
  (** the rows the database stores for the objects of a bulk insert
      into [students] *)
  students_of : list (gmap string string) -> list Student.t;
  log : list Request;
  toasts : list Toast }.

Inductive Res (A : Type) :=
| Ok (a : A)
| Thrown (e : PgError).
Arguments Ok {A} a.
Arguments Thrown {A} e.

Definition M (A : Type) : Type := World -> Res A * World.

Definition ret {A} (a : A) : M A := fun w => (Ok a, w).

Definition bind {A B} (m : M A) (k : A -> M B) : M B := fun w =>
  match m w with
  | (Ok a, w') => k a w'
  | (Thrown e, w') => (Thrown e, w')
  end.

Declare Scope handler_scope.
Delimit Scope handler_scope with handler.
Notation "x <- m ;; k" := (bind m (fun x => k))
  (at level 100, m at next level, right associativity) : handler_scope.
Notation "m ;; k" := (bind m (fun _ => k))
  (at level 100, right associativity) : handler_scope.
Local Open Scope handler_scope.

(** [throw e] *)
Definition throw {A} (e : PgError) : M A := fun w => (Thrown e, w).

(** [try { body } catch (error) { handler }] *)
Definition try_catch {A} (body : M A) (handler : PgError -> M A) : M A := fun w =>
  match body w with
  | (Thrown e, w') => handler e w'
  | r => r
  end.

(** [toast.error(msg)] and [toast.success(msg)] *)
Definition toast (t : Toast) : M unit := fun w =>
  (Ok tt, mkWorld (db w) (faults w) (clock w) (students_of w) (log w) (toasts w ++ [t])).

(** [new Date().toISOString()] *)
Definition now : M string := fun w => (Ok (clock w), w).

(** One awaited round-trip: the request is logged, the next answer of the
    backend is consumed, and either the error comes back or the request
    is applied and [read] builds the data from the tables. *)
Definition call {A} (rq : Request) (read : Db.t -> PgError + A) : M (PgError + A) := fun w =>
  let lg := log w ++ [rq] in
  match faults w with
  | Some e :: fs =>
      (Ok (inl e), mkWorld (db w) fs (clock w) (students_of w) lg (toasts w))
  | fs =>
      let d := apply_request (students_of w) rq (db w) in
      (Ok (read d), mkWorld d (tail fs) (clock w) (students_of w) lg (toasts w))
  end.

(** An insert or update: [{ error }] of the response. *)
Definition write (rq : Request) : M (option PgError) :=
  r <- call rq (fun _ => inr tt) ;;
  ret (match r with inl e => Some e | inr _ => None end).

(** [if (error) throw error] *)
Definition throw_if (e : option PgError) : M unit :=
  match e with
  | Some e => throw e
  | None => ret tt
  end.

(** ** Student purchases view (src/unnamed/part_005, component [Purchases]) *)

Module Purchases.

Record FormData := mkForm {
  student_id : string;
  item_id : string;
  quantity : string }.

Record State := mkState {
  purchases : list Purchase.t;
  students : list Student.t;
  stockItems : list StockItem.t;
  loading : bool;
  showAddForm : bool;
  formData : FormData }.

Section Handlers.
Context {rt : Js.JsRuntime}.

(** The three selects are sent together; the first error among the
    responses, in the order purchases, students, stock, is thrown.  The
    purchases come newest first; their join with the names of student and
    item, used only for display, is left out. *)
Definition fetchData (st : State) : M State :=
  st' <- try_catch
    (purchasesResponse <- call select_purchases (fun d => inr (rev (Db.purchases d))) ;;
     studentsResponse <-
       call select_students (fun d => inr (order_by Student.name (Db.students d))) ;;
     stockResponse <-
       call select_stock_items (fun d => inr (order_by StockItem.item_name (Db.stock_items d))) ;;
     match purchasesResponse, studentsResponse, stockResponse with
     | inl e, _, _ => throw e
     | _, inl e, _ => throw e
     | _, _, inl e => throw e
     | inr ps, inr ss, inr its =>
         ret (mkState ps ss its (loading st) (showAddForm st) (formData st))
     end)
    (fun _ => toast (toast_error "Failed to load data") ;; ret st) ;;
  ret (mkState (purchases st') (students st') (stockItems st') false
         (showAddForm st') (formData st')).

Definition handleSubmit (st : State) : M State :=
  let f := formData st in
  if negb (Js.truthy (student_id f)) || negb (Js.truthy (item_id f))
     || negb (Js.truthy (quantity f))
  then toast (toast_error "Please fill in all fields") ;; ret st
  else
  match Js.parseInt (quantity f) with
  | None => toast (toast_error "Please enter a valid quantity") ;; ret st
  | Some quantity =>
  if quantity <=? 0
  then toast (toast_error "Please enter a valid quantity") ;; ret st
  else
  try_catch
    (match Js.find (fun item => String.eqb (StockItem.id item) (item_id f)) (stockItems st),
           Js.find (fun s => String.eqb (Student.id s) (student_id f)) (students st) with
     | Some stockItem, Some student =>
         if StockItem.quantity stockItem <? quantity
         then toast (toast_error "Insufficient stock quantity") ;; ret st
         else
         let totalPrice := (StockItem.selling_price stockItem * inject_Z quantity)%Q in
         if Js.Qltb (Student.balance student) totalPrice
         then toast (toast_error "Insufficient student balance") ;; ret st
         else
         (* Add purchase record *)
         purchaseError <- write (insert_purchases
           (Purchase.mk (student_id f) (item_id f) quantity totalPrice)) ;;
         throw_if purchaseError ;;
         (* Update stock quantity *)
         t <- now ;;
         stockError <- write (update_stock_items_quantity (item_id f)
           (StockItem.quantity stockItem - quantity) t) ;;
         throw_if stockError ;;
         (* Update student balance and total spent *)
         studentError <- write (update_students_balance (student_id f)
           (Student.balance student - totalPrice)%Q
           (Student.total_spent student + totalPrice)%Q) ;;
         throw_if studentError ;;
         (* Add transaction record for the purchase *)
         transactionError <- write (insert_transactions
           (Transaction.mk (student_id f) totalPrice spend credit
              (Some ("Purchase: " ++ StockItem.item_name stockItem ++ " ("
                       ++ Js.string_of_Z quantity ++ " items)")%string))) ;;
         throw_if transactionError ;;
         toast (toast_success "Purchase completed successfully") ;;
         fetchData (mkState (purchases st) (students st) (stockItems st) (loading st)
                      false (mkForm "" "" ""))
     | _, _ => toast (toast_error "Invalid item or student selected") ;; ret st
     end)
    (fun _ => toast (toast_error "Failed to process purchase") ;; ret st)
  end.

End Handlers.
End Purchases.

(** ** Daily sales view (src/unnamed/part_004, component [DailySales]) *)

(** [new Date().toISOString().split('T')[0]] *)
Definition today : M string :=
  t <- now ;; ret (default "" (head (Js.split "T" t))).

Module DailySales.

Record FormData := mkForm {
  item_id : string;
  quantity_sold : string;
  sale_date : string;
  notes : string }.

Record State := mkState {
  dailySales : list DailySale.t;
  stockItems : list StockItem.t;
  loading : bool;
  showAddForm : bool;
  formData : FormData }.

Section Handlers.
Context {rt : Js.JsRuntime}.

Definition fetchData (st : State) : M State :=
  st' <- try_catch
    (salesResponse <-
       call select_daily_sales
         (fun d => inr (rev (order_by DailySale.sale_date (Db.daily_sales d)))) ;;
     stockResponse <-
       call select_stock_items (fun d => inr (order_by StockItem.item_name (Db.stock_items d))) ;;
     match salesResponse, stockResponse with
     | inl e, _ => throw e
     | _, inl e => throw e
     | inr sales, inr its =>
         ret (mkState sales its (loading st) (showAddForm st) (formData st))
     end)
    (fun _ => toast (toast_error "Failed to load data") ;; ret st) ;;
  ret (mkState (dailySales st') (stockItems st') false (showAddForm st') (formData st')).

Definition handleSubmit (st : State) : M State :=
  let f := formData st in
  if negb (Js.truthy (item_id f)) || negb (Js.truthy (quantity_sold f))
  then toast (toast_error "Please fill in all required fields") ;; ret st
  else
  match Js.parseInt (quantity_sold f) with
  | None => toast (toast_error "Please enter a valid quantity") ;; ret st
  | Some quantitySold =>
  if quantitySold <=? 0
  then toast (toast_error "Please enter a valid quantity") ;; ret st
  else
  match Js.find (fun item => String.eqb (StockItem.id item) (item_id f)) (stockItems st) with
  | None => toast (toast_error "Selected item not found") ;; ret st
  | Some selectedItem =>
  if StockItem.quantity selectedItem <? quantitySold
  then toast (toast_error ("Insufficient stock. Available: "
                ++ Js.string_of_Z (StockItem.quantity selectedItem))%string) ;; ret st
  else
  try_catch
    ((* Calculate values *)
     let sellingPricePerUnit := StockItem.selling_price selectedItem in
     let costPricePerUnit := StockItem.cost_price selectedItem in
     let totalRevenue := Js.mul (inject_Z quantitySold) sellingPricePerUnit in
     let totalCost := Js.mul (inject_Z quantitySold) costPricePerUnit in
     let profit := Js.sub totalRevenue totalCost in
     (* Add daily sale record *)
     saleError <- write (insert_daily_sales
       (DailySale.mk (item_id f) quantitySold sellingPricePerUnit totalRevenue
          costPricePerUnit totalCost profit (sale_date f)
          (if Js.truthy (notes f) then Some (notes f) else None))) ;;
     throw_if saleError ;;
     (* Update stock quantity *)
     let newQuantity := StockItem.quantity selectedItem - quantitySold in
     t <- now ;;
     stockError <- write (update_stock_items_quantity (item_id f) newQuantity t) ;;
     throw_if stockError ;;
     toast (toast_success "Daily sale recorded successfully") ;;
     d <- today ;;
     fetchData (mkState (dailySales st) (stockItems st) (loading st) false
                  (mkForm "" "" d "")))
    (fun _ => toast (toast_error "Failed to record daily sale") ;; ret st)
  end
  end.

End Handlers.
End DailySales.

(** ** Stock purchases view (src/unnamed/part_004, second component [Purchases]) *)

Module StockPurchases.

Record FormData := mkForm {
  item_id : string;
  quantity : string;
  cost_per_unit : string;
  supplier_name : string;
  purchase_date : string;
  notes : string }.

Record State := mkState {
  stockPurchases : list StockPurchase.t;
  stockItems : list StockItem.t;
  loading : bool;
  showAddForm : bool;
  formData : FormData }.

Section Handlers.
Context {rt : Js.JsRuntime}.

Definition fetchData (st : State) : M State :=
  st' <- try_catch
    (purchasesResponse <-
       call select_stock_purchases
         (fun d => inr (rev (order_by StockPurchase.purchase_date (Db.stock_purchases d)))) ;;
     stockResponse <-
       call select_stock_items (fun d => inr (order_by StockItem.item_name (Db.stock_items d))) ;;
     match purchasesResponse, stockResponse with
     | inl e, _ => throw e
     | _, inl e => throw e
     | inr ps, inr its =>
         ret (mkState ps its (loading st) (showAddForm st) (formData st))
     end)
    (fun _ => toast (toast_error "Failed to load data") ;; ret st) ;;
  ret (mkState (stockPurchases st') (stockItems st') false (showAddForm st') (formData st')).

Definition handleSubmit (st : State) : M State :=
  let f := formData st in
  if negb (Js.truthy (item_id f)) || negb (Js.truthy (quantity f))
     || negb (Js.truthy (cost_per_unit f)) || negb (Js.truthy (supplier_name f))
  then toast (toast_error "Please fill in all required fields") ;; ret st
  else
  match Js.parseInt (quantity f) with
  | None => toast (toast_error "Please enter a valid quantity") ;; ret st
  | Some quantity =>
  if quantity <=? 0
  then toast (toast_error "Please enter a valid quantity") ;; ret st
  else
  match Js.parseFloat (cost_per_unit f) with
  | None => toast (toast_error "Please enter a valid cost per unit") ;; ret st
  | Some costPerUnit =>
  if Qle_bool costPerUnit 0
  then toast (toast_error "Please enter a valid cost per unit") ;; ret st
  else
  let totalCost := Js.mul (inject_Z quantity) costPerUnit in
  try_catch
    ((* Add stock purchase record *)
     purchaseError <- write (insert_stock_purchases
       (StockPurchase.mk (item_id f) quantity costPerUnit totalCost
          (supplier_name f) (purchase_date f)
          (if Js.truthy (notes f) then Some (notes f) else None))) ;;
     throw_if purchaseError ;;
     (* Update stock quantity and cost price *)
     match Js.find (fun item => String.eqb (StockItem.id item) (item_id f)) (stockItems st) with
     | Some stockItem =>
         let newQuantity := StockItem.quantity stockItem + quantity in
         (* Update weighted average cost price *)
         let currentTotalValue :=
           Js.mul (inject_Z (StockItem.quantity stockItem)) (StockItem.cost_price stockItem) in
         let newTotalValue := Js.add currentTotalValue totalCost in
         let newCostPrice := Js.div newTotalValue (inject_Z newQuantity) in
         t <- now ;;
         stockError <- write (update_stock_items_quantity_cost (item_id f)
           newQuantity newCostPrice t) ;;
         throw_if stockError
     | None => ret tt
     end ;;
     toast (toast_success "Stock purchase recorded successfully") ;;
     d <- today ;;
     fetchData (mkState (stockPurchases st) (stockItems st) (loading st) false
                  (mkForm "" "" "" "" d "")))
    (fun _ => toast (toast_error "Failed to record stock purchase") ;; ret st)
  end
  end.

End Handlers.
End StockPurchases.

(** ** src/components/Purchases.tsx: the stock purchases list whose form
    records a daily sale dated today *)

Module PurchasesTsx.

Record FormData := mkForm {
  item_id : string;
  quantity : string }.

Record State := mkState {
  stockPurchases : list StockPurchase.t;
  stockItems : list StockItem.t;
  loading : bool;
  showAddForm : bool;
  formData : FormData }.

Section Handlers.
Context {rt : Js.JsRuntime}.

Definition fetchData (st : State) : M State :=
  st' <- try_catch
    (purchasesResponse <-
       call select_stock_purchases
         (fun d => inr (rev (order_by StockPurchase.purchase_date (Db.stock_purchases d)))) ;;
     stockResponse <-
       call select_stock_items (fun d => inr (order_by StockItem.item_name (Db.stock_items d))) ;;
     match purchasesResponse, stockResponse with
     | inl e, _ => throw e
     | _, inl e => throw e
     | inr ps, inr its =>
         ret (mkState ps its (loading st) (showAddForm st) (formData st))
     end)
    (fun _ => toast (toast_error "Failed to load data") ;; ret st) ;;
  ret (mkState (stockPurchases st') (stockItems st') false (showAddForm st') (formData st')).

Definition handleSubmit (st : State) : M State :=
  let f := formData st in
  if negb (Js.truthy (item_id f)) || negb (Js.truthy (quantity f))
  then toast (toast_error "Please fill in all required fields") ;; ret st
  else
  match Js.parseInt (quantity f) with
  | None => toast (toast_error "Please enter a valid quantity") ;; ret st
  | Some quantity =>
  if quantity <=? 0
  then toast (toast_error "Please enter a valid quantity") ;; ret st
  else
  match Js.find (fun item => String.eqb (StockItem.id item) (item_id f)) (stockItems st) with
  | None => toast (toast_error "Selected item not found") ;; ret st
  | Some selectedItem =>
  if StockItem.quantity selectedItem <? quantity
  then toast (toast_error ("Insufficient stock. Available: "
                ++ Js.string_of_Z (StockItem.quantity selectedItem))%string) ;; ret st
  else
  try_catch
    ((* Calculate values *)
     let sellingPricePerUnit := StockItem.selling_price selectedItem in
     let costPricePerUnit := StockItem.cost_price selectedItem in
     let totalRevenue := Js.mul (inject_Z quantity) sellingPricePerUnit in
     let totalCost := Js.mul (inject_Z quantity) costPricePerUnit in
     let profit := Js.sub totalRevenue totalCost in
     (* Add daily sale record *)
     d <- today ;;
     saleError <- write (insert_daily_sales
       (DailySale.mk (item_id f) quantity sellingPricePerUnit totalRevenue
          costPricePerUnit totalCost profit d None)) ;;
     throw_if saleError ;;
     (* Update stock quantity *)
     let newQuantity := StockItem.quantity selectedItem - quantity in
     t <- now ;;
     stockError <- write (update_stock_items_quantity (item_id f) newQuantity t) ;;
     throw_if stockError ;;
     toast (toast_success "Daily sale recorded successfully") ;;
     fetchData (mkState (stockPurchases st) (stockItems st) (loading st) false
                  (mkForm "" "")))
    (fun _ => toast (toast_error "Failed to record daily sale") ;; ret st)
  end
  end.

End Handlers.
End PurchasesTsx.

(** ** Students view (src/unnamed/part_006): CSV import *)

Module Students.

Record State := mkState {
  students : list Student.t;
  loading : bool;
  classes : list string;
  showImportForm : bool;
  csvFile : option string;
  importing : bool }.

(** [[...new Set(xs)]]: the first occurrence of each value, in order. *)
Fixpoint unique (seen : list string) (xs : list string) : list string :=
  match xs with
  | [] => []
  | x :: xs' =>
      if Js.includes seen x then unique seen xs' else x :: unique (x :: seen) xs'
  end.

Definition fetchStudents (st : State) : M State :=
  st' <- try_catch
    (r <- call select_students (fun d => inr (order_by Student.name (Db.students d))) ;;
     match r with
     | inl error => throw error
     | inr data =>
         (* Extract unique class codes *)
         let uniqueClasses := unique [] (map Student.class_code data) in
         ret (mkState data (loading st) uniqueClasses (showImportForm st)
                (csvFile st) (importing st))
     end)
    (fun _ => toast (toast_error "Failed to load students") ;; ret st) ;;
  ret (mkState (students st') false (classes st') (showImportForm st')
         (csvFile st') (importing st')).

Definition requiredHeaders : list string := ["name"; "admission_no"; "class_code"].

(** [headers.forEach((header, index) => student[header] = values[index])]
    on a fresh object: a later column of the same name overwrites.  The
    name [__proto__] is the accessor of the prototype: assigning a
    string to it changes nothing and makes no key. *)
Definition row_object (headers values : list string) : gmap string string :=
  fold_left (fun student hv =>
               if String.eqb (fst hv) "__proto__" then student
               else <[fst hv := snd hv]> student)
    (zip headers values) ∅.

(** [student.name]: absent reads as undefined, which is falsy like [""]. *)
Definition field (student : gmap string string) (k : string) : string :=
  default "" (student !! k).

(** The [for] loop over the data lines, [i] being the index of the first
    of [rows] in [lines]. *)
Fixpoint import_rows (headers : list string) (i : nat) (rows : list string)
    (studentsToImport : list (gmap string string)) (errors : list string)
    : list (gmap string string) * list string :=
  match rows with
  | [] => (studentsToImport, errors)
  | line :: rest =>
      let values := map Js.trim (Js.split "," line) in
      if negb (length values =? length headers)%nat
      then import_rows headers (S i) rest studentsToImport
             (errors ++ [("Row " ++ Js.string_of_nat (i + 1)
                          ++ ": Incorrect number of columns")%string])
      else
      let student := row_object headers values in
      if negb (Js.truthy (field student "name"))
         || negb (Js.truthy (field student "admission_no"))
         || negb (Js.truthy (field student "class_code"))
      then import_rows headers (S i) rest studentsToImport
             (errors ++ [("Row " ++ Js.string_of_nat (i + 1)
                          ++ ": Missing required fields")%string])
      else import_rows headers (S i) rest (studentsToImport ++ [student]) errors
  end.

(** [text.split('\n').filter(line => line.trim())] *)
Definition csv_lines (text : string) : list string :=
  List.filter (fun line => Js.truthy (Js.trim line)) (Js.split "010" text).

(** [lines[0].split(',').map(h => h.trim().toLowerCase())] *)
Definition csv_headers (line0 : string) : list string :=
  map (fun h => Js.toLowerCase (Js.trim h)) (Js.split "," line0).

Definition handleCsvImport (st : State) : M State :=
  match csvFile st with
  | None => toast (toast_error "Please select a CSV file") ;; ret st
  | Some text =>
  st' <- try_catch
    (let lines := csv_lines text in
     if (length lines <? 2)%nat
     then toast (toast_error "CSV file must contain at least a header and one data row") ;;
          ret st
     else
     let headers := csv_headers (default "" (head lines)) in
     let missingHeaders :=
       List.filter (fun h => negb (Js.includes headers h)) requiredHeaders in
     if (0 <? length missingHeaders)%nat
     then toast (toast_error ("Missing required columns: "
                   ++ Js.join ", " missingHeaders)%string) ;;
          ret st
     else
     let '(studentsToImport, errors) := import_rows headers 1 (tail lines) [] [] in
     if (0 <? length errors)%nat
     then toast (toast_error ("Import errors: " ++ Js.join ", " errors)%string) ;; ret st
     else
     if (length studentsToImport =? 0)%nat
     then toast (toast_error "No valid students found in CSV") ;; ret st
     else
     error <- write (insert_students studentsToImport) ;;
     match error with
     | Some e =>
         if String.eqb (code e) "23505"
         then toast (toast_error "Some admission numbers already exist") ;; ret st
         else throw e
     | None =>
         toast (toast_success ("Successfully imported "
                  ++ Js.string_of_nat (length studentsToImport) ++ " students")%string) ;;
         fetchStudents (mkState (students st) (loading st) (classes st) false None true)
     end)
    (fun _ => toast (toast_error "Failed to import students") ;; ret st) ;;
  ret (mkState (students st') (loading st') (classes st') (showImportForm st')
         (csvFile st') false)
  end.

End Students.

(** ** Balance check view (second component of src/components/LoginForm.tsx) *)

Module BalanceCheck.

Inductive SearchType := admission | class.

Record State := mkState {
  searchType : SearchType;
  searchValue : string;
  loading : bool;
  student : option Student.t;
  students : list Student.t }.

(** [.single()]: exactly one row, or the error PGRST116. *)
Definition single (rows : list Student.t) : PgError + Student.t :=
  match rows with
  | [row] => inr row
  | _ => inl {| code := "PGRST116" |}
  end.

Definition handleSearch (st : State) : M State :=
  if negb (Js.truthy (Js.trim (searchValue st)))
  then toast (toast_error "Please enter a search value") ;; ret st
  else
  let st0 := mkState (searchType st) (searchValue st) true None [] in
  st' <- try_catch
    (match searchType st with
     | admission =>
         r <- call (select_students_eq_admission_no (Js.trim (searchValue st)))
                (fun d => single (List.filter
                   (fun s => String.eqb (Student.admission_no s) (Js.trim (searchValue st)))
                   (Db.students d))) ;;
         match r with
         | inl error =>
             if String.eqb (code error) "PGRST116"
             then toast (toast_error "Student not found") ;; ret st0
             else throw error
         | inr data =>
             ret (mkState (searchType st0) (searchValue st0) (loading st0) (Some data)
                    (students st0))
         end
     | class =>
         r <- call (select_students_eq_class_code (Js.trim (searchValue st)))
                (fun d => inr (order_by Student.name (List.filter
                   (fun s => String.eqb (Student.class_code s) (Js.trim (searchValue st)))
                   (Db.students d)))) ;;
         match r with
         | inl error => throw error
         | inr data =>
             if (length data =? 0)%nat
             then toast (toast_error "No students found in this class") ;; ret st0
             else ret (mkState (searchType st0) (searchValue st0) (loading st0)
                         (student st0) data)
         end
     end)
    (fun _ => toast (toast_error "An error occurred while searching") ;; ret st0) ;;
  ret (mkState (searchType st') (searchValue st') false (student st') (students st')).

End BalanceCheck.

(** ** Transactions view *)

Module Transactions.

(** Modelled from the spec: the Transactions view, whose source is not
    among the files.  The spec has it record deposits and spends of a
    positive amount against a student and rewrite the student's cached
    money fields: the log entry is inserted, then a deposit adds the
    amount to [balance] and [total_paid], a spend takes it from [balance]
    and adds it to [total_spent].  [student] is the row the view holds. *)
Definition record (student : Student.t) (amount : Q) (type : transaction_type)
    (method : payment_method) (note : option string) : M unit :=
  transactionError <- write (insert_transactions
    (Transaction.mk (Student.id student) amount type method note)) ;;
  throw_if transactionError ;;
  studentError <- write
    (match type with
     | deposit =>
         update_students_deposit (Student.id student)
           (Student.balance student + amount)%Q (Student.total_paid student + amount)%Q
     | spend =>
         update_students_balance (Student.id student)
           (Student.balance student - amount)%Q (Student.total_spent student + amount)%Q
     end) ;;
  throw_if studentError.

(** Modelled from the spec: one submission in the Transactions view,
    which like the other views works on the students it fetched and
    catches every failure.  The toasts, whose texts the spec does not
    give, are left out. *)
Definition handleSubmit (student_id : string) (amount : Q) (type : transaction_type)
    (method : payment_method) (note : option string) : M unit :=
  try_catch
    (r <- call select_students (fun d => inr (order_by Student.name (Db.students d))) ;;
     match r with
     | inl error => throw error
     | inr students =>
         match Js.find (fun s => String.eqb (Student.id s) student_id) students with
         | Some student =>
             if Qle_bool amount 0 then ret tt
             else record student amount type method note
         | None => ret tt
         end
     end)
    (fun _ => ret tt).

End Transactions.

(** ** Sequences of operations on the wallets *)

(** The student-facing operations an administrator performs one after
    the other: a purchase form submitted in the Purchases view, or a
    deposit or spend recorded in the Transactions view.  A view fetches
    its rows when it is opened, so each operation starts from a fetch. *)
Inductive WalletOp :=
| op_purchase (f : Purchases.FormData)
| op_transaction (student_id : string) (amount : Q) (type : transaction_type)
    (method : payment_method) (note : option string).

Definition run_op {rt : Js.JsRuntime} (op : WalletOp) : M unit :=
  match op with
  | op_purchase f =>
      st <- Purchases.fetchData (Purchases.mkState [] [] [] true false (Purchases.mkForm "" "" "")) ;;
      Purchases.handleSubmit
        (Purchases.mkState (Purchases.purchases st) (Purchases.students st)
           (Purchases.stockItems st) (Purchases.loading st) true f) ;;
      ret tt
  | op_transaction student_id amount type method note =>
      Transactions.handleSubmit student_id amount type method note
  end.

Fixpoint run_ops {rt : Js.JsRuntime} (ops : list WalletOp) : M unit :=
  match ops with
  | [] => ret tt
  | op :: ops' => run_op op ;; run_ops ops'
  end.

(** The intended invariant of a student row. *)
Definition balanced (s : Student.t) : Prop :=
  (Student.balance s == Student.total_paid s - Student.total_spent s)%Q.

(** ** Vocabulary of the statements *)

Section PurchasesVocabulary.
Context {rt : Js.JsRuntime}.
Import Purchases.

(** The four writes of an accepted purchase, in the order they are sent. *)
Definition purchase_writes (st : State) (q : Z) (item : StockItem.t) (student : Student.t)
    (t : string) : list Request :=
  let f := formData st in
  let totalPrice := (StockItem.selling_price item * inject_Z q)%Q in
  [ insert_purchases (Purchase.mk (student_id f) (item_id f) q totalPrice);
    update_stock_items_quantity (item_id f) (StockItem.quantity item - q) t;
    update_students_balance (student_id f) (Student.balance student - totalPrice)%Q
      (Student.total_spent student + totalPrice)%Q;
    insert_transactions (Transaction.mk (student_id f) totalPrice spend credit
      (Some ("Purchase: " ++ StockItem.item_name item ++ " ("
               ++ Js.string_of_Z q ++ " items)")%string)) ].

(** The form passes every check of the handler. *)
Definition purchase_accepted (st : State) (q : Z) (item : StockItem.t) (student : Student.t) : Prop :=
  let f := formData st in
  student_id f <> "" /\ item_id f <> "" /\ quantity f <> "" /\
  Js.parseInt (quantity f) = Some q /\ 0 < q /\
  Js.find (fun i => String.eqb (StockItem.id i) (item_id f)) (stockItems st) = Some item /\
  Js.find (fun s => String.eqb (Student.id s) (student_id f)) (students st) = Some student /\
  q <= StockItem.quantity item /\
  (StockItem.selling_price item * inject_Z q <= Student.balance student)%Q.

End PurchasesVocabulary.

(** A row is balanced if it is a row of the student [who]. *)
Definition balanced_row (who : string) (s : Student.t) : Prop :=
  Student.id s = who -> balanced s.

(** The students table is well formed for the proof of the invariant:
    no coming request fails, ids are unique (primary key) and the rows
    of [who] are balanced. *)
Definition wallets_ok (who : string) (w : World) : Prop :=
  faults w = [] /\
  NoDup (map Student.id (Db.students (db w))) /\
  Forall (balanced_row who) (Db.students (db w)).

Section StockPurchasesVocabulary.
Context {rt : Js.JsRuntime}.
Import StockPurchases.

(** The stock purchase form passes every check of the handler, with
    quantity [q] and cost per unit [c]. *)
Definition stock_purchase_valid (st : State) (q : Z) (c : Q) : Prop :=
  let f := formData st in
  item_id f <> "" /\ quantity f <> "" /\ cost_per_unit f <> "" /\ supplier_name f <> "" /\
  Js.parseInt (quantity f) = Some q /\ 0 < q /\
  Js.parseFloat (cost_per_unit f) = Some c /\ (0 < c)%Q.

(** The row the form inserts into [stock_purchases]. *)
Definition stock_purchase_row (st : State) (q : Z) (c : Q) : StockPurchase.t :=
  let f := formData st in
  StockPurchase.mk (item_id f) q c (Js.mul (inject_Z q) c) (supplier_name f) (purchase_date f)
    (if Js.truthy (notes f) then Some (notes f) else None).

End StockPurchasesVocabulary.






(** The values of a data line, as the loop of the import splits it. *)
Definition row_values (line : string) : list string :=
  map Js.trim (Js.split "," line).

(** A data line the import cannot take: its number of comma-separated
    values differs from the number of header columns, or one of the
    three required fields of its object is empty. *)
Definition row_bad (headers : list string) (line : string) : Prop :=
  length (Js.split "," line) <> length headers \/
  exists k, In k Students.requiredHeaders /\
            Students.field (Students.row_object headers (row_values line)) k = "".

Definition row_ok (headers : list string) (line : string) : bool :=
  (length (row_values line) =? length headers)%nat
  && Js.truthy (Students.field (Students.row_object headers (row_values line)) "name")
  && Js.truthy (Students.field (Students.row_object headers (row_values line)) "admission_no")
  && Js.truthy (Students.field (Students.row_object headers (row_values line)) "class_code").

(** The header of a file: the columns of its first non-blank line. *)
Definition header_of (text : string) : list string :=
  Students.csv_headers (default "" (head (Students.csv_lines text))).

(** The data lines of a file: its non-blank lines after the first. *)
Definition data_lines (text : string) : list string :=
  tail (Students.csv_lines text).

(** C6 as the spec states it: a file whose header is not exactly the
    set of the three columns is rejected before any insert. *)
Definition import_requires_exact_header : Prop :=
  forall (st : Students.State) (w : World) (text : string),
    Students.csvFile st = Some text ->
    ~ (forall h, In h (header_of text) <-> In h Students.requiredHeaders) ->
    log (snd (Students.handleCsvImport st w)) = log w.

(** The backend lets the next [n] requests through. *)
Definition accepts (n : nat) (w : World) : Prop :=
  Forall (fun answer => answer = None) (take n (faults w)).

(** The weighted average of the cost prices, as the stock purchases
    view computes it for [q] units at [c] added to [item]. *)
Definition average_cost (item : StockItem.t) (q : Z) (c : Q) : Q :=
  Js.div
    (Js.add (Js.mul (inject_Z (StockItem.quantity item)) (StockItem.cost_price item))
            (Js.mul (inject_Z q) c))
    (inject_Z (StockItem.quantity item + q)).

(** C3 as the spec states it: after a stock purchase of [q] units at [c]
    the item has the quantity [Q + q] and the cost price
    [(Q*C + q*c) / (Q+q)]. *)
Definition cost_price_is_weighted_average : Prop :=
  forall (rt : Js.JsRuntime) (st : StockPurchases.State) (w : World) (q : Z) (c : Q)
         (item item' : StockItem.t),
    stock_purchase_valid st q c ->
    Js.find (fun i => String.eqb (StockItem.id i)
                        (StockPurchases.item_id (StockPurchases.formData st)))
      (StockPurchases.stockItems st) = Some item ->
    In item (Db.stock_items (db w)) ->
    0 <= StockItem.quantity item -> (0 <= StockItem.cost_price item)%Q ->
    accepts 2 w ->
    In item' (Db.stock_items (db (snd (StockPurchases.handleSubmit st w)))) ->
    StockItem.id item' = StockItem.id item ->
    StockItem.quantity item' = StockItem.quantity item + q /\
    (StockItem.cost_price item' ==
       (inject_Z (StockItem.quantity item) * StockItem.cost_price item + inject_Z q * c)
       / (inject_Z (StockItem.quantity item) + inject_Z q))%Q.

(** ** A small store, on which the statements are run *)

Module Sample.

Definition alice : Student.t :=
  Student.mk "s1" "Alice" "ASO/2024/001" "ND1A" 100 150 50 None "2025-08-01".
Definition bob : Student.t :=
  Student.mk "s2" "Bob" "ASO/2024/002" "ND1A" 5 5 0 None "2025-08-01".
Definition pen : StockItem.t := StockItem.mk "i1" "Pen" 10 3 5 "2025-08-01".
Definition ink : StockItem.t := StockItem.mk "i2" "Ink" 0 0 40 "2025-08-01".

Definition store : Db.t := Db.mk [bob; alice] [] [pen; ink] [] [] [].

(** The database gives an imported student the admission number as id. *)
Definition students_of (objs : list (gmap string string)) : list Student.t :=
  map (fun o => Student.mk (default "" (o !! "admission_no")) (default "" (o !! "name"))
                  (default "" (o !! "admission_no")) (default "" (o !! "class_code"))
                  0 0 0 None "2025-08-07") objs.

Definition world (fs : list (option PgError)) : World :=
  mkWorld store fs "2025-08-07T03:44:24.000Z" students_of [] [].

Definition network_error : PgError := {| code := "" |}.

(** The Purchases view after its fetch, with a form for Alice and pens. *)
Definition purchases (quantity : string) : Purchases.State :=
  Purchases.mkState [] [alice; bob] [ink; pen] false true
    (Purchases.mkForm "s1" "i1" quantity).

(** A day at the counter. *)
Definition day : list WalletOp :=
  [ op_purchase (Purchases.mkForm "s1" "i1" "3");
    op_transaction "s2" 20 deposit bycash None;
    op_transaction "s1" 10 spend online None ].

(** The stock purchases view after its fetch, with a form for [item_id]. *)
Definition stock_purchases (item_id quantity cost : string) : StockPurchases.State :=
  StockPurchases.mkState [] [ink; pen] false true
    (StockPurchases.mkForm item_id quantity cost "Acme" "2025-08-07" "").

(** The students view with a file chosen for import. *)
Definition students_view (text : string) : Students.State :=
  Students.mkState [alice; bob] false ["ND1A"] true (Some text) false.

(** The template of the view with a fourth column. *)
Definition csv_with_balance : string :=
  "name,admission_no,class_code,balance
John Doe,ASO/2024/001,ND1A,5000
Jane Smith,ASO/2024/002,ND1B,0".

(** A file with a short row and a row without admission number. *)
Definition csv_with_bad_rows : string :=
  "name,admission_no,class_code
John Doe,ASO/2024/001,ND1A
Jane Smith,ND1B
Mike Johnson,,HND2A".

Definition csv_without_class : string :=
  "name,admission_no
John Doe,ASO/2024/001".

(** The balance check page with a query typed in. *)
Definition balance_check (t : BalanceCheck.SearchType) (value : string) : BalanceCheck.State :=
  BalanceCheck.mkState t value false None [].




End Sample.

(** Unfolding the monad when a handler is run on a world. *)
Ltac exec :=
  cbv [bind try_catch write call throw_if toast ret now throw today];
  cbn [fst snd db faults clock students_of log toasts tail].


(** ** Vocabulary of the further statements *)

(** A request that writes no negative stock quantity and no negative
    balance. *)
Definition nonnegative_write (rq : Request) : Prop :=
  match rq with
  | update_stock_items_quantity _ quantity _ => 0 <= quantity
  | update_students_balance _ balance _ => (0 <= balance)%Q
  | _ => True
  end.

(** The three selects of the fetch of the purchases view. *)
Definition purchases_selects : list Request :=
  [select_purchases; select_students; select_stock_items].

(** The comparison [selectedStudent.balance < totalPrice] of the
    purchase form, as JavaScript evaluates it on doubles, lets [q]
    pieces of [item] pass for [student]. *)
Definition balance_covers (item : StockItem.t) (q : Z) (student : Student.t) : Prop :=
  Js.lt (Student.balance student) (Js.mul (StockItem.selling_price item) (inject_Z q)) = false.

(** The items the purchase form offers (src/unnamed/part_005, the item
    [select]): [stockItems.filter(item => item.quantity > 0)]. *)
Definition offeredItems (st : Purchases.State) : list StockItem.t :=
  List.filter (fun item => 0 <? StockItem.quantity item) (Purchases.stockItems st).

(** The date part of an ISO timestamp, [t.split('T')[0]]. *)
Definition iso_date (t : string) : string := default "" (head (Js.split "T" t)).

Section DailySalesVocabulary.
Context {rt : Js.JsRuntime}.

(** The form of the daily sales view passes every check of the handler,
    with quantity [q] of [item]. *)
Definition daily_sale_accepted (st : DailySales.State) (q : Z) (item : StockItem.t) : Prop :=
  let f := DailySales.formData st in
  DailySales.item_id f <> "" /\ DailySales.quantity_sold f <> "" /\
  Js.parseInt (DailySales.quantity_sold f) = Some q /\ 0 < q /\
  Js.find (fun i => String.eqb (StockItem.id i) (DailySales.item_id f))
    (DailySales.stockItems st) = Some item /\
  q <= StockItem.quantity item.

(** The row a sale of [q] pieces of [item] inserts: revenue
    [q * selling_price], cost [q * cost_price] and profit
    [revenue - cost], as JavaScript computes them. *)
Definition sale_row (item_id : string) (q : Z) (item : StockItem.t) (date : string)
    (notes : option string) : DailySale.t :=
  DailySale.mk item_id q (StockItem.selling_price item)
    (Js.mul (inject_Z q) (StockItem.selling_price item)) (StockItem.cost_price item)
    (Js.mul (inject_Z q) (StockItem.cost_price item))
    (Js.sub (Js.mul (inject_Z q) (StockItem.selling_price item))
            (Js.mul (inject_Z q) (StockItem.cost_price item)))
    date notes.

(** The row the daily sales view inserts for its form. *)
Definition daily_sale_row (st : DailySales.State) (q : Z) (item : StockItem.t) : DailySale.t :=
  let f := DailySales.formData st in
  sale_row (DailySales.item_id f) q item (DailySales.sale_date f)
    (if Js.truthy (DailySales.notes f) then Some (DailySales.notes f) else None).


End DailySalesVocabulary.


(** A file the import takes: the header has the three columns, there is
    a data line and every data line is good. *)
Definition csv_well_formed (text : string) : Prop :=
  (forall h, In h Students.requiredHeaders -> In h (header_of text)) /\
  data_lines text <> [] /\
  (forall line, In line (data_lines text) -> row_ok (header_of text) line = true).

(** The objects the import builds, one for each data line. *)
Definition csv_objects (text : string) : list (gmap string string) :=
  map (fun line => Students.row_object (header_of text) (row_values line)) (data_lines text).

(** A string of white space only. *)
Definition all_white_space (s : string) : Prop :=
  forall c, In c (list_ascii_of_string s) -> Js.is_white_space c = true.

(** The view [st] with the file [text] chosen. *)
Definition with_file (st : Students.State) (text : string) : Students.State :=
  Students.mkState (Students.students st) (Students.loading st) (Students.classes st)
    (Students.showImportForm st) (Some text) (Students.importing st).

(** The balance check page [st] with [value] typed as the query. *)
Definition with_query (st : BalanceCheck.State) (value : string) : BalanceCheck.State :=
  BalanceCheck.mkState (BalanceCheck.searchType st) value (BalanceCheck.loading st)
    (BalanceCheck.student st) (BalanceCheck.students st).

(** The students of the table with the admission number [v]. *)
Definition admitted_as (v : string) (d : Db.t) : list Student.t :=
  List.filter (fun s => String.eqb (Student.admission_no s) v) (Db.students d).

(** ** Closeness of doubles *)

(** Half a unit in the last place of a double, relative to its value,
    and half the spacing of the doubles next to zero. *)
Definition half_ulp : Q := 1 # 9007199254740992.
Definition tiny : Q := / inject_Z (2 ^ 1075).

(** [y] is a number that is not negative and is [x] up to [k] units in
    the last place and [E]. *)
Definition near (k E x y : Q) : Prop :=
  (0 <= y /\ x * (1 - k * (2 * half_ulp)) - E <= y <= x * (1 + k * (2 * half_ulp)) + E)%Q.

(** ** Further functions of the views *)

Module JsString.

(** [s.includes(t)] on strings: [t] occurs in [s]; the empty string
    occurs in every string. *)
Fixpoint includes (s t : string) : bool :=
  String.prefix t s ||
  match s with
  | EmptyString => false
  | String _ s' => includes s' t
  end.

End JsString.

(** *** Daily sales view: the statistics of the day
    (src/unnamed/part_004, [getTodayStats]) *)

Module TodayStats.
Record t := mk {
  totalItems : Z;
  totalRevenue : Q;
  totalProfit : Q }.
End TodayStats.

Definition getTodayStats (st : DailySales.State) : M TodayStats.t :=
  today <- today ;;
  let todaySales :=
    List.filter (fun sale => String.eqb (DailySale.sale_date sale) today)
      (DailySales.dailySales st) in
  ret (TodayStats.mk
         (fold_left (fun sum sale => sum + DailySale.quantity_sold sale) todaySales 0)
         (fold_left (fun sum sale => Js.add sum (DailySale.total_revenue sale)) todaySales 0%Q)
         (fold_left (fun sum sale => Js.add sum (DailySale.profit sale)) todaySales 0%Q)).

(** The daily sales view [st] holding the rows [sales]. *)
Definition with_sales (st : DailySales.State) (sales : list DailySale.t) : DailySales.State :=
  DailySales.mkState sales (DailySales.stockItems st) (DailySales.loading st)
    (DailySales.showAddForm st) (DailySales.formData st).

(** *** Stock purchases view: profit of a purchase
    (src/unnamed/part_004 and src/components/Purchases.tsx,
    [calculateProfit] and [calculateProfitMargin]) *)

Module StockPurchaseRow.

(** The joined [stock_item] of a row of the view. *)
Record stock_item_t := mk_item {
  item_name : string;
  selling_price : Q }.

(** A stock purchase as the view holds it. *)
Record t := mk {
  purchase : StockPurchase.t;
  stock_item : option stock_item_t }.

End StockPurchaseRow.

(** The rows as [fetchData] builds them from the response: the joined
    item, with ['Unknown'] and [0] for what the join lacks. *)
Definition with_stock_item (purchase : StockPurchase.t)
    (stock_items : option StockPurchaseRow.stock_item_t) : StockPurchaseRow.t :=
  StockPurchaseRow.mk purchase
    (Some (StockPurchaseRow.mk_item
       (match stock_items with
        | Some j => if Js.truthy (StockPurchaseRow.item_name j)
                    then StockPurchaseRow.item_name j else "Unknown"
        | None => "Unknown"
        end)
       (match stock_items with
        | Some j => if Qeq_bool (Js.number (StockPurchaseRow.selling_price j)) 0
                    then 0%Q else StockPurchaseRow.selling_price j
        | None => 0%Q
        end))).

Definition calculateProfit (purchase : StockPurchaseRow.t) : Q :=
  match StockPurchaseRow.stock_item purchase with
  | None => 0%Q
  | Some stock_item =>
      Js.mul
        (Js.sub (StockPurchaseRow.selling_price stock_item)
                (StockPurchase.cost_per_unit (StockPurchaseRow.purchase purchase)))
        (inject_Z (StockPurchase.quantity (StockPurchaseRow.purchase purchase)))
  end.

Definition calculateProfitMargin (purchase : StockPurchaseRow.t) : Q :=
  match StockPurchaseRow.stock_item purchase with
  | None => 0%Q
  | Some stock_item =>
      if Qeq_bool (Js.number (StockPurchase.cost_per_unit (StockPurchaseRow.purchase purchase))) 0
      then 0%Q
      else Js.mul
             (Js.div
                (Js.sub (StockPurchaseRow.selling_price stock_item)
                        (StockPurchase.cost_per_unit (StockPurchaseRow.purchase purchase)))
                (StockPurchase.cost_per_unit (StockPurchaseRow.purchase purchase)))
             100
  end.

(** *** Students view: the list shown (src/unnamed/part_006,
    [filteredStudents]) *)

Definition filteredStudents (students : list Student.t) (searchTerm selectedClass : string)
    : list Student.t :=
  List.filter (fun student =>
    let matchesSearch :=
      JsString.includes (Js.toLowerCase (Student.name student)) (Js.toLowerCase searchTerm)
      || JsString.includes (Js.toLowerCase (Student.admission_no student))
           (Js.toLowerCase searchTerm) in
    let matchesClass :=
      String.eqb selectedClass "" || String.eqb (Student.class_code student) selectedClass in
    matchesSearch && matchesClass) students.


(** *** Students view: the template ([downloadTemplate],
    src/unnamed/part_006).  The content of the file; handing it to the
    browser for download is not modelled. *)

Definition csvContent : string :=
  "name,admission_no,class_code
John Doe,ASO/2024/001,ND1A
Jane Smith,ASO/2024/002,ND1B
Mike Johnson,ASO/2024/003,HND2A".

(** ** Further views of the small store *)

Module SampleViews.

(** The daily sales view after its fetch, with a form for pens. *)
Definition daily_sales (quantity : string) : DailySales.State :=
  DailySales.mkState [] [Sample.ink; Sample.pen] false true
    (DailySales.mkForm "i1" quantity "2025-08-07" "").

(** A file with two new students. *)
Definition csv_two_students : string :=
  "name,admission_no,class_code
John Doe,ASO/2024/003,ND1A
Jane Smith,ASO/2024/004,ND1B".

Definition not_found : PgError := {| code := "PGRST116" |}.

End SampleViews.
(** * Properties *)

Lemma Qltb_lt a b : Js.Qltb a b = true <-> (a < b)%Q.
Proof.
  unfold Js.Qltb. rewrite negb_true_iff. split.
  - intros H. apply Qnot_le_lt. intros Hle. apply Qle_bool_iff in Hle. congruence.
  - intros H. destruct (Qle_bool b a) eqn:E; [|done].
    apply Qle_bool_iff in E. exfalso. eapply Qlt_not_le; eauto.
Qed.

(** ** The model at work *)

Example parseInt_examples :
  Js.ecma_parseInt "  42px" = Some 42 /\ Js.ecma_parseInt "-0x1F" = Some (-31) /\
  Js.ecma_parseInt "2.7" = Some 2 /\ Js.ecma_parseInt "abc" = None /\
  Js.ecma_parseInt "" = None.
Proof. repeat split. Qed.

Example parseFloat_examples :
  Js.ecma_parseFloat "12.50" = Some (25 # 2) /\
  Js.ecma_parseFloat ".5e1" = Some (5 # 1)%Q /\
  Js.ecma_parseFloat "-3e-2x" = Some (Js.number (-3 # 100)) /\
  Js.ecma_parseFloat "1e-400" = Some 0%Q /\ Js.ecma_parseFloat "." = None.
Proof. repeat split; vm_compute; reflexivity. Qed.

(** Doubles at work: 0.1 + 0.2 is not 0.3, and three times 0.1 is above
    0.3; a [numeric(10,2)] column keeps 3.33 of ten thirds. *)
Example number_examples :
  Js.add 0.1 0.2 = Js.number 0.30000000000000004 /\
  Js.add 0.1 0.2 <> Js.number 0.3 /\
  Js.lt 0.3 (Js.mul 0.1 3) = true /\
  Js.number (Js.number 0.1) = Js.number 0.1 /\
  numeric_10_2 (Js.div 10 3) = 3.33%Q /\ numeric_10_2 1.005 = 1.01%Q.
Proof. vm_compute. repeat split. discriminate. Qed.

Example string_examples :
  Js.split "," "a,b," = ["a"; "b"; ""] /\ Js.split "," "" = [""] /\
  Js.trim "  John Doe " = "John Doe" /\ Js.toLowerCase "Admission_No" = "admission_no" /\
  Js.string_of_Z 42 = "42" /\ Js.string_of_nat 3 = "3".
Proof. repeat split. Qed.

(** An accepted purchase of three pens by Alice. *)
Example purchase_example :
  let r := @Purchases.handleSubmit Js.ecma (Sample.purchases "3") (Sample.world []) in
  log (snd r) =
    [ insert_purchases (Purchase.mk "s1" "i1" 3 (5 * inject_Z 3)%Q);
      update_stock_items_quantity "i1" 7 "2025-08-07T03:44:24.000Z";
      update_students_balance "s1" (100 - 5 * inject_Z 3)%Q (50 + 5 * inject_Z 3)%Q;
      insert_transactions (Transaction.mk "s1" (5 * inject_Z 3)%Q spend credit
                             (Some "Purchase: Pen (3 items)"));
      select_purchases; select_students; select_stock_items ] /\
  toasts (snd r) = [toast_success "Purchase completed successfully"] /\
  map StockItem.quantity (Db.stock_items (db (snd r))) = [7; 0].
Proof. repeat split. Qed.

(** A sale of four pens: margin 2 a piece. *)
Example daily_sale_example :
  let st := DailySales.mkState [] [Sample.ink; Sample.pen] false true
              (DailySales.mkForm "i1" "4" "2025-08-07" "") in
  let r := @DailySales.handleSubmit Js.ecma st (Sample.world []) in
  exists row,
    Db.daily_sales (db (snd r)) = [row] /\ (DailySale.profit row == 8)%Q /\
    DailySale.quantity_sold row = 4 /\ DailySale.notes row = None.
Proof. vm_compute. eexists. repeat split. Qed.

(** The import of a file with two bad lines. *)
Example csv_example :
  toasts (snd (Students.handleCsvImport (Sample.students_view Sample.csv_with_bad_rows)
                 (Sample.world []))) =
  [toast_error
     "Import errors: Row 3: Incorrect number of columns, Row 4: Missing required fields"].
Proof. reflexivity. Qed.

(** ** Student purchases *)

Section PurchasesFacts.
Context {rt : Js.JsRuntime}.

Import Purchases.

(** C1. A purchase whose quantity exceeds the stock quantity of the
    selected item, or whose total price (selling price times quantity)
    exceeds the balance of the selected student, is rejected: the handler
    sends no request at all, the tables are as before, the view state is
    as before and an error toast is shown. *)
Theorem purchase_rejected_no_writes (st : State) (w : World) (q : Z) (item : StockItem.t) :
  Js.parseInt (quantity (formData st)) = Some q ->
  Js.find (fun i => String.eqb (StockItem.id i) (item_id (formData st))) (stockItems st)
    = Some item ->
  (StockItem.quantity item < q \/
   exists student,
     Js.find (fun s => String.eqb (Student.id s) (student_id (formData st))) (students st)
       = Some student /\
     (Student.balance student < StockItem.selling_price item * inject_Z q)%Q) ->
  let r := handleSubmit st w in
  log (snd r) = log w /\ db (snd r) = db w /\ fst r = Ok st /\
  exists msg, toasts (snd r) = toasts w ++ [toast_error msg].
Proof.
  intros Hq Hitem Hbad. unfold handleSubmit. rewrite Hq, Hitem.
  destruct (negb _ || negb _ || negb _); [exec; eauto 10|].
  destruct (q <=? 0); [exec; eauto 10|].
  destruct Hbad as [Hstock | (student & Hs & Hbal)].
  - destruct (Js.find _ (students st)); [|exec; eauto 10].
    apply Z.ltb_lt in Hstock. rewrite Hstock. exec; eauto 10.
  - rewrite Hs. destruct (_ <? q); [exec; eauto 10|].
    apply Qltb_lt in Hbal. rewrite Hbal. exec; eauto 10.
Qed.


Lemma truthy_true s : s <> "" -> Js.truthy s = true.
Proof.
  intros H. unfold Js.truthy. apply negb_true_iff, String.eqb_neq. exact H.
Qed.

Lemma Qltb_ge a b : (b <= a)%Q -> Js.Qltb a b = false.
Proof.
  intros H. unfold Js.Qltb. apply negb_false_iff, Qle_bool_iff. exact H.
Qed.

(** On an accepted form the handler is its [try] block. *)
Lemma handleSubmit_accepted st q item student :
  purchase_accepted st q item student ->
  handleSubmit st =
  try_catch
    (let f := formData st in
     let totalPrice := (StockItem.selling_price item * inject_Z q)%Q in
     purchaseError <- write (insert_purchases
       (Purchase.mk (student_id f) (item_id f) q totalPrice)) ;;
     throw_if purchaseError ;;
     t <- now ;;
     stockError <- write (update_stock_items_quantity (item_id f)
       (StockItem.quantity item - q) t) ;;
     throw_if stockError ;;
     studentError <- write (update_students_balance (student_id f)
       (Student.balance student - totalPrice)%Q
       (Student.total_spent student + totalPrice)%Q) ;;
     throw_if studentError ;;
     transactionError <- write (insert_transactions
       (Transaction.mk (student_id f) totalPrice spend credit
          (Some ("Purchase: " ++ StockItem.item_name item ++ " ("
                   ++ Js.string_of_Z q ++ " items)")%string))) ;;
     throw_if transactionError ;;
     toast (toast_success "Purchase completed successfully") ;;
     fetchData (mkState (purchases st) (students st) (stockItems st) (loading st)
                  false (mkForm "" "" "")))
    (fun _ => toast (toast_error "Failed to process purchase") ;; ret st).
Proof.
  intros (Hs & Hi & Hqs & Hq & Hpos & Hitem & Hstudent & Hstock & Hbal).
  unfold handleSubmit.
  rewrite (truthy_true _ Hs), (truthy_true _ Hi), (truthy_true _ Hqs), Hq, Hitem, Hstudent.
  cbn [negb orb].
  replace (q <=? 0) with false by (symmetry; apply Z.leb_gt; lia).
  replace (StockItem.quantity item <? q) with false by (symmetry; apply Z.ltb_ge; lia).
  rewrite (Qltb_ge _ _ Hbal). reflexivity.
Qed.



(** *** The wallet invariant *)

Lemma find_some {A} (p : A -> bool) (l : list A) (x : A) :
  Js.find p l = Some x -> In x l /\ p x = true.
Proof.
  induction l as [|y l IH]; cbn; [discriminate|].
  destruct (p y) eqn:E.
  - intros [= ->]. auto.
  - intros H. destruct (IH H). auto.
Qed.

Lemma order_by_In {A} (key : A -> string) (l : list A) (x : A) :
  In x (order_by key l) <-> In x l.
Proof.
  unfold order_by. rewrite <- !list_elem_of_In.
  by rewrite merge_sort_Permutation.
Qed.

Lemma NoDup_map_eq {A B} (f : A -> B) (l : list A) (x y : A) :
  NoDup (map f l) -> In x l -> In y l -> f x = f y -> x = y.
Proof.
  induction l as [|z l IH]; cbn; [tauto|].
  intros Hnd [->|Hx] [->|Hy] Hf; inversion_clear Hnd as [|? ? Hz Hl]; auto.
  - exfalso. apply Hz. rewrite Hf. apply list_elem_of_In, in_map, Hy.
  - exfalso. apply Hz. rewrite <- Hf. apply list_elem_of_In, in_map, Hx.
Qed.

Lemma set_student_balance_id id b ts s :
  Student.id (set_student_balance id b ts s) = Student.id s.
Proof. unfold set_student_balance. by destruct (String.eqb _ _). Qed.

Lemma set_student_deposit_id id b tp s :
  Student.id (set_student_deposit id b tp s) = Student.id s.
Proof. unfold set_student_deposit. by destruct (String.eqb _ _). Qed.

(** A spend computed from the row of the student keeps the rows of
    [who] balanced. *)
Lemma spend_balanced (who : string) (l : list Student.t) (student : Student.t)
    (id : string) (p : Q) :
  NoDup (map Student.id l) -> In student l -> Student.id student = id ->
  Forall (balanced_row who) l ->
  Forall (balanced_row who)
    (map (set_student_balance id (Student.balance student - p)%Q
            (Student.total_spent student + p)%Q) l).
Proof.
  intros Hnd Hin Hid Hall. apply List.Forall_forall. intros r' Hr'.
  apply in_map_iff in Hr' as (r & <- & Hr).
  pose proof (proj1 (List.Forall_forall _ _) Hall r Hr) as Hb.
  unfold set_student_balance. destruct (String.eqb (Student.id r) id) eqn:E; [|exact Hb].
  apply String.eqb_eq in E.
  assert (r = student) as -> by (eapply NoDup_map_eq; eauto; congruence).
  unfold balanced_row, balanced in *. cbn. intros Hwho. rewrite (Hb Hwho). ring.
Qed.

(** So does a deposit. *)
Lemma deposit_balanced (who : string) (l : list Student.t) (student : Student.t)
    (id : string) (p : Q) :
  NoDup (map Student.id l) -> In student l -> Student.id student = id ->
  Forall (balanced_row who) l ->
  Forall (balanced_row who)
    (map (set_student_deposit id (Student.balance student + p)%Q
            (Student.total_paid student + p)%Q) l).
Proof.
  intros Hnd Hin Hid Hall. apply List.Forall_forall. intros r' Hr'.
  apply in_map_iff in Hr' as (r & <- & Hr).
  pose proof (proj1 (List.Forall_forall _ _) Hall r Hr) as Hb.
  unfold set_student_deposit. destruct (String.eqb (Student.id r) id) eqn:E; [|exact Hb].
  apply String.eqb_eq in E.
  assert (r = student) as -> by (eapply NoDup_map_eq; eauto; congruence).
  unfold balanced_row, balanced in *. cbn. intros Hwho. rewrite (Hb Hwho). ring.
Qed.

Lemma map_set_student_balance_ids id b ts l :
  map Student.id (map (set_student_balance id b ts) l) = map Student.id l.
Proof.
  rewrite map_map. apply map_ext. intros s. apply set_student_balance_id.
Qed.

Lemma map_set_student_deposit_ids id b tp l :
  map Student.id (map (set_student_deposit id b tp) l) = map Student.id l.
Proof.
  rewrite map_map. apply map_ext. intros s. apply set_student_deposit_id.
Qed.

Lemma fetchData_no_faults st w :
  faults w = [] ->
  fetchData st w =
  (Ok (mkState (rev (Db.purchases (db w))) (order_by Student.name (Db.students (db w)))
         (order_by StockItem.item_name (Db.stock_items (db w))) false
         (showAddForm st) (formData st)),
   mkWorld (db w) [] (clock w) (students_of w)
     (log w ++ [select_purchases; select_students; select_stock_items]) (toasts w)).
Proof.
  intros Hf. unfold fetchData. exec. rewrite Hf. exec. cbn [apply_request].
  by rewrite <- !app_assoc.
Qed.

Lemma handleSubmit_wallets who st w :
  (forall s, In s (students st) -> In s (Db.students (db w))) ->
  wallets_ok who w -> wallets_ok who (snd (handleSubmit st w)).
Proof.
  intros Hfresh (Hf & Hnd & Hall). unfold handleSubmit.
  destruct (negb _ || negb _ || negb _); [exec; by rewrite ?Hf|].
  destruct (Js.parseInt _) as [q|]; [|exec; by rewrite ?Hf].
  destruct (q <=? 0); [exec; by rewrite ?Hf|].
  destruct (Js.find _ (stockItems st)) as [item|]; [|exec; by rewrite ?Hf].
  destruct (Js.find _ (students st)) as [student|] eqn:Hs; [|exec; by rewrite ?Hf].
  destruct (_ <? q); [exec; by rewrite ?Hf|].
  destruct (Js.Qltb _ _); [exec; by rewrite ?Hf|].
  apply find_some in Hs as [Hin Hid]. apply String.eqb_eq in Hid.
  exec. rewrite Hf. exec.
  rewrite fetchData_no_faults by reflexivity.
  unfold wallets_ok. cbn [snd db faults Db.students apply_request].
  split; [done|]. rewrite map_set_student_balance_ids. split; [done|].
  apply spend_balanced; auto.
Qed.


Lemma transaction_wallets who id amount ty m note w :
  wallets_ok who w -> wallets_ok who (snd (Transactions.handleSubmit id amount ty m note w)).
Proof.
  intros (Hf & Hnd & Hall). unfold Transactions.handleSubmit, Transactions.record.
  exec. rewrite Hf. exec. cbn [apply_request].
  destruct (Js.find _ _) as [student|] eqn:Hs; [|exec; by rewrite ?Hf].
  apply find_some in Hs as [Hin Hid]. apply String.eqb_eq in Hid.
  apply order_by_In in Hin.
  destruct (Qle_bool amount 0); [exec; by rewrite ?Hf|].
  exec. unfold wallets_ok.
  destruct ty; cbn [snd db faults Db.students apply_request]; (split; [done|]).
  - rewrite map_set_student_deposit_ids. split; [done|].
    apply deposit_balanced; auto.
  - rewrite map_set_student_balance_ids. split; [done|].
    apply spend_balanced; auto.
Qed.

Lemma run_op_wallets who op w : wallets_ok who w -> wallets_ok who (snd (run_op op w)).
Proof.
  intros Hw. destruct op as [f|id amount ty m note]; cbn [run_op].
  - pose proof Hw as (Hf & _ & _).
    unfold bind at 1. rewrite fetchData_no_faults by exact Hf.
    unfold bind at 1.
    match goal with |- context [handleSubmit ?st ?w1] =>
      pose proof (handleSubmit_wallets who st w1) as H; destruct (handleSubmit st w1) as [[a|e] w2]
    end; cbn [ret snd] in *.
    all: apply H; [cbn [students db]; intros s Hs; by apply order_by_In in Hs|].
    all: destruct Hw as (? & ? & ?); split; done.
  - by apply transaction_wallets.
Qed.

Lemma run_ops_wallets who ops w : wallets_ok who w -> wallets_ok who (snd (run_ops ops w)).
Proof.
  revert w. induction ops as [|op ops IH]; intros w Hw; [exact Hw|].
  cbn [run_ops]. unfold bind. pose proof (run_op_wallets who op w Hw) as H1.
  destruct (run_op op w) as [[[]|e] w1]; cbn [snd] in *; auto.
Qed.

(** C2. Take a students table with unique ids and a student whose row
    satisfies balance = total_paid - total_spent.  After any sequence of
    recorded purchases (each subtracting the total price from the balance
    and adding it to total_spent), deposits and spends, each performed in
    a view that has just fetched its rows and with no request failing,
    the row of that student still satisfies the equation. *)
Theorem balance_invariant_preserved (ops : list WalletOp) (w : World) (s' : Student.t) :
  faults w = [] ->
  NoDup (map Student.id (Db.students (db w))) ->
  (forall s, In s (Db.students (db w)) -> Student.id s = Student.id s' -> balanced s) ->
  In s' (Db.students (db (snd (run_ops ops w)))) ->
  balanced s'.
Proof.
  intros Hf Hnd Hbefore Hin.
  assert (wallets_ok (Student.id s') w) as Hw.
  { split; [done|]. split; [done|]. apply List.Forall_forall. exact Hbefore. }
  apply (run_ops_wallets _ ops) in Hw as (_ & _ & Hall).
  exact (proj1 (List.Forall_forall _ _) Hall s' Hin eq_refl).
Qed.

(** *** The checks on a view that has just fetched *)

Lemma find_none {A} (p : A -> bool) (l : list A) :
  Js.find p l = None -> forall x, In x l -> p x = false.
Proof.
  induction l as [|y l IH]; cbn; [intros _ x []|].
  destruct (p y) eqn:E; [discriminate|].
  intros H x [<-|Hx]; auto.
Qed.

(** In a fetched list, looking a row up by its unique id finds the row
    of the table. *)
Lemma find_fetched {A} (id key : A -> string) (l : list A) (x : A) :
  NoDup (map id l) -> In x l ->
  Js.find (fun y => String.eqb (id y) (id x)) (order_by key l) = Some x.
Proof.
  intros Hnd Hin.
  destruct (Js.find _ (order_by key l)) as [y|] eqn:Hfind.
  - apply find_some in Hfind as [Hy Hid]. apply order_by_In in Hy.
    apply String.eqb_eq in Hid. f_equal. by apply (NoDup_map_eq id l y x).
  - pose proof (find_none _ _ Hfind x (proj2 (order_by_In key l x) Hin)) as H.
    cbv beta in H. by rewrite String.eqb_refl in H.
Qed.

Lemma fetchData_accepted st w :
  accepts 3 w ->
  fetchData st w =
  (Ok (mkState (rev (Db.purchases (db w))) (order_by Student.name (Db.students (db w)))
         (order_by StockItem.item_name (Db.stock_items (db w))) false
         (showAddForm st) (formData st)),
   mkWorld (db w) (drop 3 (faults w)) (clock w) (students_of w)
     (log w ++ [select_purchases; select_students; select_stock_items]) (toasts w)).
Proof.
  unfold accepts. intros Hacc. unfold fetchData. exec.
  destruct (faults w) as [|a1 [|a2 [|a3 fs]]]; cbn [take] in Hacc;
    repeat match goal with
    | H : Forall _ (_ :: _) |- _ => inversion_clear H as [|? ? -> ?]
    end; exec; cbn [apply_request drop]; by rewrite <- !app_assoc.
Qed.

(** The reading of C1 on the tables: when the Purchases view is opened
    on tables with unique ids and its fetch is answered, a purchase whose
    quantity exceeds the stock quantity of the item row, or whose total
    price exceeds the balance of the student row, writes nothing. *)
Lemma purchase_rejected_on_fresh_view (f : FormData) (w : World) (q : Z)
    (item : StockItem.t) (student : Student.t) :
  accepts 3 w ->
  NoDup (map StockItem.id (Db.stock_items (db w))) ->
  NoDup (map Student.id (Db.students (db w))) ->
  In item (Db.stock_items (db w)) -> StockItem.id item = item_id f ->
  In student (Db.students (db w)) -> Student.id student = student_id f ->
  Js.parseInt (quantity f) = Some q ->
  (StockItem.quantity item < q \/
   (Student.balance student < StockItem.selling_price item * inject_Z q)%Q) ->
  let r := run_op (op_purchase f) w in
  db (snd r) = db w /\
  log (snd r) = log w ++ [select_purchases; select_students; select_stock_items].
Proof.
  intros Hacc Hndi Hnds Hitem Hiid Hstudent Hsid Hq Hbad.
  assert (Js.find (fun i => String.eqb (StockItem.id i) (item_id f))
            (order_by StockItem.item_name (Db.stock_items (db w))) = Some item) as Hfi
    by (rewrite <- Hiid; by apply find_fetched).
  assert (Js.find (fun s => String.eqb (Student.id s) (student_id f))
            (order_by Student.name (Db.students (db w))) = Some student) as Hfs
    by (rewrite <- Hsid; by apply find_fetched).
  cbn [run_op]. unfold bind. rewrite !(fetchData_accepted _ _ Hacc).
  match goal with |- context [handleSubmit ?st ?w1] =>
    destruct (purchase_rejected_no_writes st w1 q item Hq Hfi) as (Hlog & Hdb & _);
      [destruct Hbad as [?|?]; [by left | right; by exists student]|];
    destruct (handleSubmit st w1) as [[a|e] w2]
  end; unfold ret; cbn [snd log db] in *; by rewrite Hlog, Hdb.
Qed.

End PurchasesFacts.

Lemma purchase_rejected_no_writes_witness :
  let r := @Purchases.handleSubmit Js.ecma (Sample.purchases "11") (Sample.world []) in
  log (snd r) = [] /\ db (snd r) = Sample.store /\
  fst r = Ok (Sample.purchases "11") /\
  exists msg, toasts (snd r) = [toast_error msg].
Proof.
  apply (@purchase_rejected_no_writes Js.ecma (Sample.purchases "11") (Sample.world [])
           11 Sample.pen); [reflexivity | reflexivity | left; cbn; lia].
Defined.


Lemma balance_invariant_preserved_witness :
  Forall balanced
    (Db.students (db (snd (@run_ops Js.ecma Sample.day (Sample.world []))))).
Proof.
  apply List.Forall_forall. intros s' Hin.
  apply (@balance_invariant_preserved Js.ecma Sample.day (Sample.world []) s').
  - reflexivity.
  - apply (bool_decide_unpack _). vm_compute. exact I.
  - intros s Hs _. cbn in Hs.
    destruct Hs as [<-|[<-|[]]]; unfold balanced, Qeq; reflexivity.
  - exact Hin.
Defined.

(** ** Stock purchases *)

Lemma accepts_S n w :
  accepts (S n) w ->
  faults w = [] \/ exists fs, faults w = None :: fs /\ Forall (fun a => a = None) (take n fs).
Proof.
  unfold accepts. destruct (faults w) as [|a fs]; [auto|].
  cbn. intros H. inversion_clear H as [|? ? -> Hfs]. eauto.
Qed.

Lemma Qle_bool_gt a b : (b < a)%Q -> Qle_bool a b = false.
Proof.
  intros H. destruct (Qle_bool a b) eqn:E; [|done].
  apply Qle_bool_iff in E. exfalso. eapply Qlt_not_le; eauto.
Qed.

Section StockPurchasesFacts.
Context {rt : Js.JsRuntime}.

Import StockPurchases.

(** On a valid form the handler is its [try] block. *)
Lemma stock_handleSubmit_valid st q c :
  stock_purchase_valid st q c ->
  handleSubmit st =
  try_catch
    (let f := formData st in
     purchaseError <- write (insert_stock_purchases (stock_purchase_row st q c)) ;;
     throw_if purchaseError ;;
     match Js.find (fun item => String.eqb (StockItem.id item) (item_id f)) (stockItems st) with
     | Some stockItem =>
         t <- now ;;
         stockError <- write (update_stock_items_quantity_cost (item_id f)
           (StockItem.quantity stockItem + q) (average_cost stockItem q c) t) ;;
         throw_if stockError
     | None => ret tt
     end ;;
     toast (toast_success "Stock purchase recorded successfully") ;;
     d <- today ;;
     fetchData (mkState (stockPurchases st) (stockItems st) (loading st) false
                  (mkForm "" "" "" "" d "")))
    (fun _ => toast (toast_error "Failed to record stock purchase") ;; ret st).
Proof.
  intros (Hi & Hqs & Hcs & Hsup & Hq & Hpos & Hc & Hcpos).
  unfold handleSubmit, stock_purchase_row.
  rewrite (truthy_true _ Hi), (truthy_true _ Hqs), (truthy_true _ Hcs),
    (truthy_true _ Hsup), Hq, Hc.
  cbn [negb orb].
  replace (q <=? 0) with false by (symmetry; apply Z.leb_gt; lia).
  rewrite (Qle_bool_gt _ _ Hcpos). reflexivity.
Qed.

(** The fetch sends two selects, changes no table and never throws. *)
Lemma stock_fetchData_frame st w :
  exists st' w',
    fetchData st w = (Ok st', w') /\ db w' = db w /\
    log w' = log w ++ [select_stock_purchases; select_stock_items] /\
    (toasts w' = toasts w \/ toasts w' = toasts w ++ [toast_error "Failed to load data"]).
Proof.
  unfold fetchData. exec.
  destruct (faults w) as [|[e|] [|[e'|] fs]]; exec;
    do 2 eexists; (split; [reflexivity|]); cbn [db log toasts apply_request];
    rewrite <- app_assoc; auto.
Qed.

(** C3, as the code has it.  A valid stock purchase of [q] units at [c]
    per unit, for an item the view holds with a quantity [Q >= 0] and the
    cost price [C] and that is a row of the table, both of whose writes
    the backend accepts: the update carries the quantity [Q + q] and the
    weighted average [(Q*C + q*c) / (Q + q)] as JavaScript computes it,
    in doubles, and the item is left in the table with the quantity
    [Q + q] and with that average rounded to two decimals by its
    [numeric(10,2)] column as cost price. *)
Theorem stock_purchase_weighted_average (st : State) (w : World) (q : Z) (c : Q)
    (item : StockItem.t) :
  stock_purchase_valid st q c ->
  Js.find (fun i => String.eqb (StockItem.id i) (item_id (formData st))) (stockItems st)
    = Some item ->
  In item (Db.stock_items (db w)) ->
  0 <= StockItem.quantity item ->
  accepts 2 w ->
  let updated (item' : StockItem.t) :=
    StockItem.quantity item' = StockItem.quantity item + q /\
    StockItem.cost_price item' = numeric_10_2 (average_cost item q c) in
  let r := handleSubmit st w in
  let items' := Db.stock_items (db (snd r)) in
  (exists rest,
     log (snd r) =
       log w ++ insert_stock_purchases (stock_purchase_row st q c)
                :: update_stock_items_quantity_cost (item_id (formData st))
                     (StockItem.quantity item + q) (average_cost item q c) (clock w)
                :: rest) /\
  (exists item', In item' items' /\ StockItem.id item' = StockItem.id item /\ updated item') /\
  (forall item', In item' items' -> StockItem.id item' = StockItem.id item -> updated item').
Proof.
  intros Hvalid Hfind Hin _ Hacc updated r items'.
  pose proof (find_some _ _ _ Hfind) as [_ Hid]. apply String.eqb_eq in Hid.
  assert ((exists rest,
             log (snd r) =
               log w ++ insert_stock_purchases (stock_purchase_row st q c)
                        :: update_stock_items_quantity_cost (item_id (formData st))
                             (StockItem.quantity item + q) (average_cost item q c) (clock w)
                        :: rest) /\
          items' = map (set_stock_quantity_cost (item_id (formData st))
                          (StockItem.quantity item + q)
                          (numeric_10_2 (average_cost item q c)) (clock w))
                     (Db.stock_items (db w))) as [Hlog ->].
  { subst items' r. rewrite (stock_handleSubmit_valid _ _ _ Hvalid); cbv zeta; rewrite Hfind.
    destruct (accepts_S _ _ Hacc) as [Hf | (fs & Hf & Hacc')].
    - exec. rewrite Hf. exec.
      match goal with |- context [fetchData ?s ?w1] =>
        destruct (stock_fetchData_frame s w1) as (st2 & w2 & -> & Hdb & Hlog & _) end.
      cbn [fst snd]. rewrite Hdb, Hlog. cbn [log db apply_request Db.stock_items].
      rewrite <- !app_assoc. split; [eexists; reflexivity | reflexivity].
    - destruct fs as [|a fs]; [|inversion_clear Hacc' as [|? ? -> _]];
        exec; rewrite Hf; exec;
        match goal with |- context [fetchData ?s ?w1] =>
          destruct (stock_fetchData_frame s w1) as (st2 & w2 & -> & Hdb & Hlog & _) end;
        cbn [fst snd]; rewrite Hdb, Hlog; cbn [log db apply_request Db.stock_items];
        rewrite <- !app_assoc; (split; [eexists; reflexivity | reflexivity]). }
  assert (forall r0, StockItem.id r0 = StockItem.id item ->
            updated (set_stock_quantity_cost (item_id (formData st))
                       (StockItem.quantity item + q)
                       (numeric_10_2 (average_cost item q c)) (clock w) r0)) as Hupd.
  { intros r0 Hr. unfold set_stock_quantity_cost.
    rewrite Hr, Hid, String.eqb_refl. split; reflexivity. }
  split; [exact Hlog|]. split.
  - eexists. split; [apply in_map, Hin|]. split; [|by apply Hupd].
    unfold set_stock_quantity_cost. by destruct (String.eqb _ _).
  - intros item' Hin' Hid'. apply in_map_iff in Hin' as (r0 & <- & Hr).
    apply Hupd. rewrite <- Hid'. unfold set_stock_quantity_cost.
    by destruct (String.eqb _ _).
Qed.

(** C9. A valid stock purchase for an item id that is not in the list
    the view fetched, whose insert the backend accepts: the row is
    inserted into [stock_purchases], the only other requests are the two
    selects of the fetch that follows, so [stock_items] is not written
    and stays as it was, and the success toast is shown; the failure
    toast of the handler is not. *)
Theorem stock_purchase_unknown_item (st : State) (w : World) (q : Z) (c : Q) :
  stock_purchase_valid st q c ->
  Js.find (fun i => String.eqb (StockItem.id i) (item_id (formData st))) (stockItems st)
    = None ->
  accepts 1 w ->
  let r := handleSubmit st w in
  log (snd r) = log w ++ [insert_stock_purchases (stock_purchase_row st q c);
                          select_stock_purchases; select_stock_items] /\
  Db.stock_purchases (db (snd r)) = Db.stock_purchases (db w) ++ [stock_purchase_row st q c] /\
  Db.stock_items (db (snd r)) = Db.stock_items (db w) /\
  exists rest,
    toasts (snd r) = toasts w ++ toast_success "Stock purchase recorded successfully" :: rest /\
    (rest = [] \/ rest = [toast_error "Failed to load data"]).
Proof.
  intros Hvalid Hfind Hacc.
  rewrite (stock_handleSubmit_valid _ _ _ Hvalid); cbv zeta; rewrite Hfind.
  destruct (accepts_S _ _ Hacc) as [Hf | (fs & Hf & _)];
    exec; rewrite Hf; exec;
    match goal with |- context [fetchData ?s ?w1] =>
      destruct (stock_fetchData_frame s w1) as (st2 & w2 & -> & Hdb & Hlog & Htoasts) end;
    cbn [fst snd]; rewrite Hdb, Hlog; cbn [db log toasts apply_request Db.stock_purchases
      Db.stock_items] in *; rewrite <- !app_assoc; (split; [reflexivity|]);
    (split; [reflexivity|]); (split; [reflexivity|]);
    destruct Htoasts as [-> | ->]; rewrite <- ?app_assoc; eauto.
Qed.

End StockPurchasesFacts.

Lemma stock_form_valid (item_id quantity cost : string) (q : Z) (c : Q) :
  item_id <> "" -> quantity <> "" -> cost <> "" ->
  Js.ecma_parseInt quantity = Some q -> 0 < q ->
  Js.ecma_parseFloat cost = Some c -> (0 < c)%Q ->
  @stock_purchase_valid Js.ecma (Sample.stock_purchases item_id quantity cost) q c.
Proof. intros. repeat split; try assumption. discriminate. Qed.

Lemma stock_purchase_weighted_average_witness :
  exists item',
    In item' (Db.stock_items (db (snd (@StockPurchases.handleSubmit Js.ecma
                (Sample.stock_purchases "i1" "10" "4.50") (Sample.world []))))) /\
    StockItem.id item' = "i1" /\ StockItem.quantity item' = 20 /\
    StockItem.cost_price item' = 3.75%Q.
Proof.
  assert (@stock_purchase_valid Js.ecma (Sample.stock_purchases "i1" "10" "4.50")
            10 (9 # 2)) as Hvalid.
  { apply stock_form_valid; try discriminate; reflexivity. }
  assert (0 <= StockItem.quantity Sample.pen) as HQ by (cbn; lia).
  destruct (@stock_purchase_weighted_average Js.ecma
              (Sample.stock_purchases "i1" "10" "4.50") (Sample.world []) 10 (9 # 2)
              Sample.pen Hvalid eq_refl (or_introl eq_refl) HQ (List.Forall_nil _))
    as (_ & (item' & Hin & Hid & Hq & Hc) & _).
  exists item'. split; [exact Hin|]. split; [exact Hid|]. split; [exact Hq|].
  rewrite Hc. vm_compute. reflexivity.
Defined.

(** C3 as the spec states it fails.  Five pens at 4 are added to ten
    pens at 3: the weighted average is ten thirds, the update carries
    the double nearest to it, and the table keeps 3.33. *)
Lemma stock_purchase_average_is_rounded :
  let r := @StockPurchases.handleSubmit Js.ecma (Sample.stock_purchases "i1" "5" "4")
             (Sample.world []) in
  average_cost Sample.pen 5 4 = Js.number (10 # 3) /\
  map (fun i => (StockItem.id i, StockItem.quantity i, StockItem.cost_price i))
    (Db.stock_items (db (snd r))) = [("i1", 15, 3.33%Q); ("i2", 0, 0%Q)] /\
  ~ (3.33 == (inject_Z 10 * 3 + inject_Z 5 * 4) / (inject_Z 10 + inject_Z 5))%Q /\
  ~ cost_price_is_weighted_average.
Proof.
  split; [vm_compute; reflexivity|]. split; [vm_compute; reflexivity|]. split.
  - intros H. vm_compute in H. discriminate H.
  - intros Hclaim.
    assert (@stock_purchase_valid Js.ecma (Sample.stock_purchases "i1" "5" "4") 5 4) as Hvalid.
    { apply stock_form_valid; try discriminate; reflexivity. }
    assert (0 <= StockItem.quantity Sample.pen) as HQ by (cbn; lia).
    assert (0 <= StockItem.cost_price Sample.pen)%Q as HC by (vm_compute; discriminate).
    assert (In (StockItem.mk "i1" "Pen" 15 3.33 5 "2025-08-07T03:44:24.000Z")
              (Db.stock_items (db (snd (@StockPurchases.handleSubmit Js.ecma
                 (Sample.stock_purchases "i1" "5" "4") (Sample.world [])))))) as Hin.
    { vm_compute. left. reflexivity. }
    destruct (Hclaim Js.ecma (Sample.stock_purchases "i1" "5" "4") (Sample.world []) 5 4%Q
                Sample.pen _ Hvalid eq_refl (or_introl eq_refl) HQ HC (List.Forall_nil _)
                Hin eq_refl) as [_ Hcost].
    vm_compute in Hcost. discriminate Hcost.
Qed.

Lemma stock_purchase_unknown_item_witness :
  let r := @StockPurchases.handleSubmit Js.ecma
             (Sample.stock_purchases "i9" "10" "4.50") (Sample.world []) in
  Db.stock_items (db (snd r)) = [Sample.pen; Sample.ink] /\
  length (Db.stock_purchases (db (snd r))) = 1%nat.
Proof.
  assert (@stock_purchase_valid Js.ecma (Sample.stock_purchases "i9" "10" "4.50")
            10 (9 # 2)) as Hvalid.
  { apply stock_form_valid; try discriminate; reflexivity. }
  destruct (@stock_purchase_unknown_item Js.ecma
              (Sample.stock_purchases "i9" "10" "4.50") (Sample.world []) 10 (9 # 2)
              Hvalid eq_refl (List.Forall_nil _)) as (_ & Hp & Hi & _).
  split; [exact Hi|]. rewrite Hp. reflexivity.
Defined.

(** ** Daily sales *)


Section DailySalesFacts.
Context {rt : Js.JsRuntime}.







End DailySalesFacts.



(** The checks are made on the rows the view holds.  Here the view
    still shows ten pens while the table has two left: a purchase of
    three is written, and the stock of the table becomes seven. *)
Example purchase_on_stale_view :
  let w := mkWorld (Db.mk [Sample.bob; Sample.alice] []
                      [StockItem.mk "i1" "Pen" 2 3 5 "2025-08-06"] [] [] [])
             [] "2025-08-07T03:44:24.000Z" Sample.students_of [] [] in
  let r := @Purchases.handleSubmit Js.ecma (Sample.purchases "3") w in
  Db.purchases (db (snd r)) = [Purchase.mk "s1" "i1" 3 (5 * inject_Z 3)%Q] /\
  map StockItem.quantity (Db.stock_items (db (snd r))) = [7].
Proof. repeat split. Qed.

(** ** CSV import *)

Section CsvFacts.

Import Students.

Lemma includes_In l x : Js.includes l x = true <-> In x l.
Proof.
  unfold Js.includes. rewrite existsb_exists. split.
  - intros (y & Hy & E). apply String.eqb_eq in E. by subst.
  - intros H. exists x. split; [done | apply String.eqb_refl].
Qed.

Lemma truthy_false s : Js.truthy s = false <-> s = "".
Proof.
  unfold Js.truthy. rewrite negb_false_iff. apply String.eqb_eq.
Qed.

Lemma row_ok_bad headers line : row_ok headers line = false <-> row_bad headers line.
Proof.
  unfold row_ok, row_bad, row_values. rewrite length_map.
  rewrite !andb_false_iff, Nat.eqb_neq, !truthy_false. cbn. split.
  - intros [[[H|H]|H]|H]; eauto 10.
  - intros [H|(k & [<-|[<-|[<-|[]]]] & H)]; auto.
Qed.

(** The loop keeps the objects of the good lines, in order, and reports
    one error for each other line. *)
Lemma import_rows_students headers rows : forall i acc errors,
  fst (import_rows headers i rows acc errors) =
  acc ++ map (fun line => row_object headers (row_values line))
           (List.filter (row_ok headers) rows).
Proof.
  induction rows as [|line rows IH]; intros i acc errors; cbn [import_rows List.filter map].
  - by rewrite app_nil_r.
  - unfold row_ok at 1. fold (row_values line).
    destruct (length (row_values line) =? length headers)%nat; cbn [negb andb];
      [|by rewrite IH].
    destruct (Js.truthy (field _ "name")); cbn [negb andb orb]; [|by rewrite IH].
    destruct (Js.truthy (field _ "admission_no")); cbn [negb andb orb]; [|by rewrite IH].
    destruct (Js.truthy (field _ "class_code")); cbn [negb andb orb]; [|by rewrite IH].
    rewrite IH. cbn [map]. by rewrite <- app_assoc.
Qed.

Lemma import_rows_errors headers rows : forall i acc errors,
  length (snd (import_rows headers i rows acc errors)) =
  (length errors + length (List.filter (fun line => negb (row_ok headers line)) rows))%nat.
Proof.
  induction rows as [|line rows IH]; intros i acc errors; cbn [import_rows List.filter].
  - cbn. lia.
  - unfold row_ok at 1. fold (row_values line).
    destruct (length (row_values line) =? length headers)%nat; cbn [negb andb];
      [|rewrite IH, length_app; cbn; lia].
    destruct (Js.truthy (field _ "name")); cbn [negb andb orb];
      [|rewrite IH, length_app; cbn; lia].
    destruct (Js.truthy (field _ "admission_no")); cbn [negb andb orb];
      [|rewrite IH, length_app; cbn; lia].
    destruct (Js.truthy (field _ "class_code")); cbn [negb andb orb];
      [|rewrite IH, length_app; cbn; lia].
    by rewrite IH.
Qed.

Lemma bad_row_counted headers rows line :
  In line rows -> row_ok headers line = false ->
  (0 < length (List.filter (fun line => negb (row_ok headers line)) rows))%nat.
Proof.
  intros Hin Hbad.
  assert (In line (List.filter (fun line => negb (row_ok headers line)) rows)) as H
    by (apply filter_In; by rewrite Hbad).
  destruct (List.filter _ rows); [destruct H | cbn; lia].
Qed.

Lemma missing_header_found headers h :
  In h requiredHeaders -> ~ In h headers ->
  (0 <? length (List.filter (fun h => negb (Js.includes headers h)) requiredHeaders))%nat = true.
Proof.
  intros Hreq Hmiss.
  assert (In h (List.filter (fun h => negb (Js.includes headers h)) requiredHeaders)) as H.
  { apply filter_In. split; [done|]. apply negb_true_iff.
    destruct (Js.includes headers h) eqn:E; [|done]. by apply includes_In in E. }
  destruct (List.filter _ requiredHeaders); [destruct H | reflexivity].
Qed.

Lemma no_missing_header headers :
  (forall h, In h requiredHeaders -> In h headers) ->
  List.filter (fun h => negb (Js.includes headers h)) requiredHeaders = [].
Proof.
  intros Hall. unfold requiredHeaders. cbn [List.filter].
  rewrite !(proj2 (includes_In _ _)) by (apply Hall; cbn; auto). reflexivity.
Qed.

(** A missing header column or a bad data line stops the import before
    anything is sent. *)
Lemma csv_rejected st w text :
  csvFile st = Some text ->
  (exists h, In h requiredHeaders /\ ~ In h (header_of text)) \/
  (exists line, In line (data_lines text) /\ row_ok (header_of text) line = false) ->
  let r := handleCsvImport st w in
  log (snd r) = log w /\ db (snd r) = db w /\
  exists msg, toasts (snd r) = toasts w ++ [toast_error msg].
Proof.
  intros Hfile Hbad. unfold handleCsvImport. rewrite Hfile.
  unfold header_of, data_lines in Hbad.
  destruct (length (csv_lines text) <? 2)%nat; [exec; eauto|].
  destruct (0 <? length (List.filter _ requiredHeaders))%nat eqn:Hmiss; [exec; eauto|].
  destruct Hbad as [(h & Hreq & Hh) | (line & Hin & Hline)].
  { by rewrite (missing_header_found _ _ Hreq Hh) in Hmiss. }
  pose proof (import_rows_errors (csv_headers (default "" (head (csv_lines text))))
                (tail (csv_lines text)) 1 [] []) as Hlen.
  pose proof (bad_row_counted _ _ _ Hin Hline) as Hpos.
  destruct (import_rows _ 1 _ [] []) as [studentsToImport errors].
  cbn [snd length] in Hlen.
  replace (0 <? length errors)%nat with true by (symmetry; apply Nat.ltb_lt; lia).
  exec; eauto.
Qed.

(** C5. The import inserts nothing for a file whose header lacks one
    of the columns name, admission_no and class_code, nor for a file
    with a data line whose number of comma-separated values differs from
    the number of header columns: no request is sent, the tables are as
    before and an error toast is shown. *)
Theorem csv_import_rejects (st : State) (w : World) (text : string) :
  csvFile st = Some text ->
  (exists h, In h requiredHeaders /\ ~ In h (header_of text)) \/
  (exists line, In line (data_lines text) /\
                length (Js.split "," line) <> length (header_of text)) ->
  let r := handleCsvImport st w in
  log (snd r) = log w /\ db (snd r) = db w /\
  exists msg, toasts (snd r) = toasts w ++ [toast_error msg].
Proof.
  intros Hfile [Hhead | (line & Hin & Hlen)]; apply (csv_rejected _ _ _ Hfile); [by left|].
  right. exists line. split; [done|]. apply row_ok_bad. by left.
Qed.

(** C10. The import is all-or-nothing: when some data line has a wrong
    number of values or an empty required field, no request is sent and
    the tables are as before, so none of the good lines is inserted
    either, and one error toast is shown; when the header has the three
    columns this toast is the aggregate one, joining one message for
    each bad line. *)
Theorem csv_import_all_or_nothing (st : State) (w : World) (text : string) :
  csvFile st = Some text ->
  (exists line, In line (data_lines text) /\ row_bad (header_of text) line) ->
  let r := handleCsvImport st w in
  log (snd r) = log w /\ db (snd r) = db w /\
  (exists msg, toasts (snd r) = toasts w ++ [toast_error msg]) /\
  ((forall h, In h requiredHeaders -> In h (header_of text)) ->
   exists errors,
     toasts (snd r) = toasts w ++ [toast_error ("Import errors: " ++ Js.join ", " errors)%string] /\
     length errors =
       length (List.filter (fun line => negb (row_ok (header_of text) line)) (data_lines text))).
Proof.
  intros Hfile (line & Hin & Hline). apply row_ok_bad in Hline.
  destruct (csv_rejected st w text Hfile) as (Hlog & Hdb & Htoast); [right; eauto|].
  cbv zeta. split; [exact Hlog|]. split; [exact Hdb|]. split; [exact Htoast|].
  intros Hall. unfold handleCsvImport. rewrite Hfile.
  unfold header_of, data_lines in *.
  assert ((length (csv_lines text) <? 2)%nat = false) as ->.
  { apply Nat.ltb_ge. destruct (csv_lines text) as [|l0 [|l1 ls]]; cbn in *; try lia; tauto. }
  rewrite (no_missing_header _ Hall). cbn [length Nat.ltb Nat.leb].
  pose proof (import_rows_errors (csv_headers (default "" (head (csv_lines text))))
                (tail (csv_lines text)) 1 [] []) as Hlen.
  pose proof (bad_row_counted _ _ _ Hin Hline) as Hpos.
  destruct (import_rows _ 1 _ [] []) as [studentsToImport errors].
  cbn [snd] in Hlen. destruct errors as [|e errors]; [cbn in Hlen; lia|].
  exec. exists (e :: errors). split; [reflexivity | exact Hlen].
Qed.

Lemma fetchStudents_frame st w :
  exists st' w',
    fetchStudents st w = (Ok st', w') /\ log w' = log w ++ [select_students].
Proof.
  unfold fetchStudents. exec. destruct (faults w) as [|[e|] fs]; exec; eauto.
Qed.

Lemma filter_all_ok headers rows :
  (forall line, In line rows -> row_ok headers line = true) ->
  List.filter (row_ok headers) rows = rows /\
  List.filter (fun line => negb (row_ok headers line)) rows = [].
Proof.
  induction rows as [|line rows IH]; intros Hall; [done|].
  cbn [List.filter]. rewrite (Hall line) by (cbn; auto). cbn [negb].
  destruct IH as [-> ->]; [intros; apply Hall; cbn; auto | done].
Qed.

(** C6, as the code has it.  The header must contain the columns name,
    admission_no and class_code: a file whose header lacks one of them
    is rejected before any request.  A header with further columns is
    not rejected: when the three are there, there is a data line and
    every data line is good, the insert is sent with one object for each
    data line, and no other write follows. *)
Theorem csv_import_requires_three_columns (st : State) (w : World) (text : string) :
  csvFile st = Some text ->
  let r := handleCsvImport st w in
  let objs := map (fun line => row_object (header_of text) (row_values line))
                (data_lines text) in
  ((exists h, In h requiredHeaders /\ ~ In h (header_of text)) ->
   log (snd r) = log w /\ db (snd r) = db w) /\
  ((forall h, In h requiredHeaders -> In h (header_of text)) ->
   data_lines text <> [] ->
   (forall line, In line (data_lines text) -> row_ok (header_of text) line = true) ->
   exists rest,
     log (snd r) = log w ++ insert_students objs :: rest /\
     Forall (fun rq => is_write rq = false) rest).
Proof.
  intros Hfile r objs. split.
  - intros Hmiss. destruct (csv_rejected st w text Hfile) as (Hlog & Hdb & _); [by left|].
    split; [exact Hlog | exact Hdb].
  - intros Hall Hdata Hok.
    { subst r objs. unfold handleCsvImport. rewrite Hfile.
      unfold header_of, data_lines in *.
      assert ((length (csv_lines text) <? 2)%nat = false) as ->.
      { apply Nat.ltb_ge. destruct (csv_lines text) as [|l0 [|l1 ls]]; cbn in *; try lia; done. }
      rewrite (no_missing_header _ Hall). cbn [length Nat.ltb Nat.leb].
      pose proof (import_rows_errors (csv_headers (default "" (head (csv_lines text))))
                    (tail (csv_lines text)) 1 [] []) as Hlen.
      pose proof (import_rows_students (csv_headers (default "" (head (csv_lines text))))
                    (tail (csv_lines text)) 1 [] []) as Hst.
      destruct (filter_all_ok _ _ Hok) as [Hgood Hnone]. rewrite Hgood in Hst.
      rewrite Hnone in Hlen.
      destruct (import_rows _ 1 _ [] []) as [studentsToImport errors].
      cbn [fst snd length app] in Hlen, Hst. subst studentsToImport.
      destruct errors; [|discriminate]. cbn [length].
      destruct (tail (csv_lines text)) as [|l1 ls] eqn:Hrows; [done|].
      cbn [map length Nat.eqb].
      exec. destruct (faults w) as [|[e|] fs]; exec; cbn [log].
      * match goal with |- context [fetchStudents ?s ?w1] =>
          destruct (fetchStudents_frame s w1) as (st2 & w2 & -> & Hlog) end.
        cbn [fst snd log] in *. rewrite Hlog. cbn [log]. rewrite <- app_assoc.
        eexists. split; [reflexivity|]. by repeat constructor.
      * destruct (String.eqb (code e) "23505"); exec; exists []; by split.
      * match goal with |- context [fetchStudents ?s ?w1] =>
          destruct (fetchStudents_frame s w1) as (st2 & w2 & -> & Hlog) end.
        cbn [fst snd log] in *. rewrite Hlog. cbn [log]. rewrite <- app_assoc.
        eexists. split; [reflexivity|]. by repeat constructor. }
Qed.

End CsvFacts.

Lemma csv_import_rejects_witness :
  log (snd (Students.handleCsvImport (Sample.students_view Sample.csv_without_class)
              (Sample.world []))) = [].
Proof.
  apply (csv_import_rejects (Sample.students_view Sample.csv_without_class)
           (Sample.world []) Sample.csv_without_class eq_refl).
  left. exists "class_code". split; [cbn; by auto|].
  vm_compute. intros [H|[H|[]]]; discriminate.
Defined.

Lemma csv_import_all_or_nothing_witness :
  let r := Students.handleCsvImport (Sample.students_view Sample.csv_with_bad_rows)
             (Sample.world []) in
  log (snd r) = [] /\ db (snd r) = Sample.store.
Proof.
  destruct (csv_import_all_or_nothing (Sample.students_view Sample.csv_with_bad_rows)
              (Sample.world []) Sample.csv_with_bad_rows eq_refl) as (Hlog & Hdb & _).
  - exists "Jane Smith,ND1B". split; [vm_compute; by auto|]. left. vm_compute. lia.
  - split; [exact Hlog | exact Hdb].
Defined.

(** C6 as the spec states it fails: the template with a fourth column,
    [balance], passes the header check, and the insert is sent with the
    balances in its objects. *)
Lemma import_accepts_extra_column :
  let r := Students.handleCsvImport (Sample.students_view Sample.csv_with_balance)
             (Sample.world []) in
  In "balance" (header_of Sample.csv_with_balance) /\
  ~ In "balance" Students.requiredHeaders /\
  (exists objs rest,
     log (snd r) = insert_students objs :: rest /\
     map (fun o => o !! "balance") objs = [Some "5000"; Some "0"]) /\
  ~ import_requires_exact_header.
Proof.
  assert (In "balance" (header_of Sample.csv_with_balance)) as Hin
    by (vm_compute; right; right; right; left; reflexivity).
  assert (~ In "balance" Students.requiredHeaders) as Hnot
    by (intros [H|[H|[H|[]]]]; discriminate H).
  split; [exact Hin|]. split; [exact Hnot|]. split.
  - eexists _, [select_students]. split; vm_compute; reflexivity.
  - intros Hclaim.
    assert (~ (forall h, In h (header_of Sample.csv_with_balance)
                         <-> In h Students.requiredHeaders)) as Hne.
    { intros Hexact. exact (Hnot (proj1 (Hexact "balance") Hin)). }
    pose proof (Hclaim (Sample.students_view Sample.csv_with_balance) (Sample.world [])
                  Sample.csv_with_balance eq_refl Hne) as Hlog.
    vm_compute in Hlog. discriminate Hlog.
Qed.

Lemma csv_import_requires_three_columns_witness :
  exists rest,
    log (snd (Students.handleCsvImport (Sample.students_view Sample.csv_with_balance)
                (Sample.world []))) =
    insert_students
      (map (fun line => Students.row_object (header_of Sample.csv_with_balance)
                          (row_values line))
         (data_lines Sample.csv_with_balance)) :: rest.
Proof.
  destruct (csv_import_requires_three_columns
              (Sample.students_view Sample.csv_with_balance) (Sample.world [])
              Sample.csv_with_balance eq_refl) as [_ H].
  destruct H as (rest & Hlog & _).
  - intros h [<-|[<-|[<-|[]]]]; vm_compute; by auto.
  - vm_compute. discriminate.
  - intros line Hin. vm_compute in Hin. destruct Hin as [<-|[<-|[]]]; vm_compute; reflexivity.
  - exists rest. exact Hlog.
Defined.

(** ** Balance check *)

Section BalanceCheckFacts.

Import BalanceCheck.

(** A unique column selects at most one row. *)
Lemma filter_unique_key (key : Student.t -> string) (v : string) (l : list Student.t) :
  NoDup (map key l) ->
  List.filter (fun s => String.eqb (key s) v) l = [] \/
  exists s, List.filter (fun s => String.eqb (key s) v) l = [s].
Proof.
  induction l as [|x l IH]; [by left|].
  cbn [map List.filter]. intros Hnd. inversion_clear Hnd as [|? ? Hx Hl].
  destruct (String.eqb (key x) v) eqn:E; [|by apply IH].
  right. exists x. f_equal. apply String.eqb_eq in E.
  destruct (List.filter _ l) as [|y ys] eqn:Hf; [done|]. exfalso.
  assert (In y (List.filter (fun s => String.eqb (key s) v) l)) as Hy
    by (rewrite Hf; cbn; auto).
  apply filter_In in Hy as [Hy Hk]. apply String.eqb_eq in Hk.
  apply Hx. rewrite E, <- Hk. apply list_elem_of_In, in_map, Hy.
Qed.

(** A search sends at most one select and writes nothing. *)
Lemma handleSearch_reads_only st w :
  let r := handleSearch st w in
  db (snd r) = db w /\
  exists reqs, log (snd r) = log w ++ reqs /\ Forall (fun rq => is_write rq = false) reqs.
Proof.
  unfold handleSearch.
  destruct (negb _); [exec; split; [done|]; exists []; by rewrite app_nil_r|].
  destruct (searchType st); exec; destruct (faults w) as [|[e|] fs]; exec;
    cbn [apply_request];
    repeat match goal with
    | |- context [single ?l] => destruct (single l)
    | |- context [String.eqb ?a ?b] => destruct (String.eqb a b)
    | |- context [Nat.eqb ?a ?b] => destruct (Nat.eqb a b)
    end; exec; (split; [done|]); eexists [_]; split; try reflexivity;
    by repeat constructor.
Qed.

(** What a search that the backend answers shows. *)
Lemma handleSearch_result (st : State) (w : World) :
  let v := Js.trim (searchValue st) in
  let r := handleSearch st w in
  (db (snd r) = db w /\
   exists reqs, log (snd r) = log w ++ reqs /\ Forall (fun rq => is_write rq = false) reqs) /\
  (v <> "" -> accepts 1 w -> NoDup (map Student.admission_no (Db.students (db w))) ->
   exists st', fst r = Ok st' /\
     match searchType st with
     | admission =>
         students st' = [] /\
         ((exists s, student st' = Some s /\ In s (Db.students (db w)) /\
                     Student.admission_no s = v /\ toasts (snd r) = toasts w) \/
          (student st' = None /\
           (forall s, In s (Db.students (db w)) -> Student.admission_no s <> v) /\
           toasts (snd r) = toasts w ++ [toast_error "Student not found"]))
     | class =>
         student st' = None /\
         forall s, In s (students st') <->
                   In s (Db.students (db w)) /\ Student.class_code s = v
     end).
Proof.
  intros v r. split; [apply handleSearch_reads_only|].
  intros Hv Hacc Hnd. subst r. unfold handleSearch. fold v.
  rewrite (truthy_true _ Hv). cbn [negb].
  destruct (searchType st).
  - destruct (filter_unique_key Student.admission_no v _ Hnd) as [Hnone | (s & Hone)].
    + exec. destruct (accepts_S _ _ Hacc) as [Hf | (fs & Hf & _)]; rewrite Hf;
        cbn [apply_request]; rewrite Hnone; exec; cbn [single code String.eqb Ascii.eqb
          Bool.eqb]; exec; eexists; (split; [reflexivity|]); cbn [students student];
        (split; [done|]); right; (split; [done|]); (split; [|done]);
        intros s Hs Hadm;
        (assert (In s (List.filter (fun s => String.eqb (Student.admission_no s) v)
                         (Db.students (db w)))) as Hin
           by (apply filter_In; split; [done | by apply String.eqb_eq]));
        by rewrite Hnone in Hin.
    + assert (In s (Db.students (db w)) /\ Student.admission_no s = v) as [Hin Hadm].
      { assert (In s (List.filter (fun s => String.eqb (Student.admission_no s) v)
                        (Db.students (db w)))) as H by (rewrite Hone; cbn; auto).
        apply filter_In in H as [H1 H2]. by apply String.eqb_eq in H2. }
      exec. destruct (accepts_S _ _ Hacc) as [Hf | (fs & Hf & _)]; rewrite Hf;
        cbn [apply_request]; rewrite Hone; exec; cbn [single]; exec;
        eexists; (split; [reflexivity|]); cbn [students student];
        (split; [done|]); left; exists s; auto.
  - assert (forall s, In s (order_by Student.name
                (List.filter (fun s => String.eqb (Student.class_code s) v)
                   (Db.students (db w)))) <->
              In s (Db.students (db w)) /\ Student.class_code s = v) as Hdata.
    { intros s. rewrite order_by_In, filter_In. by rewrite String.eqb_eq. }
    exec. destruct (accepts_S _ _ Hacc) as [Hf | (fs & Hf & _)]; rewrite Hf;
      cbn [apply_request];
      destruct (order_by Student.name _) as [|s0 data] eqn:Hsorted;
      cbn [length Nat.eqb]; exec; eexists; (split; [reflexivity|]);
      cbn [students student]; (split; [done|]); exact Hdata.
Qed.

(** C7. A balance check writes nothing: it sends selects only and the
    tables are as before.  With a query that is not blank, an answer
    from the backend and unique admission numbers: by admission number
    it shows the one student with the trimmed query as admission number
    when there is one, and the toast "Student not found" and no student
    otherwise; by class code it shows exactly the students whose class
    code is the trimmed query, possibly none. *)
Theorem balance_check_lookup (st : State) (w : World) :
  let v := Js.trim (searchValue st) in
  let r := handleSearch st w in
  (db (snd r) = db w /\
   exists reqs, log (snd r) = log w ++ reqs /\ Forall (fun rq => is_write rq = false) reqs) /\
  (v <> "" -> accepts 1 w -> NoDup (map Student.admission_no (Db.students (db w))) ->
   exists st', fst r = Ok st' /\
     match searchType st with
     | admission =>
         students st' = [] /\
         (forall s, In s (Db.students (db w)) -> Student.admission_no s = v ->
            student st' = Some s /\ toasts (snd r) = toasts w) /\
         ((forall s, In s (Db.students (db w)) -> Student.admission_no s <> v) ->
            student st' = None /\
            toasts (snd r) = toasts w ++ [toast_error "Student not found"])
     | class =>
         student st' = None /\
         forall s, In s (students st') <->
                   In s (Db.students (db w)) /\ Student.class_code s = v
     end).
Proof.
  intros v r. destruct (handleSearch_result st w) as [Hread Hres].
  split; [exact Hread|]. intros Hv Hacc Hnd.
  destruct (Hres Hv Hacc Hnd) as (st' & Hst & H). exists st'. split; [exact Hst|].
  destruct (searchType st); [|exact H].
  destruct H as (Hnil & [(s0 & Hs0 & Hin0 & Hadm0 & Ht) | (Hnone & Hno & Ht)]).
  - split; [exact Hnil|]. split.
    + intros s Hin Hadm.
      assert (s = s0) as ->.
      { apply (NoDup_map_eq Student.admission_no _ s s0 Hnd Hin Hin0).
        by rewrite Hadm, Hadm0. }
      auto.
    + intros Hno. destruct (Hno s0 Hin0 Hadm0).
  - split; [exact Hnil|]. split; [|auto].
    intros s Hin Hadm. destruct (Hno s Hin Hadm).
Qed.

End BalanceCheckFacts.

Lemma balance_check_lookup_witness :
  let r := BalanceCheck.handleSearch
             (Sample.balance_check BalanceCheck.admission " ASO/2024/002 ")
             (Sample.world []) in
  db (snd r) = Sample.store /\
  exists st', fst r = Ok st' /\ BalanceCheck.student st' = Some Sample.bob /\
              toasts (snd r) = [].
Proof.
  destruct (balance_check_lookup
              (Sample.balance_check BalanceCheck.admission " ASO/2024/002 ")
              (Sample.world [])) as [[Hdb _] H].
  split; [exact Hdb|].
  destruct H as (st' & Hst & _ & Hfound & _).
  - vm_compute. discriminate.
  - apply List.Forall_nil.
  - apply (bool_decide_unpack _). vm_compute. exact I.
  - exists st'. split; [exact Hst|]. apply (Hfound Sample.bob); [cbn; auto | reflexivity].
Defined.

(** * Further properties of the views *)

(** A refused answer among the first of [H : accepts n w] is absurd. *)
Ltac refused_at H :=
  cbn [take] in H;
  repeat match goal with
         | H : Forall _ (_ :: _) |- _ => inversion_clear H
         end; discriminate.

(** ** Student purchases: the other paths of the handler *)

Section PurchasesMore.
Context {rt : Js.JsRuntime}.

Import Purchases.

(** The fetch sends its three selects, changes no table, never throws,
    ends the loading state and keeps the form; it replaces the three
    lists when every select is answered, and otherwise keeps them and
    shows its failure toast. *)
Lemma purchases_fetchData_frame st w :
  exists st' w',
    fetchData st w = (Ok st', w') /\ db w' = db w /\
    log w' = log w ++ purchases_selects /\
    loading st' = false /\ showAddForm st' = showAddForm st /\ formData st' = formData st /\
    ((accepts 3 w /\ toasts w' = toasts w /\
      purchases st' = rev (Db.purchases (db w)) /\
      students st' = order_by Student.name (Db.students (db w)) /\
      stockItems st' = order_by StockItem.item_name (Db.stock_items (db w))) \/
     (~ accepts 3 w /\ toasts w' = toasts w ++ [toast_error "Failed to load data"] /\
      purchases st' = purchases st /\ students st' = students st /\
      stockItems st' = stockItems st)).
Proof.
  unfold fetchData, accepts, purchases_selects. exec.
  destruct (faults w) as [|[e1|] [|[e2|] [|[e3|] fs]]]; exec;
    do 2 eexists; (split; [reflexivity|]);
    cbn [db log toasts apply_request loading showAddForm formData purchases students
         stockItems take];
    rewrite <- ?app_assoc; (split; [reflexivity|]); (split; [reflexivity|]);
    (split; [reflexivity|]); (split; [reflexivity|]); (split; [reflexivity|]);
    first
      [ left; split; [by repeat constructor | by repeat split]
      | right; split;
        [ intros H; repeat match goal with
                           | H : Forall _ (_ :: _) |- _ => inversion_clear H
                           end; discriminate
        | by repeat split ] ].
Qed.

Ltac use_purchases_fetch :=
  match goal with |- context [fetchData ?s ?w1] =>
    let st2 := fresh "st2" in let w2 := fresh "w2" in
    let Hdb := fresh "Hdb" in let Hlog := fresh "Hlog" in let Hrest := fresh "Hrest" in
    destruct (purchases_fetchData_frame s w1) as (st2 & w2 & -> & Hdb & Hlog & Hrest)
  end.

(** Either the handler rejects the form, sending nothing, or the form
    passes every check. *)
Lemma handleSubmit_cases st w :
  (log (snd (handleSubmit st w)) = log w /\ db (snd (handleSubmit st w)) = db w /\
   fst (handleSubmit st w) = Ok st /\
   exists msg, toasts (snd (handleSubmit st w)) = toasts w ++ [toast_error msg] /\
     In msg ["Please fill in all fields"; "Please enter a valid quantity";
             "Invalid item or student selected"; "Insufficient stock quantity";
             "Insufficient student balance"]) \/
  exists q item student, purchase_accepted st q item student.
Proof.
  unfold handleSubmit, purchase_accepted.
  destruct (Js.truthy (student_id _)) eqn:H1; cbn [negb orb];
    [|left; exec; cbn; eauto 12].
  destruct (Js.truthy (item_id _)) eqn:H2; cbn [negb orb]; [|left; exec; cbn; eauto 12].
  destruct (Js.truthy (quantity _)) eqn:H3; cbn [negb orb]; [|left; exec; cbn; eauto 12].
  destruct (Js.parseInt _) as [q|] eqn:Hq; [|left; exec; cbn; eauto 12].
  destruct (q <=? 0) eqn:Hpos; [left; exec; cbn; eauto 12|].
  destruct (Js.find _ (stockItems st)) as [item|] eqn:Hitem; [|left; exec; cbn; eauto 12].
  destruct (Js.find _ (students st)) as [student|] eqn:Hstudent;
    [|left; exec; cbn; eauto 12].
  destruct (_ <? q) eqn:Hstock; [left; exec; cbn; eauto 12|].
  destruct (Js.Qltb _ _) eqn:Hbal; [left; exec; cbn; eauto 12|].
  right. exists q, item, student.
  assert (forall s, Js.truthy s = true -> s <> "") as Hne.
  { intros s Hs ->. discriminate Hs. }
  apply Z.leb_gt in Hpos. apply Z.ltb_ge in Hstock.
  repeat split; auto.
  unfold Js.Qltb in Hbal. apply negb_false_iff in Hbal. by apply Qle_bool_iff.
Qed.

Lemma purchase_writes_nonneg st q item student t :
  purchase_accepted st q item student ->
  Forall nonnegative_write (purchase_writes st q item student t).
Proof.
  intros (_ & _ & _ & _ & _ & _ & _ & Hstock & Hbal).
  unfold purchase_writes.
  repeat first [apply List.Forall_nil | apply List.Forall_cons]; cbn [nonnegative_write];
    try exact I; [lia|].
  unfold Qminus. by apply Qle_minus_iff in Hbal.
Qed.

(** What an accepted form sends: a prefix of its four writes that ends
    at the first refused one, or all four and then the selects of the
    fetch. *)
Lemma handleSubmit_accepted_requests st w q item student :
  purchase_accepted st q item student ->
  let writes := purchase_writes st q item student (clock w) in
  (exists n, (n < 4)%nat /\ log (snd (handleSubmit st w)) = log w ++ take (S n) writes /\
             ~ accepts (S n) w) \/
  (accepts 4 w /\ log (snd (handleSubmit st w)) = log w ++ writes ++ purchases_selects).
Proof.
  intros Hacc. rewrite (handleSubmit_accepted _ _ _ _ Hacc). unfold accepts. exec.
  destruct (faults w) as [|[e1|] [|[e2|] [|[e3|] [|[e4|] fs]]]]; exec;
    try use_purchases_fetch; cbn [fst snd log]; rewrite ?Hlog; cbn [log take];
    rewrite <- ?app_assoc; cbn [app];
    first
      [ right; split; [by repeat constructor | reflexivity]
      | left; exists 0%nat; split; [lia|]; split; [reflexivity|]; intros H; refused_at H
      | left; exists 1%nat; split; [lia|]; split; [reflexivity|]; intros H; refused_at H
      | left; exists 2%nat; split; [lia|]; split; [reflexivity|]; intros H; refused_at H
      | left; exists 3%nat; split; [lia|]; split; [reflexivity|]; intros H; refused_at H ].
Qed.

(** The effect of an accepted purchase all of whose writes are accepted. *)
Lemma handleSubmit_success (st : State) (w : World) (q : Z) (item : StockItem.t)
    (student : Student.t) :
  purchase_accepted st q item student ->
  accepts 4 w ->
  let f := formData st in
  let total := (StockItem.selling_price item * inject_Z q)%Q in
  let r := handleSubmit st w in
  Db.purchases (db (snd r)) =
    Db.purchases (db w) ++ [Purchase.mk (student_id f) (item_id f) q total] /\
  (exists note, Db.transactions (db (snd r)) =
     Db.transactions (db w) ++ [Transaction.mk (student_id f) total spend credit note]) /\
  Db.stock_items (db (snd r)) =
    map (set_stock_quantity (item_id f) (StockItem.quantity item - q) (clock w))
      (Db.stock_items (db w)) /\
  Db.students (db (snd r)) =
    map (set_student_balance (student_id f) (Student.balance student - total)%Q
           (Student.total_spent student + total)%Q) (Db.students (db w)) /\
  Db.daily_sales (db (snd r)) = Db.daily_sales (db w) /\
  Db.stock_purchases (db (snd r)) = Db.stock_purchases (db w) /\
  log (snd r) = log w ++ purchase_writes st q item student (clock w) ++ purchases_selects /\
  (exists rest, toasts (snd r) =
     toasts w ++ toast_success "Purchase completed successfully" :: rest) /\
  exists st', fst r = Ok st' /\ showAddForm st' = false /\ formData st' = mkForm "" "" "" /\
              loading st' = false.
Proof.
  intros Hacc Hok. cbv zeta. rewrite (handleSubmit_accepted _ _ _ _ Hacc).
  unfold accepts in Hok. exec.
  destruct (faults w) as [|a1 [|a2 [|a3 [|a4 fs]]]]; cbn [take] in Hok;
    repeat match goal with
           | H : Forall _ (_ :: _) |- _ => inversion_clear H as [|? ? -> ?]
           end; exec; use_purchases_fetch;
    destruct Hrest as (Hload & Hshow & Hform & Htoasts);
    cbn [fst snd]; rewrite Hdb, Hlog;
    cbn [db log toasts apply_request Db.purchases Db.transactions Db.stock_items
         Db.students Db.daily_sales Db.stock_purchases showAddForm formData] in *;
    unfold purchase_writes; rewrite <- ?app_assoc; cbn [app];
    (repeat split; eauto);
    destruct Htoasts as [(_ & -> & _) | (_ & -> & _)]; rewrite <- ?app_assoc; cbn [app];
    eauto.
Qed.

(** X1. An accepted purchase, which the comparison of balance and total
    price lets pass on doubles too, and whose four writes the backend
    accepts: the purchase row and a [spend] transaction of the same
    amount, by credit, are appended; the rows of the item get the quantity of the
    view minus the quantity bought; the rows of the student get the
    balance of the view minus the total price and its total_spent plus
    the total price; the other tables are untouched; the requests are
    the four writes and the three selects of the fetch; the success toast
    is shown, the form is emptied and closed. *)
Theorem purchase_success (st : State) (w : World) (q : Z) (item : StockItem.t)
    (student : Student.t) :
  purchase_accepted st q item student ->
  balance_covers item q student ->
  accepts 4 w ->
  let f := formData st in
  let total := (StockItem.selling_price item * inject_Z q)%Q in
  let r := handleSubmit st w in
  Db.purchases (db (snd r)) =
    Db.purchases (db w) ++ [Purchase.mk (student_id f) (item_id f) q total] /\
  (exists note, Db.transactions (db (snd r)) =
     Db.transactions (db w) ++ [Transaction.mk (student_id f) total spend credit note]) /\
  Db.stock_items (db (snd r)) =
    map (set_stock_quantity (item_id f) (StockItem.quantity item - q) (clock w))
      (Db.stock_items (db w)) /\
  Db.students (db (snd r)) =
    map (set_student_balance (student_id f) (Student.balance student - total)%Q
           (Student.total_spent student + total)%Q) (Db.students (db w)) /\
  Db.daily_sales (db (snd r)) = Db.daily_sales (db w) /\
  Db.stock_purchases (db (snd r)) = Db.stock_purchases (db w) /\
  log (snd r) = log w ++ purchase_writes st q item student (clock w) ++ purchases_selects /\
  (exists rest, toasts (snd r) =
     toasts w ++ toast_success "Purchase completed successfully" :: rest) /\
  exists st', fst r = Ok st' /\ showAddForm st' = false /\ formData st' = mkForm "" "" "" /\
              loading st' = false.
Proof. intros Hacc _. apply handleSubmit_success. exact Hacc. Qed.

(** X2. Whatever the form, the view and the answers of the backend, the
    handler never writes a negative stock quantity or a negative
    balance. *)
Theorem purchase_never_writes_negative (st : State) (w : World) :
  exists reqs,
    log (snd (handleSubmit st w)) = log w ++ reqs /\ Forall nonnegative_write reqs.
Proof.
  destruct (handleSubmit_cases st w) as [(Hlog & _) | (q & item & student & Hacc)].
  - exists []. rewrite app_nil_r. split; [exact Hlog | apply List.Forall_nil].
  - pose proof (purchase_writes_nonneg st q item student (clock w) Hacc) as Hnn.
    destruct (handleSubmit_accepted_requests st w q item student Hacc)
      as [(n & _ & Hlog & _) | (_ & Hlog)]; eexists; (split; [exact Hlog|]).
    + by apply Forall_take.
    + apply Forall_app. split; [exact Hnn|]. by repeat constructor.
Qed.

(** X3. A form with an empty field, with a quantity that does not parse
    or is not positive, or naming an item or a student that the view
    does not hold, is rejected: no request is sent, tables and view are
    as before, and one validation toast is shown. *)
Theorem purchase_invalid_form_rejected (st : State) (w : World) :
  let f := formData st in
  student_id f = "" \/ item_id f = "" \/ quantity f = "" \/
  Js.parseInt (quantity f) = None \/
  (exists q, Js.parseInt (quantity f) = Some q /\ q <= 0) \/
  Js.find (fun i => String.eqb (StockItem.id i) (item_id f)) (stockItems st) = None \/
  Js.find (fun s => String.eqb (Student.id s) (student_id f)) (students st) = None ->
  let r := handleSubmit st w in
  log (snd r) = log w /\ db (snd r) = db w /\ fst r = Ok st /\
  exists msg, toasts (snd r) = toasts w ++ [toast_error msg] /\
    In msg ["Please fill in all fields"; "Please enter a valid quantity";
            "Invalid item or student selected"; "Insufficient stock quantity";
            "Insufficient student balance"].
Proof.
  intros f Hbad r. subst f r.
  destruct (handleSubmit_cases st w) as [H | (q & item & student & Hacc)]; [exact H|].
  exfalso. destruct Hacc as (H1 & H2 & H3 & Hq & Hpos & Hitem & Hstudent & _).
  destruct Hbad as [H|[H|[H|[H|[(q' & H & Hle)|[H|H]]]]]]; try congruence.
  rewrite Hq in H. injection H as <-. lia.
Qed.

(** X4. When the backend refuses the insert of the purchase row of an
    accepted purchase, which the comparison of balance and total price
    lets pass on doubles too, the handler stops at once: that insert is the only request, no table
    changes, the view is as before and the failure toast is shown. *)
Theorem purchase_insert_refused (st : State) (w : World) (q : Z) (item : StockItem.t)
    (student : Student.t) (e : PgError) (fs : list (option PgError)) :
  purchase_accepted st q item student ->
  balance_covers item q student ->
  faults w = Some e :: fs ->
  let f := formData st in
  let r := handleSubmit st w in
  log (snd r) = log w ++ [insert_purchases (Purchase.mk (student_id f) (item_id f) q
                            (StockItem.selling_price item * inject_Z q)%Q)] /\
  db (snd r) = db w /\ fst r = Ok st /\
  toasts (snd r) = toasts w ++ [toast_error "Failed to process purchase"].
Proof.
  intros Hacc _ Hf. cbv zeta. rewrite (handleSubmit_accepted _ _ _ _ Hacc).
  exec. rewrite Hf. exec. auto.
Qed.

(** X5. The fetch of the purchases view only reads: it sends its three
    selects and changes no table.  It never throws, always ends the
    loading state and keeps the form.  When every select is answered the
    three lists are replaced by the rows of the tables (students by name,
    items by item name, purchases newest first); when one is refused the
    lists stay as they were and the toast "Failed to load data" is
    shown. *)
Theorem purchases_fetch_behaviour (st : State) (w : World) :
  exists st' w',
    fetchData st w = (Ok st', w') /\ db w' = db w /\
    log w' = log w ++ purchases_selects /\
    loading st' = false /\ showAddForm st' = showAddForm st /\ formData st' = formData st /\
    ((accepts 3 w /\ toasts w' = toasts w /\
      purchases st' = rev (Db.purchases (db w)) /\
      students st' = order_by Student.name (Db.students (db w)) /\
      stockItems st' = order_by StockItem.item_name (Db.stock_items (db w))) \/
     (~ accepts 3 w /\ toasts w' = toasts w ++ [toast_error "Failed to load data"] /\
      purchases st' = purchases st /\ students st' = students st /\
      stockItems st' = stockItems st)).
Proof. apply purchases_fetchData_frame. Qed.

(** X6. An item the form does not offer, because the view holds it with
    no stock, cannot be sold by submitting its id all the same: whatever
    the student and the quantity, nothing is sent. *)
Theorem out_of_stock_item_not_sold (st : State) (w : World) (item : StockItem.t) :
  Js.find (fun i => String.eqb (StockItem.id i) (item_id (formData st))) (stockItems st)
    = Some item ->
  ~ In item (offeredItems st) ->
  let r := handleSubmit st w in
  log (snd r) = log w /\ db (snd r) = db w /\ fst r = Ok st.
Proof.
  intros Hitem Hnot r. subst r.
  destruct (handleSubmit_cases st w) as [(H1 & H2 & H3 & _) | (q & it & student & Hacc)];
    [auto|].
  exfalso. destruct Hacc as (_ & _ & _ & _ & Hpos & Hit & _ & Hstock & _).
  rewrite Hitem in Hit. injection Hit as <-.
  apply Hnot. unfold offeredItems. apply filter_In. split.
  - by apply (find_some _ _ _ Hitem).
  - apply Z.ltb_lt. lia.
Qed.

Lemma set_stock_quantity_twice id q1 q2 t1 t2 (l : list StockItem.t) :
  map (set_stock_quantity id q2 t2) (map (set_stock_quantity id q1 t1) l) =
  map (set_stock_quantity id q2 t2) l.
Proof.
  rewrite map_map. apply map_ext. intros it. unfold set_stock_quantity.
  destruct (String.eqb (StockItem.id it) id) eqn:E; cbn [StockItem.id]; by rewrite E.
Qed.

(** X7. Two accepted purchases of one item, each let pass by the
    comparison of balance and total price on doubles too, from two views
    that both hold the same row of it, the second view not having
    fetched since: both purchase
    rows are recorded, but the second stock update overwrites the first,
    so the rows of the item end with the quantity of the views minus the
    second quantity only. *)
Theorem purchases_from_two_views_lose_an_update (st1 st2 : State) (w : World)
    (q1 q2 : Z) (item : StockItem.t) (student1 student2 : Student.t) :
  purchase_accepted st1 q1 item student1 ->
  purchase_accepted st2 q2 item student2 ->
  balance_covers item q1 student1 ->
  balance_covers item q2 student2 ->
  accepts 4 w ->
  accepts 4 (snd (handleSubmit st1 w)) ->
  let w2 := snd (handleSubmit st2 (snd (handleSubmit st1 w))) in
  Db.purchases (db w2) =
    Db.purchases (db w) ++
      [Purchase.mk (student_id (formData st1)) (item_id (formData st1)) q1
         (StockItem.selling_price item * inject_Z q1)%Q;
       Purchase.mk (student_id (formData st2)) (item_id (formData st2)) q2
         (StockItem.selling_price item * inject_Z q2)%Q] /\
  item_id (formData st1) = item_id (formData st2) /\
  forall item', In item' (Db.stock_items (db w2)) ->
    StockItem.id item' = StockItem.id item ->
    StockItem.quantity item' = StockItem.quantity item - q2.
Proof.
  intros Hacc1 Hacc2 _ _ Hok1 Hok2. cbv zeta.
  pose proof (handleSubmit_success st1 w q1 item student1 Hacc1 Hok1) as H1.
  pose proof (handleSubmit_success st2 _ q2 item student2 Hacc2 Hok2) as H2.
  cbv zeta in H1, H2.
  destruct H1 as (Hp1 & _ & Hs1 & _). destruct H2 as (Hp2 & _ & Hs2 & _).
  assert (StockItem.id item = item_id (formData st1)) as Hid1.
  { destruct Hacc1 as (_ & _ & _ & _ & _ & Hf & _).
    apply find_some in Hf as [_ Hf]. by apply String.eqb_eq in Hf. }
  assert (StockItem.id item = item_id (formData st2)) as Hid2.
  { destruct Hacc2 as (_ & _ & _ & _ & _ & Hf & _).
    apply find_some in Hf as [_ Hf]. by apply String.eqb_eq in Hf. }
  split; [|split].
  - rewrite Hp2, Hp1, <- app_assoc. reflexivity.
  - congruence.
  - intros item' Hin Hid. rewrite Hs2, Hs1 in Hin. rewrite <- Hid1, <- Hid2 in Hin.
    rewrite set_stock_quantity_twice in Hin.
    apply in_map_iff in Hin as (it & <- & _). unfold set_stock_quantity in *.
    destruct (String.eqb (StockItem.id it) (StockItem.id item)) eqn:E; [reflexivity|].
    apply String.eqb_neq in E. contradiction.
Qed.

End PurchasesMore.

Lemma sample_purchase_accepted :
  @purchase_accepted Js.ecma (Sample.purchases "3") 3 Sample.pen Sample.alice.
Proof. repeat split; try discriminate; try reflexivity; cbn; lia. Qed.

Lemma sample_balance_covers : balance_covers Sample.pen 3 Sample.alice.
Proof. vm_compute. reflexivity. Qed.

Lemma purchase_success_witness :
  let r := @Purchases.handleSubmit Js.ecma (Sample.purchases "3") (Sample.world []) in
  Db.purchases (db (snd r)) = [Purchase.mk "s1" "i1" 3 (5 * inject_Z 3)%Q] /\
  Db.daily_sales (db (snd r)) = [].
Proof.
  pose proof (@purchase_success Js.ecma (Sample.purchases "3") (Sample.world []) 3
                Sample.pen Sample.alice sample_purchase_accepted sample_balance_covers
                (List.Forall_nil _)) as H.
  cbv zeta in H. destruct H as (Hp & _ & _ & _ & Hd & _). split; [exact Hp | exact Hd].
Defined.

Lemma purchase_invalid_form_rejected_witness :
  log (snd (@Purchases.handleSubmit Js.ecma (Sample.purchases "0") (Sample.world []))) = [].
Proof.
  apply (@purchase_invalid_form_rejected Js.ecma (Sample.purchases "0") (Sample.world [])).
  do 4 right. left. exists 0. split; [reflexivity | lia].
Defined.

Lemma purchase_insert_refused_witness :
  db (snd (@Purchases.handleSubmit Js.ecma (Sample.purchases "3")
             (Sample.world [Some Sample.network_error]))) = Sample.store.
Proof.
  pose proof (@purchase_insert_refused Js.ecma (Sample.purchases "3")
                (Sample.world [Some Sample.network_error]) 3 Sample.pen Sample.alice
                Sample.network_error [] sample_purchase_accepted sample_balance_covers
                eq_refl) as H.
  cbv zeta in H. destruct H as (_ & Hdb & _). exact Hdb.
Defined.

Lemma out_of_stock_item_not_sold_witness :
  let st := Purchases.mkState [] [Sample.alice; Sample.bob] [Sample.ink; Sample.pen]
              false true (Purchases.mkForm "s1" "i2" "1") in
  log (snd (@Purchases.handleSubmit Js.ecma st (Sample.world []))) = [].
Proof.
  apply (@out_of_stock_item_not_sold Js.ecma
           (Purchases.mkState [] [Sample.alice; Sample.bob] [Sample.ink; Sample.pen]
              false true (Purchases.mkForm "s1" "i2" "1")) (Sample.world []) Sample.ink).
  - reflexivity.
  - vm_compute. intros [H|[]]. discriminate H.
Defined.

(** ** Daily sales: the other paths of the handlers *)

Section DailySalesMore.
Context {rt : Js.JsRuntime}.

Lemma daily_fetchData_full_frame st w :
  exists st' w',
    DailySales.fetchData st w = (Ok st', w') /\ db w' = db w /\ clock w' = clock w /\
    log w' = log w ++ [select_daily_sales; select_stock_items] /\
    DailySales.loading st' = false /\
    DailySales.showAddForm st' = DailySales.showAddForm st /\
    DailySales.formData st' = DailySales.formData st /\
    ((accepts 2 w /\ toasts w' = toasts w /\
      DailySales.dailySales st' =
        rev (order_by DailySale.sale_date (Db.daily_sales (db w))) /\
      DailySales.stockItems st' = order_by StockItem.item_name (Db.stock_items (db w))) \/
     (~ accepts 2 w /\ toasts w' = toasts w ++ [toast_error "Failed to load data"] /\
      DailySales.dailySales st' = DailySales.dailySales st /\
      DailySales.stockItems st' = DailySales.stockItems st)).
Proof.
  unfold DailySales.fetchData, accepts. exec.
  destruct (faults w) as [|[e1|] [|[e2|] fs]]; exec;
    do 2 eexists; (split; [reflexivity|]);
    cbn [db log toasts clock apply_request DailySales.loading DailySales.showAddForm
         DailySales.formData DailySales.dailySales DailySales.stockItems take];
    rewrite <- ?app_assoc; (split; [reflexivity|]); (split; [reflexivity|]);
    (split; [reflexivity|]); (split; [reflexivity|]); (split; [reflexivity|]);
    (split; [reflexivity|]);
    first
      [ left; split; [by repeat constructor | by repeat split]
      | right; split; [intros H; refused_at H | by repeat split] ].
Qed.

Ltac use_daily_fetch :=
  match goal with |- context [DailySales.fetchData ?s ?w1] =>
    let st2 := fresh "st2" in let w2 := fresh "w2" in
    let Hdb := fresh "Hdb" in let Hclock := fresh "Hclock" in
    let Hlog := fresh "Hlog" in let Hrest := fresh "Hrest" in
    destruct (daily_fetchData_full_frame s w1)
      as (st2 & w2 & -> & Hdb & Hclock & Hlog & Hrest)
  end.

(** On an accepted form the handler is its [try] block. *)
Lemma daily_handleSubmit_accepted st q item :
  daily_sale_accepted st q item ->
  DailySales.handleSubmit st =
  try_catch
    (saleError <- write (insert_daily_sales (daily_sale_row st q item)) ;;
     throw_if saleError ;;
     t <- now ;;
     stockError <- write (update_stock_items_quantity
       (DailySales.item_id (DailySales.formData st)) (StockItem.quantity item - q) t) ;;
     throw_if stockError ;;
     toast (toast_success "Daily sale recorded successfully") ;;
     d <- today ;;
     DailySales.fetchData
       (DailySales.mkState (DailySales.dailySales st) (DailySales.stockItems st)
          (DailySales.loading st) false (DailySales.mkForm "" "" d "")))
    (fun _ => toast (toast_error "Failed to record daily sale") ;; ret st).
Proof.
  intros (Hi & Hqs & Hq & Hpos & Hitem & Hstock).
  unfold DailySales.handleSubmit, daily_sale_row, sale_row.
  rewrite (truthy_true _ Hi), (truthy_true _ Hqs), Hq, Hitem. cbn [negb orb].
  replace (q <=? 0) with false by (symmetry; apply Z.leb_gt; lia).
  replace (StockItem.quantity item <? q) with false by (symmetry; apply Z.ltb_ge; lia).
  reflexivity.
Qed.

(** X8. An accepted daily sale whose two writes the backend accepts: one
    row is appended to [daily_sales], with the prices of the item as the
    view holds it, revenue and cost the quantity times these prices, the
    date of the form and the notes of the form (none when empty); the
    rows of the item get the quantity of the view minus the quantity
    sold; no other table changes; the success toast is shown and the form
    is closed and emptied, dated with the day of the clock. *)
Theorem daily_sale_success (st : DailySales.State) (w : World) (q : Z) (item : StockItem.t) :
  daily_sale_accepted st q item ->
  accepts 2 w ->
  let f := DailySales.formData st in
  let r := DailySales.handleSubmit st w in
  Db.daily_sales (db (snd r)) = Db.daily_sales (db w) ++ [daily_sale_row st q item] /\
  Db.stock_items (db (snd r)) =
    map (set_stock_quantity (DailySales.item_id f) (StockItem.quantity item - q) (clock w))
      (Db.stock_items (db w)) /\
  Db.students (db (snd r)) = Db.students (db w) /\
  Db.transactions (db (snd r)) = Db.transactions (db w) /\
  Db.purchases (db (snd r)) = Db.purchases (db w) /\
  Db.stock_purchases (db (snd r)) = Db.stock_purchases (db w) /\
  log (snd r) =
    log w ++ [insert_daily_sales (daily_sale_row st q item);
              update_stock_items_quantity (DailySales.item_id f)
                (StockItem.quantity item - q) (clock w);
              select_daily_sales; select_stock_items] /\
  (exists rest, toasts (snd r) =
     toasts w ++ toast_success "Daily sale recorded successfully" :: rest) /\
  exists st', fst r = Ok st' /\ DailySales.showAddForm st' = false /\
              DailySales.formData st' = DailySales.mkForm "" "" (iso_date (clock w)) "".
Proof.
  intros Hacc Hok. cbv zeta. rewrite (daily_handleSubmit_accepted _ _ _ Hacc).
  unfold accepts in Hok. exec.
  destruct (faults w) as [|a1 [|a2 fs]]; cbn [take] in Hok;
    repeat match goal with
           | H : Forall _ (_ :: _) |- _ => inversion_clear H as [|? ? -> ?]
           end; exec; use_daily_fetch;
    destruct Hrest as (Hload & Hshow & Hform & Htoasts);
    cbn [fst snd]; rewrite Hdb, Hlog;
    cbn [db log toasts clock apply_request Db.purchases Db.transactions Db.stock_items
         Db.students Db.daily_sales Db.stock_purchases DailySales.showAddForm
         DailySales.formData] in *;
    rewrite <- ?app_assoc; cbn [app];
    (repeat split; eauto);
    destruct Htoasts as [(_ & -> & _) | (_ & -> & _)]; rewrite <- ?app_assoc; cbn [app];
    eauto.
Qed.

(** X9. The two writes of a daily sale are not atomic.  When the insert
    of the sale is refused nothing changes; when it is accepted and the
    stock update is then refused, the sale row stays in [daily_sales]
    while [stock_items] is as before.  Either way the handler sends
    nothing further and shows its failure toast. *)
Theorem daily_sale_failures (st : DailySales.State) (w : World) (q : Z) (item : StockItem.t)
    (e : PgError) (fs : list (option PgError)) :
  daily_sale_accepted st q item ->
  let r := DailySales.handleSubmit st w in
  (faults w = Some e :: fs ->
   db (snd r) = db w /\
   log (snd r) = log w ++ [insert_daily_sales (daily_sale_row st q item)] /\
   fst r = Ok st /\
   toasts (snd r) = toasts w ++ [toast_error "Failed to record daily sale"]) /\
  (faults w = None :: Some e :: fs ->
   Db.daily_sales (db (snd r)) = Db.daily_sales (db w) ++ [daily_sale_row st q item] /\
   Db.stock_items (db (snd r)) = Db.stock_items (db w) /\
   log (snd r) =
     log w ++ [insert_daily_sales (daily_sale_row st q item);
               update_stock_items_quantity (DailySales.item_id (DailySales.formData st))
                 (StockItem.quantity item - q) (clock w)] /\
   fst r = Ok st /\
   toasts (snd r) = toasts w ++ [toast_error "Failed to record daily sale"]).
Proof.
  intros Hacc. cbv zeta. rewrite (daily_handleSubmit_accepted _ _ _ Hacc).
  split; intros Hf; exec; rewrite Hf; exec; rewrite <- ?app_assoc; auto 10.
Qed.

(** X10. A daily sale form with an empty item or quantity, with a
    quantity that does not parse or is not positive, or naming an item
    the view does not hold, is rejected: no request is sent, tables and
    view are as before and an error toast is shown. *)
Theorem daily_sale_invalid_form_rejected (st : DailySales.State) (w : World) :
  let f := DailySales.formData st in
  DailySales.item_id f = "" \/ DailySales.quantity_sold f = "" \/
  Js.parseInt (DailySales.quantity_sold f) = None \/
  (exists q, Js.parseInt (DailySales.quantity_sold f) = Some q /\ q <= 0) \/
  Js.find (fun i => String.eqb (StockItem.id i) (DailySales.item_id f))
    (DailySales.stockItems st) = None ->
  let r := DailySales.handleSubmit st w in
  log (snd r) = log w /\ db (snd r) = db w /\ fst r = Ok st /\
  exists msg, toasts (snd r) = toasts w ++ [toast_error msg] /\
    In msg ["Please fill in all required fields"; "Please enter a valid quantity";
            "Selected item not found"].
Proof.
  intros f Hbad r. subst f r. unfold DailySales.handleSubmit.
  destruct (Js.truthy (DailySales.item_id _)) eqn:H1; cbn [negb orb];
    [|exec; cbn; eauto 10].
  destruct (Js.truthy (DailySales.quantity_sold _)) eqn:H2; cbn [negb orb];
    [|exec; cbn; eauto 10].
  destruct (Js.parseInt _) as [q|] eqn:Hq; [|exec; cbn; eauto 10].
  destruct (q <=? 0) eqn:Hpos; [exec; cbn; eauto 10|].
  destruct (Js.find _ _) as [item|] eqn:Hitem; [|exec; cbn; eauto 10].
  exfalso. apply Z.leb_gt in Hpos.
  destruct Hbad as [H|[H|[H|[(q' & H & Hle)|H]]]]; try discriminate H.
  - rewrite H in H1. discriminate H1.
  - rewrite H in H2. discriminate H2.
  - injection H as <-. lia.
Qed.



End DailySalesMore.

(** ** Doubles *)

(** *** Doubles keep the sign *)

Lemma number_proper (x y : Q) : (x == y)%Q -> Js.number x = Js.number y.
Proof. intros H. unfold Js.number. by rewrite (Qred_complete x y H). Qed.

Lemma round_half_even_nonneg (n d : Z) : 0 <= n -> 0 < d -> 0 <= Js.round_half_even n d.
Proof.
  intros Hn Hd. unfold Js.round_half_even.
  assert (0 <= n / d) by (apply Z.div_pos; lia).
  destruct (2 * (n mod d) ?= d); [destruct (Z.even (n / d))| |]; lia.
Qed.

Lemma binary64_nonneg (n d : Z) : 0 < n -> 0 < d -> (0 <= Js.binary64 n d)%Q.
Proof.
  intros Hn Hd. unfold Js.binary64.
  destruct (0 <=? Z.max (Js.floor_log2 n d) (-1022) - 52) eqn:E.
  - apply Z.leb_le in E. change 0%Q with (inject_Z 0). rewrite <- Zle_Qle.
    apply Z.mul_nonneg_nonneg; [|apply Z.pow_nonneg; lia].
    apply round_half_even_nonneg; [lia|]. apply Z.mul_pos_pos; [lia|].
    apply Z.pow_pos_nonneg; lia.
  - rewrite Qred_correct. unfold Qle. cbn [Qnum Qden]. rewrite Z.mul_1_r.
    change (0 * _) with 0.
    apply round_half_even_nonneg; [|lia].
    apply Z.mul_nonneg_nonneg; [lia | apply Z.pow_nonneg; lia].
Qed.

Lemma number_nonneg (x : Q) : (0 <= x)%Q -> (0 <= Js.number x)%Q.
Proof.
  intros Hx. unfold Js.number.
  destruct (Qnum (Qred x)) as [|n|n] eqn:E.
  - apply Qle_refl.
  - apply binary64_nonneg; lia.
  - exfalso. rewrite <- (Qred_correct x) in Hx. unfold Qle in Hx.
    cbn [Qnum Qden] in Hx. rewrite E in Hx. lia.
Qed.

Lemma number_nonpos (x : Q) : (x <= 0)%Q -> (Js.number x <= 0)%Q.
Proof.
  intros Hx. unfold Js.number.
  destruct (Qnum (Qred x)) as [|n|n] eqn:E.
  - apply Qle_refl.
  - exfalso. rewrite <- (Qred_correct x) in Hx. unfold Qle in Hx.
    cbn [Qnum Qden] in Hx. rewrite E in Hx. lia.
  - assert (0 <= Js.binary64 (Z.pos n) (Z.pos (Qden (Qred x))))%Q as H
      by (apply binary64_nonneg; lia).
    lra.
Qed.

(** *** Doubles are close *)

Lemma round_half_even_close (n d : Z) :
  0 < d -> 2 * Z.abs (Js.round_half_even n d * d - n) <= d.
Proof.
  intros Hd. unfold Js.round_half_even.
  pose proof (Z.div_mod n d ltac:(lia)) as Hdm.
  pose proof (Z.mod_pos_bound n d Hd) as Hr.
  destruct (Z.compare_spec (2 * (n mod d)) d); [destruct (Z.even (n / d))| |]; nia.
Qed.

Lemma floor_log2_le (n d : Z) :
  0 < n -> 0 < d ->
  (0 <= Js.floor_log2 n d -> d * 2 ^ Js.floor_log2 n d <= n) /\
  (Js.floor_log2 n d < 0 -> d <= n * 2 ^ (- Js.floor_log2 n d)).
Proof.
  intros Hn Hd. unfold Js.floor_log2.
  pose proof (Z.log2_spec n Hn) as [Ha _]. pose proof (Z.log2_spec d Hd) as [_ Hb].
  pose proof (Z.log2_nonneg n) as Ha0. pose proof (Z.log2_nonneg d) as Hb0.
  set (a := Z.log2 n) in *. set (b := Z.log2 d) in *.
  destruct (0 <=? a - b) eqn:E0.
  - apply Z.leb_le in E0. destruct (d * 2 ^ (a - b) <=? n) eqn:E1.
    + apply Z.leb_le in E1. split; [auto | lia].
    + split.
      * intros He.
        assert (2 ^ a = 2 ^ (Z.succ b) * 2 ^ (a - b - 1)) as Hpow
          by (rewrite <- Z.pow_add_r by lia; f_equal; lia).
        assert (0 < 2 ^ (a - b - 1)) by (apply Z.pow_pos_nonneg; lia).
        nia.
      * intros He. assert (a = b) as Hab by lia.
        replace (- (a - b - 1)) with 1 by lia.
        rewrite Z.pow_succ_r in Hb by lia. rewrite Hab in Ha. change (2 ^ 1) with 2. lia.
  - apply Z.leb_gt in E0. destruct (d <=? n * 2 ^ (- (a - b))) eqn:E1.
    + apply Z.leb_le in E1. split; [lia | auto].
    + split; [lia|]. intros _.
      assert (2 ^ (Z.succ b) = 2 ^ a * 2 ^ (- (a - b - 1))) as Hpow
        by (rewrite <- Z.pow_add_r by lia; f_equal; lia).
      assert (0 < 2 ^ (- (a - b - 1))) by (apply Z.pow_pos_nonneg; lia).
      nia.
Qed.

(** The double nearest to [n / d] is a fraction [a / b] within half a
    unit in the last place: relatively within [2^-53], or, below the
    normal range, absolutely within [2^-1075]. *)
Lemma binary64_close (n d : Z) :
  0 < n -> 0 < d ->
  exists a b : Z,
    0 < b /\ (Js.binary64 n d == inject_Z a / inject_Z b)%Q /\
    (2 ^ 53 * Z.abs (a * d - n * b) <= n * b \/
     (b = 2 ^ 1074 /\ 2 * Z.abs (a * d - n * b) <= d)).
Proof.
  intros Hn Hd. unfold Js.binary64.
  destruct (floor_log2_le n d Hn Hd) as [Hpos Hneg].
  set (e := Js.floor_log2 n d) in *.
  destruct (0 <=? Z.max e (-1022) - 52) eqn:E.
  - apply Z.leb_le in E.
    assert (Z.max e (-1022) = e) as -> by lia.
    assert (0 < 2 ^ (e - 52)) as HT by (apply Z.pow_pos_nonneg; lia).
    pose proof (round_half_even_close n (d * 2 ^ (e - 52)) ltac:(nia)) as Hm.
    set (m := Js.round_half_even n (d * 2 ^ (e - 52))) in *.
    exists (m * 2 ^ (e - 52)), 1. split; [lia|]. split.
    + unfold Qdiv. change (/ inject_Z 1)%Q with 1%Q. by rewrite Qmult_1_r.
    + left.
      assert (2 ^ e = 2 ^ (e - 52) * 2 ^ 52) as Hpow
        by (rewrite <- Z.pow_add_r by lia; f_equal; lia).
      specialize (Hpos ltac:(lia)). rewrite Hpow in Hpos.
      change (2 ^ 53) with (2 * 2 ^ 52). set (K := 2 ^ 52) in *.
      assert (0 < K) by (subst K; lia). clearbody K. nia.
  - apply Z.leb_gt in E.
    assert (0 < 2 ^ (- (Z.max e (-1022) - 52))) as HP by (apply Z.pow_pos_nonneg; lia).
    pose proof (round_half_even_close (n * 2 ^ (- (Z.max e (-1022) - 52))) d Hd) as Hm.
    set (m := Js.round_half_even (n * 2 ^ (- (Z.max e (-1022) - 52))) d) in *.
    exists m, (2 ^ (- (Z.max e (-1022) - 52))). split; [exact HP|]. split.
    + rewrite Qred_correct, Qmake_Qdiv. by rewrite Z2Pos.id.
    + destruct (Z_lt_le_dec e (-1022)) as [Hsub | Hnorm].
      * right. assert (Z.max e (-1022) = -1022) as Hmax by lia.
        rewrite Hmax in *. split; [reflexivity | exact Hm].
      * left. assert (Z.max e (-1022) = e) as Hmax by lia. rewrite Hmax in *.
        set (P := 2 ^ (- (e - 52))) in *.
        change (2 ^ 53) with (2 * 2 ^ 52).
        assert (d * 2 ^ 52 <= n * P) as Hle.
        { destruct (Z_lt_le_dec e 0) as [He | He].
          - specialize (Hneg He).
            assert (P = 2 ^ (- e) * 2 ^ 52) as ->
              by (subst P; rewrite <- Z.pow_add_r by lia; f_equal; lia).
            assert (0 < 2 ^ 52) by lia. nia.
          - specialize (Hpos He).
            assert (2 ^ 52 = 2 ^ e * P) as ->
              by (subst P; rewrite <- Z.pow_add_r by lia; f_equal; lia).
            nia. }
        set (K := 2 ^ 52) in *. assert (0 < K) by (subst K; lia). clearbody K P. nia.
Qed.

Lemma tiny_pos : (0 < tiny)%Q.
Proof.
  unfold tiny. apply Qinv_lt_0_compat. change 0%Q with (inject_Z 0).
  rewrite <- Zlt_Qlt. apply Z.pow_pos_nonneg; lia.
Qed.

Lemma rational_close (x r : Q) (n d a b : Z) :
  0 < n -> 0 < d -> 0 < b ->
  (x == inject_Z n / inject_Z d)%Q -> (r == inject_Z a / inject_Z b)%Q ->
  (2 ^ 53 * Z.abs (a * d - n * b) <= n * b \/
   (b = 2 ^ 1074 /\ 2 * Z.abs (a * d - n * b) <= d)) ->
  (x * (1 - half_ulp) - tiny <= r <= x * (1 + half_ulp) + tiny)%Q.
Proof.
  intros Hn Hd Hb Hx Hr Hclose.
  pose proof tiny_pos as Htiny.
  assert (0 < inject_Z d)%Q as HD by (change 0%Q with (inject_Z 0); by rewrite <- Zlt_Qlt).
  assert (0 < inject_Z b)%Q as HB by (change 0%Q with (inject_Z 0); by rewrite <- Zlt_Qlt).
  assert (0 < inject_Z n)%Q as HN by (change 0%Q with (inject_Z 0); by rewrite <- Zlt_Qlt).
  assert (x * inject_Z d == inject_Z n)%Q as Hxd.
  { rewrite Hx. field. intros H0. rewrite H0 in HD. by apply Qlt_irrefl in HD. }
  assert (r * inject_Z b == inject_Z a)%Q as Hrb.
  { rewrite Hr. field. intros H0. rewrite H0 in HB. by apply Qlt_irrefl in HB. }
  assert (0 < x)%Q as Hxpos.
  { rewrite Hx. apply Qlt_shift_div_l; [exact HD|]. by rewrite Qmult_0_l. }
  destruct Hclose as [Hrel | [Hb1074 Habs]].
  - assert (2 ^ 53 * (a * d - n * b) <= n * b /\ - (n * b) <= 2 ^ 53 * (a * d - n * b))
      as [H1 H2] by lia.
    rewrite Zle_Qle in H1, H2.
    rewrite ?inject_Z_opp, ?inject_Z_mult, ?inject_Z_plus, ?inject_Z_opp in H1, H2.
    unfold Z.sub in H1, H2.
    rewrite ?inject_Z_mult, ?inject_Z_plus, ?inject_Z_opp, ?inject_Z_mult in H1, H2.
    change (inject_Z (2 ^ 53)) with (9007199254740992 # 1)%Q in H1, H2.
    assert ((9007199254740992 # 1) * (r * inject_Z b * inject_Z d
                                       + - (x * inject_Z d * inject_Z b))
            <= x * inject_Z d * inject_Z b)%Q as H1' by (rewrite Hxd, Hrb; exact H1).
    assert (- (x * inject_Z d * inject_Z b)
            <= (9007199254740992 # 1) * (r * inject_Z b * inject_Z d
                                          + - (x * inject_Z d * inject_Z b)))%Q as H2'
      by (rewrite Hxd, Hrb; exact H2).
    clear H1 H2. unfold half_ulp.
    set (D := inject_Z d) in *. set (B := inject_Z b) in *.
    clearbody D B. clear Hxd Hrb Hx Hr.
    assert (0 < D * B)%Q as HDB by nra.
    assert ((9007199254740992 # 1) * (r - x) <= x)%Q as Hup by nra.
    assert (- x <= (9007199254740992 # 1) * (r - x))%Q as Hlo by nra.
    split; lra.
  - assert (2 * (a * d - n * b) <= d /\ - d <= 2 * (a * d - n * b)) as [H1 H2] by lia.
    rewrite Zle_Qle in H1, H2.
    unfold Z.sub in H1, H2.
    rewrite ?inject_Z_opp, ?inject_Z_mult, ?inject_Z_plus, ?inject_Z_opp, ?inject_Z_mult
      in H1, H2.
    assert (inject_Z 2 * (r * inject_Z b * inject_Z d + - (x * inject_Z d * inject_Z b))
            <= inject_Z d)%Q as H1' by (rewrite Hxd, Hrb; exact H1).
    assert (- inject_Z d
            <= inject_Z 2 * (r * inject_Z b * inject_Z d + - (x * inject_Z d * inject_Z b)))%Q
      as H2' by (rewrite Hxd, Hrb; exact H2).
    clear H1 H2.
    assert (tiny * (inject_Z 2 * inject_Z b) == 1)%Q as Ht.
    { unfold tiny. rewrite Hb1074, <- inject_Z_mult.
      change (2 * 2 ^ 1074) with (2 ^ 1075). rewrite Qmult_comm. apply Qmult_inv_r.
      intros H0. assert (0 < inject_Z (2 ^ 1075))%Q as Hp.
      { change 0%Q with (inject_Z 0). rewrite <- Zlt_Qlt. apply Z.pow_pos_nonneg; lia. }
      rewrite H0 in Hp. by apply Qlt_irrefl in Hp. }
    change (inject_Z 2) with 2%Q in *.
    set (D := inject_Z d) in *. set (B := inject_Z b) in *.
    set (t := tiny) in *. clearbody D B t. clear Hxd Hrb Hx Hr Hb1074.
    assert (2 * B * (r - x) <= 1)%Q as Hup by nra.
    assert (-1 <= 2 * B * (r - x))%Q as Hlo by nra.
    assert (0 <= x * half_ulp)%Q as Hxu by (unfold half_ulp; nra).
    assert (r - x <= t)%Q by nra.
    assert (- t <= r - x)%Q by nra.
    split; lra.
Qed.

Lemma number_close (x : Q) :
  (0 <= x)%Q ->
  (x * (1 - half_ulp) - tiny <= Js.number x <= x * (1 + half_ulp) + tiny)%Q.
Proof.
  intros Hx. pose proof tiny_pos as Htiny. unfold Js.number.
  pose proof (Qred_correct x) as Hred.
  destruct (Qred x) as [n d] eqn:E. cbn [Qnum Qden].
  destruct n as [|n|n].
  - assert (x == 0)%Q as -> by (rewrite <- Hred; reflexivity). lra.
  - destruct (binary64_close (Z.pos n) (Z.pos d) ltac:(lia) ltac:(lia))
      as (a & b & Hb & Hr & Hclose).
    apply (rational_close x _ (Z.pos n) (Z.pos d) a b); try lia; try assumption.
    rewrite <- Hred. apply Qmake_Qdiv.
  - exfalso. rewrite <- Hred in Hx. unfold Qle in Hx. cbn in Hx. lia.
Qed.

Lemma near_refl (x : Q) : (0 <= x)%Q -> near 0 0 x x.
Proof. intros H. unfold near. split; [exact H|]. split; lra. Qed.

Lemma near_number (k E k' E' x y : Q) :
  (0 <= x)%Q -> (0 <= E)%Q -> (0 <= k <= 1000)%Q ->
  (k + 1 <= k')%Q -> (2 * E + tiny <= E')%Q ->
  near k E x y -> near k' E' x (Js.number y).
Proof.
  intros Hx HE Hk Hk' HE' (Hy & Hlo & Hup).
  pose proof (number_close y Hy) as [Hnlo Hnup]. pose proof tiny_pos as Ht.
  pose proof (number_nonneg y Hy) as Hn.
  unfold near, half_ulp in *. set (t := tiny) in *. clearbody t.
  set (z := Js.number y) in *. clearbody z.
  split; [exact Hn|]. split; nra.
Qed.

Lemma near_scale (k E E' x y s : Q) :
  (0 <= s)%Q -> (s * E <= E')%Q -> near k E x y -> near k E' (s * x) (s * y).
Proof.
  intros Hs HE (Hy & Hlo & Hup). unfold near in *. split; [nra|]. split; nra.
Qed.

Lemma near_add (k E1 E2 E' x1 x2 y1 y2 : Q) :
  (E1 + E2 <= E')%Q ->
  near k E1 x1 y1 -> near k E2 x2 y2 -> near k E' (x1 + x2) (y1 + y2).
Proof.
  intros HE (Hy1 & Hlo1 & Hup1) (Hy2 & Hlo2 & Hup2). unfold near in *.
  split; [lra|]. split; lra.
Qed.

Lemma near_weaken (k E E' x y : Q) : (E <= E')%Q -> near k E x y -> near k E' x y.
Proof. intros HE (Hy & Hlo & Hup). unfold near. split; [exact Hy|]. split; lra. Qed.

Lemma near_proper (k E x x' y y' : Q) :
  (x == x')%Q -> (y == y')%Q -> near k E x y -> near k E x' y'.
Proof. intros Hx Hy. unfold near. rewrite Hx, Hy. tauto. Qed.

Lemma number_int (k : Z) : 0 <= k < 2 ^ 53 -> (Js.number (inject_Z k) == inject_Z k)%Q.
Proof.
  intros Hk. unfold Js.number.
  change (Qred (inject_Z k)) with (Qred (k # 1)).
  assert (Qred (k # 1) = k # 1) as ->.
  { unfold Qred. cbn [Qnum Qden]. 
    pose proof (Z.ggcd_correct_divisors k 1) as Hd. pose proof (Z.ggcd_gcd k 1) as Hg.
    destruct (Z.ggcd k 1) as [g [a b]]. cbn [fst snd] in *.
    rewrite Z.gcd_1_r in Hg. subst g. destruct Hd as [Ha Hb].
    assert (a = k) as -> by lia. assert (b = 1) as -> by lia. reflexivity. }
  cbn [Qnum Qden]. destruct k as [|p|p]; [reflexivity| |lia].
  unfold Js.binary64.
  assert (Js.floor_log2 (Z.pos p) 1 = Z.log2 (Z.pos p)) as He.
  { unfold Js.floor_log2. change (Z.log2 1) with 0. rewrite Z.sub_0_r.
    pose proof (Z.log2_nonneg (Z.pos p)) as H0. pose proof (Z.log2_spec (Z.pos p) ltac:(lia)) as [H1 _].
    destruct (0 <=? Z.log2 (Z.pos p)) eqn:E; [|apply Z.leb_gt in E; lia].
    destruct (1 * 2 ^ Z.log2 (Z.pos p) <=? Z.pos p) eqn:E1; [reflexivity|].
    apply Z.leb_gt in E1. lia. }
  rewrite He.
  assert (Z.log2 (Z.pos p) < 53) as Hlog by (apply Z.log2_lt_pow2; lia).
  pose proof (Z.log2_nonneg (Z.pos p)) as H0.
  assert (forall m, Js.round_half_even m 1 = m) as Hrne.
  { intros m. unfold Js.round_half_even. rewrite Z.mod_1_r, Z.div_1_r. reflexivity. }
  destruct (0 <=? Z.max (Z.log2 (Z.pos p)) (-1022) - 52) eqn:E.
  - apply Z.leb_le in E. assert (Z.max (Z.log2 (Z.pos p)) (-1022) - 52 = 0) as -> by lia.
    replace (Js.round_half_even (Z.pos p) (1 * 2 ^ 0) * 2 ^ 0) with (Z.pos p);
      [reflexivity|].
    change (1 * 2 ^ 0) with 1. rewrite Hrne. change (2 ^ 0) with 1. lia.
  - apply Z.leb_gt in E. rewrite Hrne, Qred_correct.
    assert (0 < 2 ^ (- (Z.max (Z.log2 (Z.pos p)) (-1022) - 52))) as HP
      by (apply Z.pow_pos_nonneg; lia).
    unfold Qeq. cbn [Qnum Qden inject_Z]. rewrite Z2Pos.id by exact HP. lia.
Qed.

Lemma tiny_small : (tiny <= 1 # 1000000000000)%Q.
Proof. apply Qle_bool_imp_le. vm_compute. reflexivity. Qed.

Lemma round_half_away_close (z : Q) :
  (z - (1 # 2) <= inject_Z (round_half_away z) <= z + (1 # 2))%Q.
Proof.
  destruct z as [n d]. unfold round_half_away. cbn [Qnum Qden].
  pose proof (Z.div_mod (2 * Z.abs n + Z.pos d) (2 * Z.pos d) ltac:(lia)) as Hdm.
  pose proof (Z.mod_pos_bound (2 * Z.abs n + Z.pos d) (2 * Z.pos d) ltac:(lia)) as Hr.
  set (k := (2 * Z.abs n + Z.pos d) / (2 * Z.pos d)) in *.
  set (r := (2 * Z.abs n + Z.pos d) mod (2 * Z.pos d)) in *.
  unfold Qle, Qminus, Qplus, Qopp. cbn [Qnum Qden inject_Z].
  rewrite ?Pos2Z.inj_mul.
  destruct n as [|p|p]; cbn [Z.sgn Z.abs] in *; split; nia.
Qed.

(** A [numeric(10,2)] column keeps a number within 0.0055 of the double
    it is sent. *)
Lemma numeric_10_2_close (y : Q) :
  (Js.number y - (11 # 2000) <= numeric_10_2 y <= Js.number y + (11 # 2000))%Q.
Proof.
  unfold numeric_10_2. set (v := Js.number y).
  pose proof (round_half_away_close (v * 1000)) as Ht.
  assert (round_half_away (v * 1000) # 1000
          == inject_Z (round_half_away (v * 1000)) / 1000)%Q as Hteq by apply Qmake_Qdiv.
  set (t := round_half_away (v * 1000) # 1000) in *.
  set (kt := inject_Z (round_half_away (v * 1000))) in *.
  assert (v - (1 # 2000) <= t <= v + (1 # 2000))%Q as Htv.
  { rewrite Hteq. clearbody kt. unfold Qdiv.
    change (/ 1000)%Q with (1 # 1000)%Q. split; lra. }
  set (sent := if Qeq_bool (Js.number t) v then t else v).
  assert (v - (1 # 2000) <= sent <= v + (1 # 2000))%Q as Hsent.
  { subst sent. destruct (Qeq_bool _ v); [exact Htv | split; lra]. }
  pose proof (round_half_away_close (sent * 100)) as Hs.
  rewrite (Qmake_Qdiv (round_half_away (sent * 100)) 100).
  set (ks := inject_Z (round_half_away (sent * 100))) in *. clearbody ks sent t.
  unfold Qdiv. change (/ inject_Z (Z.pos 100))%Q with (1 # 100)%Q. split; lra.
Qed.

(** The weighted average of two costs lies between them. *)
Lemma weighted_average_between (n q : Z) (C c : Q) :
  0 <= n -> 0 < q ->
  let avg := ((inject_Z n * C + inject_Z q * c) / inject_Z (n + q))%Q in
  ((C <= c)%Q -> (C <= avg <= c)%Q) /\
  ((c <= C)%Q -> (c <= avg <= C)%Q).
Proof.
  intros Hn Hq avg.
  assert (0 < inject_Z (n + q))%Q as Hpos.
  { change (inject_Z 0 < inject_Z (n + q))%Q. rewrite <- Zlt_Qlt. lia. }
  assert (0 <= inject_Z n)%Q as Hn'
    by (change (inject_Z 0 <= inject_Z n)%Q; rewrite <- Zle_Qle; lia).
  assert (0 < inject_Z q)%Q as Hq'
    by (change (inject_Z 0 < inject_Z q)%Q; rewrite <- Zlt_Qlt; lia).
  assert (inject_Z (n + q) == inject_Z n + inject_Z q)%Q as Hsum by (by rewrite inject_Z_plus).
  split.
  - intros Hle. subst avg. split.
    + apply Qle_shift_div_l; [exact Hpos|]. rewrite Hsum. nra.
    + apply Qle_shift_div_r; [exact Hpos|]. rewrite Hsum. nra.
  - intros Hle. subst avg. split.
    + apply Qle_shift_div_l; [exact Hpos|]. rewrite Hsum. nra.
    + apply Qle_shift_div_r; [exact Hpos|]. rewrite Hsum. nra.
Qed.

(** The average as JavaScript computes it is within six roundings of the
    weighted average. *)
Lemma average_cost_near (item : StockItem.t) (q : Z) (c : Q) :
  0 <= StockItem.quantity item < 2 ^ 31 -> 0 < q < 2 ^ 31 ->
  (0 <= StockItem.cost_price item)%Q -> (0 <= c)%Q ->
  near 6 (87 * tiny)
    ((inject_Z (StockItem.quantity item) * StockItem.cost_price item + inject_Z q * c)
     / inject_Z (StockItem.quantity item + q))
    (average_cost item q c).
Proof.
  intros Hn Hq HC Hc. unfold average_cost, Js.div, Js.add, Js.mul.
  set (n := StockItem.quantity item) in *. set (C := StockItem.cost_price item) in *.
  pose proof tiny_pos as Ht.
  assert (0 <= inject_Z n)%Q as Hn0
    by (change (inject_Z 0 <= inject_Z n)%Q; rewrite <- Zle_Qle; lia).
  assert (0 < inject_Z q)%Q as Hq0
    by (change (inject_Z 0 < inject_Z q)%Q; rewrite <- Zlt_Qlt; lia).
  assert (1 <= inject_Z (n + q))%Q as HD
    by (change (inject_Z 1 <= inject_Z (n + q))%Q; rewrite <- Zle_Qle; lia).
  assert (inject_Z (n + q) == inject_Z n + inject_Z q)%Q as Hsum by (by rewrite inject_Z_plus).
  rewrite (number_proper (Js.number (inject_Z n) * Js.number C) (inject_Z n * Js.number C))
    by (rewrite number_int by lia; reflexivity).
  rewrite (number_proper (Js.number (inject_Z q) * Js.number c) (inject_Z q * Js.number c))
    by (rewrite number_int by lia; reflexivity).
  set (M1 := Js.number (inject_Z n * Js.number C)).
  set (M2 := Js.number (inject_Z q * Js.number c)).
  set (S := Js.number (Js.number M1 + Js.number M2)).
  rewrite (number_proper (Js.number S / Js.number (inject_Z (n + q)))
             (/ inject_Z (n + q) * Js.number S))
    by (rewrite number_int by lia; unfold Qdiv; apply Qmult_comm).
  (* the two products *)
  assert (forall (k : Z) (x : Q), (0 <= inject_Z k)%Q -> (0 <= x)%Q ->
            near 3 (4 * inject_Z k * tiny + 3 * tiny) (inject_Z k * x)
              (Js.number (Js.number (inject_Z k * Js.number x)))) as Hprod.
  { intros k x Hk Hx.
    assert (0 <= inject_Z k * x)%Q as Hkx by nra.
    pose proof (near_number 0 0 1 tiny x x Hx ltac:(lra) ltac:(lra) ltac:(lra) ltac:(lra)
                  (near_refl x Hx)) as N1.
    pose proof (near_scale 1 tiny (inject_Z k * tiny) x (Js.number x) (inject_Z k) Hk
                  ltac:(lra) N1) as N2.
    pose proof (near_number 1 (inject_Z k * tiny) 2 (2 * inject_Z k * tiny + tiny) _ _ Hkx
                  ltac:(nra) ltac:(lra) ltac:(lra) ltac:(lra) N2) as N3.
    exact (near_number 2 (2 * inject_Z k * tiny + tiny) 3 (4 * inject_Z k * tiny + 3 * tiny)
             _ _ Hkx ltac:(nra) ltac:(lra) ltac:(lra) ltac:(lra) N3). }
  pose proof (Hprod n C Hn0 HC) as N1. pose proof (Hprod q c ltac:(lra) Hc) as N2.
  fold M1 in N1. fold M2 in N2.
  set (A := (inject_Z n * C + inject_Z q * c)%Q).
  assert (0 <= A)%Q as HA by (subst A; nra).
  pose proof (near_add 3 (4 * inject_Z n * tiny + 3 * tiny) (4 * inject_Z q * tiny + 3 * tiny)
                (4 * inject_Z (n + q) * tiny + 6 * tiny) _ _ _ _
                ltac:(rewrite Hsum; nra) N1 N2) as N5.
  fold A in N5.
  pose proof (near_number 3 (4 * inject_Z (n + q) * tiny + 6 * tiny) 4
                (8 * inject_Z (n + q) * tiny + 13 * tiny) _ _ HA
                ltac:(nra) ltac:(lra) ltac:(lra) ltac:(lra) N5) as N6.
  fold S in N6.
  pose proof (near_number 4 (8 * inject_Z (n + q) * tiny + 13 * tiny) 5
                (16 * inject_Z (n + q) * tiny + 27 * tiny) _ _ HA
                ltac:(nra) ltac:(lra) ltac:(lra) ltac:(lra) N6) as N7.
  assert (0 < / inject_Z (n + q))%Q as Hinv by (apply Qinv_lt_0_compat; lra).
  assert (/ inject_Z (n + q) * inject_Z (n + q) == 1)%Q as Hinv1
    by (rewrite Qmult_comm; apply Qmult_inv_r; lra).
  assert (/ inject_Z (n + q) <= 1)%Q as Hinv_le by nra.
  pose proof (near_scale 5 (16 * inject_Z (n + q) * tiny + 27 * tiny) (43 * tiny) _ _
                (/ inject_Z (n + q)) ltac:(lra) ltac:(nra) N7) as N8.
  assert (0 <= / inject_Z (n + q) * A)%Q as HavgA by nra.
  pose proof (near_number 5 (43 * tiny) 6 (87 * tiny) _ _ HavgA ltac:(lra) ltac:(lra)
                ltac:(lra) ltac:(lra) N8) as N9.
  eapply near_proper; [| reflexivity | exact N9].
  unfold Qdiv. apply Qmult_comm.
Qed.

(** ** Stock purchases: the other paths of the handler *)

Section StockPurchasesMore.
Context {rt : Js.JsRuntime}.

Import StockPurchases.

(** The stock items after a valid purchase both of whose writes are
    accepted. *)
Lemma stock_purchase_items st w q c item :
  stock_purchase_valid st q c ->
  Js.find (fun i => String.eqb (StockItem.id i) (item_id (formData st))) (stockItems st)
    = Some item ->
  accepts 2 w ->
  Db.stock_items (db (snd (handleSubmit st w))) =
  map (set_stock_quantity_cost (item_id (formData st)) (StockItem.quantity item + q)
         (numeric_10_2 (average_cost item q c)) (clock w))
    (Db.stock_items (db w)) /\
  Db.stock_purchases (db (snd (handleSubmit st w))) =
    Db.stock_purchases (db w) ++ [stock_purchase_row st q c] /\
  Db.students (db (snd (handleSubmit st w))) = Db.students (db w) /\
  Db.daily_sales (db (snd (handleSubmit st w))) = Db.daily_sales (db w) /\
  exists rest, toasts (snd (handleSubmit st w)) =
    toasts w ++ toast_success "Stock purchase recorded successfully" :: rest.
Proof.
  intros Hvalid Hfind Hok.
  rewrite (stock_handleSubmit_valid _ _ _ Hvalid); cbv zeta; rewrite Hfind.
  unfold accepts in Hok. exec.
  destruct (faults w) as [|a1 [|a2 fs]]; cbn [take] in Hok;
    repeat match goal with
           | H : Forall _ (_ :: _) |- _ => inversion_clear H as [|? ? -> ?]
           end; exec;
    match goal with |- context [fetchData ?s ?w1] =>
      destruct (stock_fetchData_frame s w1) as (st2 & w2 & -> & Hdb & _ & Htoasts) end;
    cbn [fst snd]; rewrite Hdb;
    cbn [db toasts apply_request Db.stock_items Db.stock_purchases Db.students
         Db.daily_sales] in *;
    (repeat split; try reflexivity);
    destruct Htoasts as [-> | ->]; rewrite <- ?app_assoc; cbn [app]; eauto.
Qed.

(** X12. A successful stock purchase changes the cost price to the
    weighted average, to the cent.  For a valid form of [q] units at [c]
    per unit, an item the view holds with a quantity [n >= 0] and cost
    price [C], counts below 2^31 and prices up to 10^8 as the columns
    take them, and both writes accepted: every row of the item has the
    quantity [n + q], and its cost price, computed in doubles and
    rounded by the column, differs from [(n*C + q*c) / (n + q)] by less
    than a cent, and so lies between [C] and [c] up to a cent. *)
Theorem stock_purchase_cost_to_the_cent (st : State) (w : World) (q : Z) (c : Q)
    (item : StockItem.t) :
  stock_purchase_valid st q c ->
  Js.find (fun i => String.eqb (StockItem.id i) (item_id (formData st))) (stockItems st)
    = Some item ->
  0 <= StockItem.quantity item < 2 ^ 31 -> q < 2 ^ 31 ->
  (0 <= StockItem.cost_price item <= 100000000)%Q -> (c <= 100000000)%Q ->
  accepts 2 w ->
  let n := StockItem.quantity item in
  let C := StockItem.cost_price item in
  let average := ((inject_Z n * C + inject_Z q * c) / inject_Z (n + q))%Q in
  forall item', In item' (Db.stock_items (db (snd (handleSubmit st w)))) ->
    StockItem.id item' = item_id (formData st) ->
    StockItem.quantity item' = n + q /\
    (average - (1 # 100) < StockItem.cost_price item' < average + (1 # 100))%Q /\
    ((C <= c)%Q -> (C - (1 # 100) < StockItem.cost_price item' < c + (1 # 100))%Q) /\
    ((c <= C)%Q -> (c - (1 # 100) < StockItem.cost_price item' < C + (1 # 100))%Q).
Proof.
  intros Hvalid Hfind Hn Hq HC Hc Hok n C average item' Hin Hid.
  assert (0 < q) as Hq0 by (by destruct Hvalid as (_ & _ & _ & _ & _ & Hq0 & _)).
  assert (0 < c)%Q as Hc0 by (by destruct Hvalid as (_ & _ & _ & _ & _ & _ & _ & Hc0)).
  pose proof (weighted_average_between n q C c ltac:(lia) Hq0) as [Hup Hdown].
  pose proof (average_cost_near item q c Hn ltac:(lia) ltac:(lra) ltac:(lra)) as Hnear.
  change (near 6 (87 * tiny) average (average_cost item q c)) in Hnear.
  change ((C <= c)%Q -> (C <= average <= c)%Q) in Hup.
  change ((c <= C)%Q -> (c <= average <= C)%Q) in Hdown.
  change (0 <= C <= 100000000)%Q in HC.
  destruct (stock_purchase_items st w q c item Hvalid Hfind Hok) as (Hitems & _).
  rewrite Hitems in Hin. apply in_map_iff in Hin as (it & <- & _).
  unfold set_stock_quantity_cost in *.
  destruct (String.eqb (StockItem.id it) (item_id (formData st))) eqn:E;
    [|apply String.eqb_neq in E; contradiction].
  cbn [StockItem.quantity StockItem.cost_price]. split; [reflexivity|].
  clearbody average C.
  assert (0 <= average <= 100000000)%Q as Havg.
  { destruct (Qlt_le_dec c C) as [Hlt | Hle].
    - destruct Hdown; [lra|]. split; lra.
    - destruct (Hup Hle). split; lra. }
  pose proof (near_number 6 (87 * tiny) 7 (175 * tiny) average _ ltac:(lra)
                ltac:(pose proof tiny_pos; lra) ltac:(lra) ltac:(lra) ltac:(lra) Hnear)
    as (_ & Hlo & Hhi).
  pose proof (numeric_10_2_close (average_cost item q c)) as [Hnlo Hnhi].
  pose proof tiny_pos as Ht. pose proof tiny_small as Hts.
  unfold half_ulp in *.
  set (stored := numeric_10_2 (average_cost item q c)) in *.
  set (v := Js.number (average_cost item q c)) in *.
  set (t := tiny) in *. clearbody stored v t.
  assert (average - (1 # 100) < stored < average + (1 # 100))%Q as Hclose by (split; lra).
  split; [exact Hclose|]. split.
  - intros Hle. destruct (Hup Hle). split; lra.
  - intros Hle. destruct (Hdown Hle). split; lra.
Qed.

(** X13. A successful stock purchase keeps the books: the row of the
    form, with total cost [q*c] as JavaScript computes it, is appended
    to [stock_purchases]; the
    students and the daily sales are untouched; the success toast is
    shown. *)
Theorem stock_purchase_success (st : State) (w : World) (q : Z) (c : Q)
    (item : StockItem.t) :
  stock_purchase_valid st q c ->
  Js.find (fun i => String.eqb (StockItem.id i) (item_id (formData st))) (stockItems st)
    = Some item ->
  accepts 2 w ->
  let r := handleSubmit st w in
  Db.stock_purchases (db (snd r)) = Db.stock_purchases (db w) ++ [stock_purchase_row st q c] /\
  StockPurchase.total_cost (stock_purchase_row st q c) = Js.mul (inject_Z q) c /\
  Db.students (db (snd r)) = Db.students (db w) /\
  Db.daily_sales (db (snd r)) = Db.daily_sales (db w) /\
  exists rest, toasts (snd r) =
    toasts w ++ toast_success "Stock purchase recorded successfully" :: rest.
Proof.
  intros Hvalid Hfind Hok.
  destruct (stock_purchase_items st w q c item Hvalid Hfind Hok) as (_ & H1 & H2 & H3 & H4).
  cbv zeta. auto.
Qed.

(** X14. The two writes of a stock purchase are not atomic.  When the
    insert is refused nothing changes.  When it is accepted and the
    update of the item is then refused, the purchase row stays in
    [stock_purchases] while the quantity and the cost price of the item
    are not updated.  Either way nothing further is sent and the failure
    toast is shown. *)
Theorem stock_purchase_failures (st : State) (w : World) (q : Z) (c : Q)
    (e : PgError) (fs : list (option PgError)) :
  stock_purchase_valid st q c ->
  let r := handleSubmit st w in
  (faults w = Some e :: fs ->
   db (snd r) = db w /\ log (snd r) = log w ++ [insert_stock_purchases (stock_purchase_row st q c)] /\
   fst r = Ok st /\
   toasts (snd r) = toasts w ++ [toast_error "Failed to record stock purchase"]) /\
  (faults w = None :: Some e :: fs ->
   forall item,
     Js.find (fun i => String.eqb (StockItem.id i) (item_id (formData st))) (stockItems st)
       = Some item ->
     Db.stock_purchases (db (snd r)) =
       Db.stock_purchases (db w) ++ [stock_purchase_row st q c] /\
     Db.stock_items (db (snd r)) = Db.stock_items (db w) /\
     (exists rq, log (snd r) =
        log w ++ [insert_stock_purchases (stock_purchase_row st q c); rq]) /\
     fst r = Ok st /\
     toasts (snd r) = toasts w ++ [toast_error "Failed to record stock purchase"]).
Proof.
  intros Hvalid. cbv zeta. rewrite (stock_handleSubmit_valid _ _ _ Hvalid); cbv zeta.
  split.
  - intros Hf. exec. rewrite Hf. exec. auto.
  - intros Hf item Hfind. rewrite Hfind. exec. rewrite Hf. exec.
    rewrite <- ?app_assoc. eauto 10.
Qed.

(** X15. A stock purchase form with an empty required field, with a
    quantity that does not parse or is not positive, or with a cost per
    unit that does not parse or is not positive, is rejected: no request
    is sent, tables and view are as before and an error toast is shown. *)
Theorem stock_purchase_invalid_form_rejected (st : State) (w : World) :
  let f := formData st in
  item_id f = "" \/ quantity f = "" \/ cost_per_unit f = "" \/ supplier_name f = "" \/
  Js.parseInt (quantity f) = None \/
  (exists q, Js.parseInt (quantity f) = Some q /\ q <= 0) \/
  Js.parseFloat (cost_per_unit f) = None \/
  (exists c, Js.parseFloat (cost_per_unit f) = Some c /\ (c <= 0)%Q) ->
  let r := handleSubmit st w in
  log (snd r) = log w /\ db (snd r) = db w /\ fst r = Ok st /\
  exists msg, toasts (snd r) = toasts w ++ [toast_error msg] /\
    In msg ["Please fill in all required fields"; "Please enter a valid quantity";
            "Please enter a valid cost per unit"].
Proof.
  intros f Hbad r. subst f r. unfold handleSubmit.
  destruct (Js.truthy (item_id _)) eqn:H1; cbn [negb orb]; [|exec; cbn; eauto 10].
  destruct (Js.truthy (quantity _)) eqn:H2; cbn [negb orb]; [|exec; cbn; eauto 10].
  destruct (Js.truthy (cost_per_unit _)) eqn:H3; cbn [negb orb]; [|exec; cbn; eauto 10].
  destruct (Js.truthy (supplier_name _)) eqn:H4; cbn [negb orb]; [|exec; cbn; eauto 10].
  destruct (Js.parseInt _) as [q|] eqn:Hq; [|exec; cbn; eauto 10].
  destruct (q <=? 0) eqn:Hpos; [exec; cbn; eauto 10|].
  destruct (Js.parseFloat _) as [c|] eqn:Hc; [|exec; cbn; eauto 10].
  destruct (Qle_bool c 0) eqn:Hcpos; [exec; cbn; eauto 10|].
  exfalso. apply Z.leb_gt in Hpos.
  destruct Hbad as [H|[H|[H|[H|[H|[(q' & H & Hle)|[H|(c' & H & Hle)]]]]]]];
    try discriminate H.
  - rewrite H in H1. discriminate H1.
  - rewrite H in H2. discriminate H2.
  - rewrite H in H3. discriminate H3.
  - rewrite H in H4. discriminate H4.
  - injection H as <-. lia.
  - injection H as <-. apply Qle_bool_iff in Hle. congruence.
Qed.

End StockPurchasesMore.

(** ** Students: the fetch and the other paths of the import *)

Section StudentsMore.

Import Students.

Lemma unique_spec (xs : list string) : forall seen,
  NoDup (unique seen xs) /\
  forall x, In x (unique seen xs) <-> In x xs /\ ~ In x seen.
Proof.
  induction xs as [|y xs IH]; intros seen; cbn [unique].
  - split; [constructor|]. intros x. cbn. tauto.
  - destruct (Js.includes seen y) eqn:E.
    + apply includes_In in E. destruct (IH seen) as [Hnd Hin]. split; [exact Hnd|].
      intros x. rewrite Hin. cbn. split; [tauto|].
      intros [[->|Hx] Hs]; [contradiction | tauto].
    + assert (~ In y seen) as Hy.
      { intros H. apply includes_In in H. congruence. }
      destruct (IH (y :: seen)) as [Hnd Hin]. split.
      * constructor; [|exact Hnd]. rewrite list_elem_of_In, Hin. cbn. tauto.
      * intros x. cbn [In]. rewrite Hin. cbn [In]. split.
        -- intros [<-|[Hx Hs]]; [tauto|]. split; [tauto|]. intros H. apply Hs. by right.
        -- intros [[<-|Hx] Hs]; [by left|]. destruct (String.eqb y x) eqn:Eyx.
           ++ apply String.eqb_eq in Eyx. by left.
           ++ apply String.eqb_neq in Eyx. right. split; [exact Hx|].
              intros [H|H]; [congruence | contradiction].
Qed.

Lemma fetchStudents_full_frame st w :
  exists st' w',
    fetchStudents st w = (Ok st', w') /\ db w' = db w /\
    log w' = log w ++ [select_students] /\
    loading st' = false /\ showImportForm st' = showImportForm st /\
    csvFile st' = csvFile st /\ importing st' = importing st /\
    ((accepts 1 w /\ toasts w' = toasts w /\
      students st' = order_by Student.name (Db.students (db w)) /\
      classes st' = unique [] (map Student.class_code (students st'))) \/
     (~ accepts 1 w /\ toasts w' = toasts w ++ [toast_error "Failed to load students"] /\
      students st' = students st /\ classes st' = classes st)).
Proof.
  unfold fetchStudents, accepts. exec.
  destruct (faults w) as [|[e1|] fs]; exec;
    do 2 eexists; (split; [reflexivity|]);
    cbn [db log toasts apply_request loading showImportForm csvFile importing students
         classes take];
    (split; [reflexivity|]); (split; [reflexivity|]); (split; [reflexivity|]);
    (split; [reflexivity|]); (split; [reflexivity|]); (split; [reflexivity|]);
    first
      [ left; split; [by repeat constructor | by repeat split]
      | right; split; [intros H; refused_at H | by repeat split] ].
Qed.

(** X16. The fetch of the students view only reads, never throws and
    ends the loading state.  When its select is answered, the view holds
    the students of the table sorted by name, and its list of classes
    has no duplicates and holds exactly the class codes of these
    students.  When it is refused, students and classes stay as they
    were and the toast "Failed to load students" is shown. *)
Theorem students_fetch_behaviour (st : State) (w : World) :
  exists st' w',
    fetchStudents st w = (Ok st', w') /\ db w' = db w /\
    log w' = log w ++ [select_students] /\ loading st' = false /\
    ((accepts 1 w /\ toasts w' = toasts w /\
      students st' = order_by Student.name (Db.students (db w)) /\
      NoDup (classes st') /\
      forall c, In c (classes st') <->
                exists s, In s (Db.students (db w)) /\ Student.class_code s = c) \/
     (~ accepts 1 w /\ toasts w' = toasts w ++ [toast_error "Failed to load students"] /\
      students st' = students st /\ classes st' = classes st)).
Proof.
  destruct (fetchStudents_full_frame st w)
    as (st' & w' & Hrun & Hdb & Hlog & Hload & _ & _ & _ & Hcases).
  exists st', w'. repeat (split; [assumption|]).
  destruct Hcases as [(Hacc & Ht & Hs & Hc) | Hfail]; [left | by right].
  repeat (split; [assumption|]). rewrite Hc, Hs.
  destruct (unique_spec (map Student.class_code
              (order_by Student.name (Db.students (db w)))) []) as [Hnd Hin].
  split; [exact Hnd|]. intros c. rewrite Hin, in_map_iff. split.
  - intros [(s & Hcs & Hs') _]. apply order_by_In in Hs'. eauto.
  - intros (s & Hs' & Hcs). split; [|intros []].
    exists s. split; [exact Hcs|]. by apply order_by_In.
Qed.

(** On a well-formed file the import is its insert. *)
Lemma handleCsvImport_well_formed st text :
  csvFile st = Some text -> csv_well_formed text ->
  handleCsvImport st =
  (st' <- try_catch
     (error <- write (insert_students (csv_objects text)) ;;
      match error with
      | Some e =>
          if String.eqb (code e) "23505"
          then toast (toast_error "Some admission numbers already exist") ;; ret st
          else throw e
      | None =>
          toast (toast_success ("Successfully imported "
                   ++ Js.string_of_nat (length (data_lines text)) ++ " students")%string) ;;
          fetchStudents (mkState (students st) (loading st) (classes st) false None true)
      end)
     (fun _ => toast (toast_error "Failed to import students") ;; ret st) ;;
   ret (mkState (students st') (loading st') (classes st') (showImportForm st')
          (csvFile st') false)).
Proof.
  intros Hfile (Hall & Hdata & Hok). unfold handleCsvImport. rewrite Hfile.
  unfold csv_objects, header_of, data_lines in *.
  assert ((length (csv_lines text) <? 2)%nat = false) as ->.
  { apply Nat.ltb_ge. destruct (csv_lines text) as [|l0 [|l1 ls]]; cbn in *; try lia; done. }
  rewrite (no_missing_header _ Hall). cbn [length Nat.ltb Nat.leb].
  pose proof (import_rows_errors (csv_headers (default "" (head (csv_lines text))))
                (tail (csv_lines text)) 1 [] []) as Hlen.
  pose proof (import_rows_students (csv_headers (default "" (head (csv_lines text))))
                (tail (csv_lines text)) 1 [] []) as Hst.
  destruct (filter_all_ok _ _ Hok) as [Hgood Hnone]. rewrite Hgood in Hst.
  rewrite Hnone in Hlen.
  destruct (import_rows _ 1 _ [] []) as [studentsToImport errors].
  cbn [fst snd length app] in Hlen, Hst. subst studentsToImport.
  destruct errors; [|discriminate]. cbn [length].
  rewrite length_map.
  destruct (tail (csv_lines text)) as [|l1 ls] eqn:Hrows; [done|].
  reflexivity.
Qed.

(** The import of a well-formed file whose insert is accepted. *)
Lemma handleCsvImport_accepted_file (st : State) (w : World) (text : string) :
  csvFile st = Some text -> csv_well_formed text -> accepts 1 w ->
  let r := handleCsvImport st w in
  Db.students (db (snd r)) = Db.students (db w) ++ students_of w (csv_objects text) /\
  Db.transactions (db (snd r)) = Db.transactions (db w) /\
  Db.stock_items (db (snd r)) = Db.stock_items (db w) /\
  log (snd r) = log w ++ [insert_students (csv_objects text); select_students] /\
  length (csv_objects text) = length (data_lines text) /\
  (exists rest, toasts (snd r) =
     toasts w ++ toast_success ("Successfully imported "
       ++ Js.string_of_nat (length (data_lines text)) ++ " students")%string :: rest) /\
  exists st', fst r = Ok st' /\ showImportForm st' = false /\ csvFile st' = None /\
              importing st' = false.
Proof.
  intros Hfile Hwf Hok. cbv zeta. rewrite (handleCsvImport_well_formed _ _ Hfile Hwf).
  assert (length (csv_objects text) = length (data_lines text)) as Hcount
    by apply length_map.
  unfold accepts in Hok. exec.
  destruct (faults w) as [|a1 fs]; cbn [take] in Hok;
    repeat match goal with
           | H : Forall _ (_ :: _) |- _ => inversion_clear H as [|? ? -> ?]
           end; exec;
    match goal with |- context [fetchStudents ?s ?w1] =>
      destruct (fetchStudents_full_frame s w1)
        as (st2 & w2 & -> & Hdb & Hlog & Hload & Hshow & Hfile2 & Himp & Hcases) end;
    cbn [fst snd]; rewrite Hdb, Hlog;
    cbn [db log toasts apply_request Db.students Db.transactions Db.stock_items
         showImportForm csvFile importing] in *;
    rewrite <- ?app_assoc; cbn [app];
    (repeat split; eauto);
    destruct Hcases as [(_ & -> & _) | (_ & -> & _)]; rewrite <- ?app_assoc; cbn [app];
    eauto.
Qed.

(** X17. A well-formed file whose insert the backend accepts: the rows
    the database makes of the objects are appended to [students], no
    other table changes, the toast counts the data lines, the only
    other request is the select of the fetch that follows, and the view
    closes the import form, drops the file and ends importing. *)
Theorem csv_import_success (st : State) (w : World) (text : string) :
  csvFile st = Some text -> csv_well_formed text -> accepts 1 w ->
  let r := handleCsvImport st w in
  Db.students (db (snd r)) = Db.students (db w) ++ students_of w (csv_objects text) /\
  Db.transactions (db (snd r)) = Db.transactions (db w) /\
  Db.stock_items (db (snd r)) = Db.stock_items (db w) /\
  log (snd r) = log w ++ [insert_students (csv_objects text); select_students] /\
  length (csv_objects text) = length (data_lines text) /\
  (exists rest, toasts (snd r) =
     toasts w ++ toast_success ("Successfully imported "
       ++ Js.string_of_nat (length (data_lines text)) ++ " students")%string :: rest) /\
  exists st', fst r = Ok st' /\ showImportForm st' = false /\ csvFile st' = None /\
              importing st' = false.
Proof. apply handleCsvImport_accepted_file. Qed.


(** X18. A well-formed file whose insert the backend refuses: the insert
    is the only request and no table changes.  For the error code 23505
    (a duplicate key) the toast is "Some admission numbers already
    exist", for any other error it is "Failed to import students".  The
    view keeps the form open and the file chosen, and ends importing; it
    does not fetch again. *)
Theorem csv_import_refused (st : State) (w : World) (text : string)
    (e : PgError) (fs : list (option PgError)) :
  csvFile st = Some text -> csv_well_formed text -> faults w = Some e :: fs ->
  let r := handleCsvImport st w in
  log (snd r) = log w ++ [insert_students (csv_objects text)] /\
  db (snd r) = db w /\
  toasts (snd r) =
    toasts w ++ [toast_error (if String.eqb (code e) "23505"
                              then "Some admission numbers already exist"
                              else "Failed to import students")] /\
  fst r = Ok (mkState (students st) (loading st) (classes st) (showImportForm st)
                (csvFile st) false).
Proof.
  intros Hfile Hwf Hf. cbv zeta. rewrite (handleCsvImport_well_formed _ _ Hfile Hwf).
  exec. rewrite Hf. exec. destruct (String.eqb (code e) "23505"); exec; auto.
Qed.

(** X19. The template the view offers for download passes its own
    import: with the template chosen and the insert accepted, the three
    students of the template are sent in one insert and the toast counts
    three students. *)
Theorem template_is_importable (st : State) (w : World) :
  csvFile st = Some csvContent -> accepts 1 w ->
  let r := handleCsvImport st w in
  map (fun o => (field o "name", field o "admission_no", field o "class_code"))
    (csv_objects csvContent) =
    [("John Doe", "ASO/2024/001", "ND1A"); ("Jane Smith", "ASO/2024/002", "ND1B");
     ("Mike Johnson", "ASO/2024/003", "HND2A")] /\
  log (snd r) = log w ++ [insert_students (csv_objects csvContent); select_students] /\
  exists rest, toasts (snd r) =
    toasts w ++ toast_success "Successfully imported 3 students" :: rest.
Proof.
  intros Hfile Hok. cbv zeta.
  assert (csv_well_formed csvContent) as Hwf.
  { split; [|split].
    - intros h Hh. vm_compute in Hh. vm_compute.
      destruct Hh as [<-|[<-|[<-|[]]]];
        [left | right; left | right; right; left]; reflexivity.
    - vm_compute. intros H. discriminate H.
    - intros line Hl. vm_compute in Hl.
      destruct Hl as [<-|[<-|[<-|[]]]]; vm_compute; reflexivity. }
  pose proof (handleCsvImport_accepted_file st w csvContent Hfile Hwf Hok) as H.
  cbv zeta in H. destruct H as (_ & _ & _ & Hlog & _ & Ht & _).
  split; [vm_compute; reflexivity|]. split; [exact Hlog|].
  destruct Ht as [rest Ht]. exists rest. rewrite Ht. f_equal.
Qed.

(** *** Blank lines *)

Lemma split_nonempty sep s : Js.split sep s <> [].
Proof.
  destruct s as [|c s]; cbn -[Ascii.eqb]; [discriminate|].
  destruct (Ascii.eqb c sep); [discriminate|]. by destruct (Js.split sep s).
Qed.

Lemma append_cons c (a b : string) : (String c a ++ b)%string = String c (a ++ b).
Proof. reflexivity. Qed.

(** Splitting distributes over a separator. *)
Lemma split_app sep a b :
  Js.split sep (a ++ String sep b) = Js.split sep a ++ Js.split sep b.
Proof.
  induction a as [|c a IH].
  - change (Js.split sep (String sep b) = [""] ++ Js.split sep b).
    cbn -[Ascii.eqb]. by rewrite Ascii.eqb_refl.
  - rewrite append_cons. cbn -[Ascii.eqb String.append].
    destruct (Ascii.eqb c sep); [by rewrite IH|].
    rewrite IH. pose proof (split_nonempty sep a). by destruct (Js.split sep a).
Qed.

Lemma split_chars sep s p c :
  In p (Js.split sep s) -> In c (list_ascii_of_string p) -> In c (list_ascii_of_string s).
Proof.
  revert p. induction s as [|x s IH]; intros p; cbn -[Ascii.eqb].
  - intros [<-|[]]. auto.
  - destruct (Ascii.eqb x sep).
    + intros [<-|Hp] Hc; [destruct Hc|]. right. eauto.
    + pose proof (split_nonempty sep s). destruct (Js.split sep s) as [|w ws]; [done|].
      intros [<-|Hp] Hc.
      * cbn in Hc. destruct Hc as [->|Hc]; [by left|]. right. apply (IH w); cbn; auto.
      * right. apply (IH p); cbn; auto.
Qed.

Lemma trim_all_white_space s : all_white_space s -> Js.trim s = "".
Proof.
  unfold Js.trim, all_white_space. induction s as [|c s IH]; intros H; [reflexivity|].
  cbn [Js.trimStart]. rewrite (H c) by (cbn; auto). apply IH. intros x Hx. apply H.
  cbn. auto.
Qed.

Lemma csv_lines_all_white_space s : all_white_space s -> csv_lines s = [].
Proof.
  intros H. unfold csv_lines.
  assert (forall p, In p (Js.split "010" s) -> Js.truthy (Js.trim p) = false) as Hp.
  { intros p Hin. rewrite trim_all_white_space; [reflexivity|].
    intros c Hc. apply H. eapply split_chars; eauto. }
  induction (Js.split "010" s) as [|p ps IH]; [reflexivity|].
  cbn [List.filter]. rewrite Hp by (cbn; auto). apply IH. intros q Hq. apply Hp. cbn; auto.
Qed.

Lemma csv_lines_app a b :
  csv_lines (a ++ String "010" b) = csv_lines a ++ csv_lines b.
Proof. unfold csv_lines. by rewrite split_app, List.filter_app. Qed.

(** The import reads its file through the non-blank lines only. *)
Lemma import_same_lines st w t1 t2 :
  csv_lines t1 = csv_lines t2 ->
  snd (handleCsvImport (with_file st t1) w) = snd (handleCsvImport (with_file st t2) w).
Proof.
  intros Hlines. unfold handleCsvImport, with_file. cbn [csvFile students loading classes
    showImportForm importing]. rewrite Hlines.
  destruct (length (csv_lines t2) <? 2)%nat; [exec; reflexivity|].
  destruct (0 <? length (List.filter _ requiredHeaders))%nat; [exec; reflexivity|].
  destruct (import_rows _ 1 _ [] []) as [studentsToImport errors].
  destruct (0 <? length errors)%nat; [exec; reflexivity|].
  destruct (length studentsToImport =? 0)%nat; [exec; reflexivity|].
  exec. destruct (faults w) as [|[e|] fs]; exec;
    try (destruct (String.eqb (code e) "23505"); exec; reflexivity);
    match goal with |- context [fetchStudents ?s ?w1] =>
      destruct (fetchStudents s w1) as [[a|e'] w2] end; reflexivity.
Qed.

(** X20. White space between two lines of a file does not count: a
    file with a run of white space (blank lines, spaces, tabs, carriage
    returns) put between two of its lines is imported exactly as the
    file without it: same requests, same tables, same toasts. *)
Theorem csv_blank_lines_ignored (st : State) (w : World) (a blank b : string) :
  all_white_space blank ->
  snd (handleCsvImport (with_file st (a ++ String "010" (blank ++ String "010" b))) w) =
  snd (handleCsvImport (with_file st (a ++ String "010" b)) w).
Proof.
  intros Hblank. apply import_same_lines.
  by rewrite !csv_lines_app, (csv_lines_all_white_space _ Hblank).
Qed.

(** *** Columns of the same name *)





End StudentsMore.

(** ** Balance check: the other paths of the search *)

Lemma trimStart_length s : (String.length (Js.trimStart s) <= String.length s)%nat.
Proof.
  induction s as [|c s IH]; cbn [Js.trimStart String.length]; [lia|].
  destruct (Js.is_white_space c); cbn [String.length]; lia.
Qed.

Lemma trimStart_idempotent s : Js.trimStart (Js.trimStart s) = Js.trimStart s.
Proof.
  induction s as [|c s IH]; [reflexivity|]. cbn [Js.trimStart].
  destruct (Js.is_white_space c) eqn:E; [exact IH|]. cbn [Js.trimStart]. by rewrite E.
Qed.

Lemma trimEnd_idempotent s : Js.trimEnd (Js.trimEnd s) = Js.trimEnd s.
Proof.
  induction s as [|c s IH]; [reflexivity|]. cbn [Js.trimEnd].
  destruct (Js.trimEnd s) as [|d t] eqn:Ht.
  - destruct (Js.is_white_space c) eqn:E; [reflexivity|]. cbn [Js.trimEnd]. by rewrite E.
  - change (Js.trimEnd (String c (String d t)))
      with (match Js.trimEnd (String d t) with
            | EmptyString =>
                if Js.is_white_space c then EmptyString else String c EmptyString
            | String x u => String c (String x u)
            end).
    by rewrite IH.
Qed.

Lemma trimStart_trimEnd s :
  Js.trimStart s = s -> Js.trimStart (Js.trimEnd s) = Js.trimEnd s.
Proof.
  destruct s as [|c s]; [reflexivity|]. cbn [Js.trimStart].
  destruct (Js.is_white_space c) eqn:E.
  - intros H. pose proof (trimStart_length s) as Hlen. rewrite H in Hlen.
    cbn [String.length] in Hlen. lia.
  - intros _. cbn [Js.trimEnd]. destruct (Js.trimEnd s); rewrite ?E; cbn [Js.trimStart];
      by rewrite E.
Qed.

(** Trimming twice is trimming once. *)
Lemma trim_idempotent s : Js.trim (Js.trim s) = Js.trim s.
Proof.
  unfold Js.trim.
  rewrite (trimStart_trimEnd (Js.trimStart s)) by apply trimStart_idempotent.
  apply trimEnd_idempotent.
Qed.

Section BalanceCheckMore.

Import BalanceCheck.

(** X22. A blank query sends nothing: the page stays exactly as it was,
    earlier results included, and the toast "Please enter a search
    value" is shown. *)
Theorem balance_check_blank_query (st : State) (w : World) :
  Js.trim (searchValue st) = "" ->
  let r := handleSearch st w in
  fst r = Ok st /\ log (snd r) = log w /\ db (snd r) = db w /\
  toasts (snd r) = toasts w ++ [toast_error "Please enter a search value"].
Proof.
  intros Hblank. cbv zeta. unfold handleSearch. rewrite Hblank. exec. auto.
Qed.

(** X23. A search with a query that is not blank never throws and,
    whatever the backend answers, ends with the loading state off, the
    search type and the query as typed, and at most one kind of result:
    by admission number no list of students, by class no single student.
    It sends exactly one select. *)
Theorem balance_check_result_shape (st : State) (w : World) :
  Js.trim (searchValue st) <> "" ->
  let r := handleSearch st w in
  exists st', fst r = Ok st' /\ loading st' = false /\
    searchType st' = searchType st /\ searchValue st' = searchValue st /\
    (searchType st = admission -> students st' = []) /\
    (searchType st = class -> student st' = None) /\
    exists rq, log (snd r) = log w ++ [rq] /\ is_write rq = false.
Proof.
  intros Hv. cbv zeta. unfold handleSearch. rewrite (truthy_true _ Hv). cbn [negb].
  destruct (searchType st); exec; destruct (faults w) as [|[e|] fs]; exec;
    cbn [apply_request];
    repeat match goal with
    | |- context [single ?l] => destruct (single l)
    | |- context [String.eqb ?a ?b] => destruct (String.eqb a b)
    | |- context [Nat.eqb ?a ?b] => destruct (Nat.eqb a b)
    end; exec; eexists; (split; [reflexivity|]);
    cbn [loading searchType searchValue students student];
    repeat split; try done; eexists; split; reflexivity.
Qed.

(** X24. When the backend answers the select of a search with an error,
    the results are cleared and no table changes.  A search by admission
    number answered with the code PGRST116 shows "Student not found";
    every other error, and every error of a search by class, shows "An
    error occurred while searching". *)
Theorem balance_check_backend_error (st : State) (w : World) (e : PgError)
    (fs : list (option PgError)) :
  Js.trim (searchValue st) <> "" ->
  faults w = Some e :: fs ->
  let r := handleSearch st w in
  db (snd r) = db w /\
  fst r = Ok (mkState (searchType st) (searchValue st) false None []) /\
  toasts (snd r) =
    toasts w ++ [toast_error
      (match searchType st with
       | admission => if String.eqb (code e) "PGRST116" then "Student not found"
                      else "An error occurred while searching"
       | class => "An error occurred while searching"
       end)].
Proof.
  intros Hv Hf. cbv zeta. unfold handleSearch. rewrite (truthy_true _ Hv). cbn [negb].
  destruct (searchType st); exec; rewrite Hf; exec;
    try destruct (String.eqb (code e) "PGRST116"); exec; auto.
Qed.

(** X25. White space around the query does not count: a search with the
    query as typed and a search with the query trimmed send the same
    request, leave the same tables and toasts, and show the same
    results. *)
Theorem balance_check_ignores_surrounding_space (st : State) (w : World) :
  let r := handleSearch st w in
  let r' := handleSearch (with_query st (Js.trim (searchValue st))) w in
  snd r' = snd r /\
  forall a a', fst r = Ok a -> fst r' = Ok a' ->
    student a' = student a /\ students a' = students a /\ loading a' = loading a.
Proof.
  cbv zeta. unfold handleSearch, with_query. cbn [searchValue searchType].
  rewrite trim_idempotent.
  destruct (negb _); [exec; split; [reflexivity|]; by intros ? ? [= <-] [= <-]|].
  destruct (searchType st); exec; destruct (faults w) as [|[e|] fs]; exec;
    cbn [apply_request];
    repeat match goal with
    | |- context [single ?l] => destruct (single l)
    | |- context [String.eqb ?a ?b] => destruct (String.eqb a b)
    | |- context [Nat.eqb ?a ?b] => destruct (Nat.eqb a b)
    end; exec; (split; [reflexivity|]); by intros ? ? [= <-] [= <-].
Qed.

(** X26. A search by class that the backend answers shows the toast "No
    students found in this class", and an empty list, exactly when no
    student of the table has the trimmed query as class code; otherwise
    it shows a list that is not empty and no toast. *)
Theorem class_search_toast (st : State) (w : World) :
  Js.trim (searchValue st) <> "" -> searchType st = class -> accepts 1 w ->
  let v := Js.trim (searchValue st) in
  let r := handleSearch st w in
  exists st', fst r = Ok st' /\
    ((forall s, In s (Db.students (db w)) -> Student.class_code s <> v) ->
     students st' = [] /\
     toasts (snd r) = toasts w ++ [toast_error "No students found in this class"]) /\
    ((exists s, In s (Db.students (db w)) /\ Student.class_code s = v) ->
     students st' <> [] /\ toasts (snd r) = toasts w).
Proof.
  intros Hv Hclass Hacc. cbv zeta. unfold handleSearch.
  rewrite (truthy_true _ Hv), Hclass. cbn [negb].
  assert (forall s, In s (order_by Student.name
                (List.filter (fun s => String.eqb (Student.class_code s)
                                (Js.trim (searchValue st))) (Db.students (db w)))) <->
              In s (Db.students (db w)) /\ Student.class_code s = Js.trim (searchValue st))
    as Hdata.
  { intros s. rewrite order_by_In, filter_In. by rewrite String.eqb_eq. }
  exec. destruct (accepts_S _ _ Hacc) as [Hf | (fs & Hf & _)]; rewrite Hf;
    cbn [apply_request];
    destruct (order_by Student.name _) as [|s0 data] eqn:Hsorted;
    cbn [length Nat.eqb]; exec; eexists; (split; [reflexivity|]); cbn [students]; split;
    try (intros Hnone; first [ by split
       | exfalso; apply (Hnone s0); apply (Hdata s0); cbn; auto ]);
    try (intros (s & Hs & Hc); first [ by split
       | exfalso; apply (proj2 (Hdata s) (conj Hs Hc)) ]).
Qed.

(** X27. A search by admission number that the backend answers shows a
    student exactly when one and only one student of the table has the
    trimmed query as admission number.  With none, and also with several
    of them, it shows "Student not found" and no student. *)
Theorem admission_search_needs_exactly_one (st : State) (w : World) :
  Js.trim (searchValue st) <> "" -> searchType st = admission -> accepts 1 w ->
  let matches := admitted_as (Js.trim (searchValue st)) (db w) in
  let r := handleSearch st w in
  exists st', fst r = Ok st' /\
    (forall s, matches = [s] -> student st' = Some s /\ toasts (snd r) = toasts w) /\
    (length matches <> 1%nat ->
     student st' = None /\
     toasts (snd r) = toasts w ++ [toast_error "Student not found"]).
Proof.
  intros Hv Hadm Hacc. cbv zeta. unfold handleSearch, admitted_as.
  rewrite (truthy_true _ Hv), Hadm. cbn [negb].
  exec. destruct (accepts_S _ _ Hacc) as [Hf | (fs & Hf & _)]; rewrite Hf;
    cbn [apply_request];
    destruct (List.filter _ (Db.students (db w))) as [|s1 [|s2 rest]];
    cbn [single]; exec; cbn [code String.eqb Ascii.eqb Bool.eqb]; exec;
    eexists; (split; [reflexivity|]); cbn [student length];
    (split; [intros s [= <-] || intros s [=]; try done | intros Hlen; try done; try lia]).
Qed.

End BalanceCheckMore.

(** ** The list of students shown *)

Lemma prefix_app_l (t b s : string) :
  String.prefix (t ++ b) s = true -> String.prefix t s = true.
Proof.
  revert s. induction t as [|c t IH]; intros s; [by destruct s|].
  rewrite append_cons. destruct s as [|d s]; cbn [String.prefix]; [done|].
  destruct (Ascii.ascii_dec c d); [apply IH | done].
Qed.

Lemma includes_step (s : string) : forall c v,
  JsString.includes s (String c v) = true -> JsString.includes s v = true.
Proof.
  induction s as [|d s IH]; intros c v; cbn [JsString.includes String.prefix].
  - rewrite orb_false_r. discriminate.
  - intros H. apply orb_true_iff in H as [H|H].
    + destruct (Ascii.ascii_dec c d); [|discriminate].
      apply orb_true_iff. right.
      destruct s; cbn [JsString.includes]; by rewrite H.
    + apply orb_true_iff. right. by apply (IH c v).
Qed.

Lemma includes_app_l (s a u : string) :
  JsString.includes s (a ++ u) = true -> JsString.includes s u = true.
Proof.
  induction a as [|c a IH]; [done|]. rewrite append_cons. intros H.
  apply IH. by apply (includes_step s c).
Qed.

Lemma includes_app_r (s t b : string) :
  JsString.includes s (t ++ b) = true -> JsString.includes s t = true.
Proof.
  induction s as [|d s IH]; cbn [JsString.includes].
  - rewrite !orb_false_r. apply prefix_app_l.
  - intros H. apply orb_true_iff in H as [H|H]; apply orb_true_iff.
    + left. by apply (prefix_app_l t b).
    + right. by apply IH.
Qed.

Lemma includes_empty s : JsString.includes s "" = true.
Proof. by destruct s. Qed.

Lemma prefix_occurs (t s : string) :
  String.prefix t s = true -> exists y, s = (t ++ y)%string.
Proof.
  revert s. induction t as [|c t IH]; intros s; [by exists s|].
  destruct s as [|d s]; cbn [String.prefix]; [discriminate|].
  destruct (Ascii.ascii_dec c d) as [->|]; [|discriminate].
  intros H. destruct (IH s H) as [y ->]. by exists y.
Qed.

Lemma includes_occurs (s t : string) :
  JsString.includes s t = true -> exists x y, s = (x ++ t ++ y)%string.
Proof.
  induction s as [|d s IH]; cbn [JsString.includes]; intros H;
    apply orb_true_iff in H as [H|H]; try discriminate.
  - apply prefix_occurs in H as [y Hy]. by exists "", y.
  - apply prefix_occurs in H as [y Hy]. by exists "", y.
  - destruct (IH H) as (x & y & ->). by exists (String d x), y.
Qed.

(** Occurring in is transitive. *)
Lemma includes_trans (a b c : string) :
  JsString.includes a b = true -> JsString.includes b c = true ->
  JsString.includes a c = true.
Proof.
  intros Hab Hbc. apply includes_occurs in Hbc as (x & y & ->).
  apply includes_app_l in Hab. by apply includes_app_r in Hab.
Qed.

Lemma filter_all_true {A} (p : A -> bool) (l : list A) :
  (forall x, p x = true) -> List.filter p l = l.
Proof.
  intros Hp. induction l as [|x l IH]; [reflexivity|].
  cbn [List.filter]. by rewrite Hp, IH.
Qed.

(** X28. The list of students shown.  With no search term and no class
    selected it is the whole list.  Every student shown is of the
    selected class, when one is selected.  And a search term whose
    lower-case form contains the lower-case form of another shows no
    student that the other does not show. *)
Theorem filteredStudents_narrows (students : list Student.t) (term term' cls : string) :
  filteredStudents students "" "" = students /\
  (forall s, In s (filteredStudents students term cls) ->
     In s students /\ (cls <> "" -> Student.class_code s = cls)) /\
  (JsString.includes (Js.toLowerCase term') (Js.toLowerCase term) = true ->
   forall s, In s (filteredStudents students term' cls) ->
     In s (filteredStudents students term cls)).
Proof.
  unfold filteredStudents. split; [|split].
  - apply filter_all_true. intros s. change (Js.toLowerCase "") with "".
    by rewrite includes_empty.
  - intros s Hs. apply filter_In in Hs as [Hin Hb]. split; [exact Hin|].
    intros Hcls. apply andb_true_iff in Hb as [_ Hb].
    apply orb_true_iff in Hb as [Hb|Hb]; apply String.eqb_eq in Hb; congruence.
  - intros Hterm s Hs. apply filter_In in Hs as [Hin Hb]. apply filter_In.
    split; [exact Hin|].
    apply andb_true_iff in Hb as [Hm Hc]. apply andb_true_iff. split; [|exact Hc].
    apply orb_true_iff in Hm as [Hm|Hm]; apply orb_true_iff; [left | right];
      exact (includes_trans _ _ _ Hm Hterm).
Qed.

(** ** Profit of a stock purchase *)

(** X29. The profit and the margin shown for a stock purchase of [n]
    units at cost [c], in a row as the fetch builds it.  The row always
    has an item, with the selling price [p] of the join or 0 where the
    join is missing, so the guard for a missing item never fires: the
    profit is [(p - c) * n] as JavaScript computes it, also for a missing
    join.  The margin is 0 when the cost is zero and
    [(p - c) / c * 100] otherwise.  The profit shown is not positive
    when [p] is at most [c], and not negative when [p] is at least
    [c]. *)
Theorem profit_of_fetched_row (purchase : StockPurchase.t)
    (join : option StockPurchaseRow.stock_item_t) :
  let c := StockPurchase.cost_per_unit purchase in
  let n := StockPurchase.quantity purchase in
  let p := match join with Some j => StockPurchaseRow.selling_price j | None => 0%Q end in
  let row := with_stock_item purchase join in
  calculateProfit row = Js.mul (Js.sub p c) (inject_Z n) /\
  ((Js.number c == 0)%Q -> calculateProfitMargin row = 0%Q) /\
  (~ (Js.number c == 0)%Q ->
   calculateProfitMargin row = Js.mul (Js.div (Js.sub p c) c) 100) /\
  (0 <= n -> (Js.number p <= Js.number c)%Q -> (calculateProfit row <= 0)%Q) /\
  (0 <= n -> (Js.number c <= Js.number p)%Q -> (0 <= calculateProfit row)%Q).
Proof.
  cbv zeta. unfold calculateProfit, calculateProfitMargin, with_stock_item.
  cbn [StockPurchaseRow.stock_item StockPurchaseRow.purchase StockPurchaseRow.selling_price].
  set (c := StockPurchase.cost_per_unit purchase).
  set (p := match join with Some j => StockPurchaseRow.selling_price j | None => 0%Q end).
  assert (Js.sub (match join with
                  | Some j => if Qeq_bool (Js.number (StockPurchaseRow.selling_price j)) 0
                              then 0%Q else StockPurchaseRow.selling_price j
                  | None => 0%Q
                  end) c = Js.sub p c) as ->.
  { subst p. destruct join as [j|]; [|reflexivity].
    destruct (Qeq_bool _ 0) eqn:E; [|reflexivity].
    apply Qeq_bool_iff in E. unfold Js.sub. apply number_proper.
    change (Js.number 0) with 0%Q. rewrite E. reflexivity. }
  assert (0 <= StockPurchase.quantity purchase ->
          (0 <= Js.number (inject_Z (StockPurchase.quantity purchase)))%Q) as Hn.
  { intros H. apply number_nonneg. change 0%Q with (inject_Z 0). by rewrite <- Zle_Qle. }
  split; [reflexivity|]. split; [|split; [|split]].
  - intros Hc. apply Qeq_bool_iff in Hc. by rewrite Hc.
  - intros Hc. destruct (Qeq_bool (Js.number c) 0) eqn:E; [|reflexivity].
    apply Qeq_bool_iff in E. destruct (Hc E).
  - intros H0 Hle. specialize (Hn H0). unfold Js.mul, Js.sub. apply number_nonpos.
    assert (Js.number (Js.number (Js.number p - Js.number c)) <= 0)%Q as H
      by (apply number_nonpos, number_nonpos; lra).
    nra.
  - intros H0 Hle. specialize (Hn H0). unfold Js.mul, Js.sub. apply number_nonneg.
    assert (0 <= Js.number (Js.number (Js.number p - Js.number c)))%Q as H
      by (apply number_nonneg, number_nonneg; lra).
    nra.
Qed.

(** ** The statistics of the day *)

(** X30. The statistics of the day read the clock and nothing else: they
    never throw and leave the world as it is.  A sale of another day, at
    any place of the list the view holds, adds nothing.  A sale dated
    today at the end of the list adds its quantity to the items and, in
    doubles, its revenue and its profit to the two sums. *)
Theorem today_stats_count_todays_sales (st : DailySales.State) (w : World)
    (earlier later : list DailySale.t) (sale : DailySale.t) :
  exists s,
    getTodayStats (with_sales st (earlier ++ later)) w = (Ok s, w) /\
    (DailySale.sale_date sale <> iso_date (clock w) ->
     getTodayStats (with_sales st (earlier ++ sale :: later)) w = (Ok s, w)) /\
    (DailySale.sale_date sale = iso_date (clock w) ->
     getTodayStats (with_sales st ((earlier ++ later) ++ [sale])) w =
       (Ok (TodayStats.mk
              (TodayStats.totalItems s + DailySale.quantity_sold sale)
              (Js.add (TodayStats.totalRevenue s) (DailySale.total_revenue sale))
              (Js.add (TodayStats.totalProfit s) (DailySale.profit sale))), w)).
Proof.
  unfold getTodayStats, today. exec. cbn [with_sales DailySales.dailySales].
  fold (iso_date (clock w)).
  eexists. split; [reflexivity|].
  cbn [TodayStats.totalItems TodayStats.totalRevenue TodayStats.totalProfit]. split.
  - intros Hd. apply String.eqb_neq in Hd.
    rewrite !List.filter_app. cbn [List.filter]. by rewrite Hd.
  - intros Hd. rewrite (List.filter_app _ (earlier ++ later)). cbn [List.filter].
    rewrite Hd, String.eqb_refl, !fold_left_app. reflexivity.
Qed.

(** ** The statements on the small store *)

Lemma sample_second_purchase_accepted :
  @purchase_accepted Js.ecma (Sample.purchases "2") 2 Sample.pen Sample.alice.
Proof. repeat split; try discriminate; try reflexivity; cbn; lia. Qed.

Lemma purchases_from_two_views_lose_an_update_witness :
  let w2 := snd (@Purchases.handleSubmit Js.ecma (Sample.purchases "2")
                   (snd (@Purchases.handleSubmit Js.ecma (Sample.purchases "3")
                           (Sample.world [])))) in
  Db.purchases (db w2) =
    [Purchase.mk "s1" "i1" 3 (5 * inject_Z 3)%Q; Purchase.mk "s1" "i1" 2 (5 * inject_Z 2)%Q] /\
  Forall (fun item' => StockItem.id item' = "i1" -> StockItem.quantity item' = 10 - 2)
    (Db.stock_items (db w2)).
Proof.
  assert (accepts 4 (snd (@Purchases.handleSubmit Js.ecma (Sample.purchases "3")
                            (Sample.world [])))) as Hok2.
  { vm_compute. apply List.Forall_nil. }
  assert (balance_covers Sample.pen 2 Sample.alice) as Hcovers by (vm_compute; reflexivity).
  pose proof (@purchases_from_two_views_lose_an_update Js.ecma (Sample.purchases "3")
                (Sample.purchases "2") (Sample.world []) 3 2 Sample.pen Sample.alice
                Sample.alice sample_purchase_accepted sample_second_purchase_accepted
                sample_balance_covers Hcovers (List.Forall_nil _) Hok2) as H.
  cbv zeta in H. destruct H as (Hp & _ & Hs). split; [exact Hp|].
  apply List.Forall_forall. exact Hs.
Defined.

Lemma sample_daily_sale_accepted :
  @daily_sale_accepted Js.ecma (SampleViews.daily_sales "3") 3 Sample.pen.
Proof. repeat split; try discriminate; try reflexivity; cbn; lia. Qed.

Lemma daily_sale_success_witness :
  let r := @DailySales.handleSubmit Js.ecma (SampleViews.daily_sales "3") (Sample.world []) in
  Db.daily_sales (db (snd r)) = [sale_row "i1" 3 Sample.pen "2025-08-07" None] /\
  Db.students (db (snd r)) = [Sample.bob; Sample.alice].
Proof.
  pose proof (@daily_sale_success Js.ecma (SampleViews.daily_sales "3") (Sample.world []) 3
                Sample.pen sample_daily_sale_accepted (List.Forall_nil _)) as H.
  cbv zeta in H. destruct H as (Hd & _ & Hs & _). split; [exact Hd | exact Hs].
Defined.

Lemma daily_sale_failures_witness :
  let r := @DailySales.handleSubmit Js.ecma (SampleViews.daily_sales "3")
             (Sample.world [None; Some Sample.network_error]) in
  Db.daily_sales (db (snd r)) = [sale_row "i1" 3 Sample.pen "2025-08-07" None] /\
  Db.stock_items (db (snd r)) = [Sample.pen; Sample.ink].
Proof.
  pose proof (@daily_sale_failures Js.ecma (SampleViews.daily_sales "3")
                (Sample.world [None; Some Sample.network_error]) 3 Sample.pen
                Sample.network_error [] sample_daily_sale_accepted) as H.
  cbv zeta in H. destruct H as [_ H]. destruct (H eq_refl) as (Hd & Hs & _).
  split; [exact Hd | exact Hs].
Defined.

Lemma daily_sale_invalid_form_rejected_witness :
  log (snd (@DailySales.handleSubmit Js.ecma (SampleViews.daily_sales "0")
              (Sample.world []))) = [].
Proof.
  apply (@daily_sale_invalid_form_rejected Js.ecma (SampleViews.daily_sales "0")
           (Sample.world [])).
  do 3 right. left. exists 0. split; [reflexivity | lia].
Defined.

Lemma sample_stock_purchase_valid :
  @stock_purchase_valid Js.ecma (Sample.stock_purchases "i1" "10" "4.50") 10 (9 # 2).
Proof. apply stock_form_valid; try discriminate; reflexivity. Qed.

Lemma stock_purchase_cost_to_the_cent_witness :
  Forall (fun item' => StockItem.id item' = "i1" ->
            StockItem.quantity item' = 15 /\
            ((inject_Z 10 * 3 + inject_Z 5 * 4) / inject_Z (10 + 5) - (1 # 100)
             < StockItem.cost_price item'
             < (inject_Z 10 * 3 + inject_Z 5 * 4) / inject_Z (10 + 5) + (1 # 100))%Q)
    (Db.stock_items (db (snd (@StockPurchases.handleSubmit Js.ecma
       (Sample.stock_purchases "i1" "5" "4") (Sample.world []))))).
Proof.
  apply List.Forall_forall. intros item' Hin Hid.
  assert (@stock_purchase_valid Js.ecma (Sample.stock_purchases "i1" "5" "4") 5 4) as Hvalid.
  { apply stock_form_valid; try discriminate; reflexivity. }
  assert (0 <= StockItem.quantity Sample.pen < 2 ^ 31) as Hn by (cbn; lia).
  assert (5 < 2 ^ 31) as Hq by lia.
  assert (0 <= StockItem.cost_price Sample.pen <= 100000000)%Q as HC
    by (split; apply Qle_bool_imp_le; reflexivity).
  assert (4 <= 100000000)%Q as Hc by (apply Qle_bool_imp_le; reflexivity).
  pose proof (@stock_purchase_cost_to_the_cent Js.ecma
                (Sample.stock_purchases "i1" "5" "4") (Sample.world []) 5 4%Q
                Sample.pen Hvalid eq_refl Hn Hq HC Hc (List.Forall_nil _)) as H.
  cbv zeta in H. destruct (H item' Hin Hid) as (Hquantity & Hcost & _).
  split; [exact Hquantity | exact Hcost].
Defined.

Lemma stock_purchase_success_witness :
  let r := @StockPurchases.handleSubmit Js.ecma (Sample.stock_purchases "i1" "10" "4.50")
             (Sample.world []) in
  Db.stock_purchases (db (snd r)) =
    [StockPurchase.mk "i1" 10 (9 # 2) (Js.mul (inject_Z 10) (9 # 2)) "Acme" "2025-08-07"
       None] /\
  Db.students (db (snd r)) = [Sample.bob; Sample.alice].
Proof.
  pose proof (@stock_purchase_success Js.ecma (Sample.stock_purchases "i1" "10" "4.50")
                (Sample.world []) 10 (9 # 2) Sample.pen sample_stock_purchase_valid
                eq_refl (List.Forall_nil _)) as H.
  cbv zeta in H. destruct H as (Hp & _ & Hs & _). split; [exact Hp | exact Hs].
Defined.

Lemma stock_purchase_failures_witness :
  db (snd (@StockPurchases.handleSubmit Js.ecma (Sample.stock_purchases "i1" "10" "4.50")
             (Sample.world [Some Sample.network_error]))) = Sample.store.
Proof.
  pose proof (@stock_purchase_failures Js.ecma (Sample.stock_purchases "i1" "10" "4.50")
                (Sample.world [Some Sample.network_error]) 10 (9 # 2)
                Sample.network_error [] sample_stock_purchase_valid) as H.
  cbv zeta in H. destruct H as [H _]. destruct (H eq_refl) as (Hdb & _). exact Hdb.
Defined.

Lemma stock_purchase_invalid_form_rejected_witness :
  log (snd (@StockPurchases.handleSubmit Js.ecma (Sample.stock_purchases "i1" "0" "4.50")
              (Sample.world []))) = [].
Proof.
  apply (@stock_purchase_invalid_form_rejected Js.ecma
           (Sample.stock_purchases "i1" "0" "4.50") (Sample.world [])).
  do 5 right. left. exists 0. split; [reflexivity | lia].
Defined.

Lemma sample_csv_well_formed : csv_well_formed SampleViews.csv_two_students.
Proof.
  split; [|split].
  - intros h Hh. vm_compute in Hh. vm_compute.
    destruct Hh as [<-|[<-|[<-|[]]]];
      [left | right; left | right; right; left]; reflexivity.
  - vm_compute. intros H. discriminate H.
  - intros line Hl. vm_compute in Hl.
    destruct Hl as [<-|[<-|[]]]; vm_compute; reflexivity.
Qed.

Lemma csv_import_success_witness :
  let r := Students.handleCsvImport (Sample.students_view SampleViews.csv_two_students)
             (Sample.world []) in
  log (snd r) =
    [insert_students (csv_objects SampleViews.csv_two_students); select_students] /\
  length (csv_objects SampleViews.csv_two_students) = 2%nat.
Proof.
  pose proof (csv_import_success (Sample.students_view SampleViews.csv_two_students)
                (Sample.world []) SampleViews.csv_two_students eq_refl
                sample_csv_well_formed (List.Forall_nil _)) as H.
  cbv zeta in H. destruct H as (_ & _ & _ & Hlog & Hn & _). split; [exact Hlog|].
  rewrite Hn. vm_compute. reflexivity.
Defined.

Lemma csv_import_refused_witness :
  db (snd (Students.handleCsvImport (Sample.students_view SampleViews.csv_two_students)
             (Sample.world [Some Sample.network_error]))) = Sample.store.
Proof.
  pose proof (csv_import_refused (Sample.students_view SampleViews.csv_two_students)
                (Sample.world [Some Sample.network_error]) SampleViews.csv_two_students
                Sample.network_error [] eq_refl sample_csv_well_formed eq_refl) as H.
  cbv zeta in H. destruct H as (_ & Hdb & _). exact Hdb.
Defined.

Lemma csv_blank_lines_ignored_witness :
  snd (Students.handleCsvImport
         (with_file (Sample.students_view "")
            ("name,admission_no,class_code" ++
             String "010" ("  " ++ String "010" "John Doe,ASO/2024/003,ND1A"))%string)
         (Sample.world [])) =
  snd (Students.handleCsvImport
         (with_file (Sample.students_view "")
            ("name,admission_no,class_code" ++
             String "010" "John Doe,ASO/2024/003,ND1A")%string)
         (Sample.world [])).
Proof.
  apply (csv_blank_lines_ignored (Sample.students_view "") (Sample.world [])
           "name,admission_no,class_code" "  " "John Doe,ASO/2024/003,ND1A").
  intros c Hc. vm_compute in Hc. destruct Hc as [<-|[<-|[]]]; reflexivity.
Defined.


Lemma balance_check_blank_query_witness :
  log (snd (BalanceCheck.handleSearch (Sample.balance_check BalanceCheck.admission "   ")
              (Sample.world []))) = [].
Proof.
  pose proof (balance_check_blank_query
                (Sample.balance_check BalanceCheck.admission "   ") (Sample.world [])
                eq_refl) as H.
  cbv zeta in H. destruct H as (_ & Hlog & _). exact Hlog.
Defined.

Lemma balance_check_result_shape_witness :
  exists st',
    fst (BalanceCheck.handleSearch
           (Sample.balance_check BalanceCheck.admission "ASO/2024/002") (Sample.world []))
      = Ok st' /\
    BalanceCheck.loading st' = false.
Proof.
  assert (Js.trim "ASO/2024/002" <> "") as Hq by (vm_compute; intros H; discriminate H).
  pose proof (balance_check_result_shape
                (Sample.balance_check BalanceCheck.admission "ASO/2024/002")
                (Sample.world []) Hq) as H.
  cbv zeta in H. destruct H as (st' & Hst & Hl & _). exists st'. split; [exact Hst | exact Hl].
Defined.

Lemma balance_check_backend_error_witness :
  toasts (snd (BalanceCheck.handleSearch
                 (Sample.balance_check BalanceCheck.admission "ASO/2024/009")
                 (Sample.world [Some SampleViews.not_found])))
  = [toast_error "Student not found"].
Proof.
  assert (Js.trim "ASO/2024/009" <> "") as Hq by (vm_compute; intros H; discriminate H).
  pose proof (balance_check_backend_error
                (Sample.balance_check BalanceCheck.admission "ASO/2024/009")
                (Sample.world [Some SampleViews.not_found]) SampleViews.not_found []
                Hq eq_refl) as H.
  cbv zeta in H. destruct H as (_ & _ & Ht). exact Ht.
Defined.

Lemma class_search_toast_witness :
  let r := BalanceCheck.handleSearch (Sample.balance_check BalanceCheck.class "ND1A")
             (Sample.world []) in
  exists st', fst r = Ok st' /\ BalanceCheck.students st' <> [] /\ toasts (snd r) = [].
Proof.
  assert (Js.trim "ND1A" <> "") as Hq by (vm_compute; intros H; discriminate H).
  pose proof (class_search_toast (Sample.balance_check BalanceCheck.class "ND1A")
                (Sample.world []) Hq eq_refl (List.Forall_nil _)) as H.
  cbv zeta in H. destruct H as (st' & Hst & _ & Hsome).
  destruct Hsome as [Hne Ht].
  - exists Sample.bob. split; [left; reflexivity | reflexivity].
  - exists st'. split; [exact Hst|]. split; [exact Hne | exact Ht].
Defined.

Lemma admission_search_needs_exactly_one_witness :
  let r := BalanceCheck.handleSearch
             (Sample.balance_check BalanceCheck.admission "ASO/2024/009") (Sample.world []) in
  exists st', fst r = Ok st' /\ BalanceCheck.student st' = None /\
              toasts (snd r) = [toast_error "Student not found"].
Proof.
  assert (Js.trim "ASO/2024/009" <> "") as Hq by (vm_compute; intros H; discriminate H).
  pose proof (admission_search_needs_exactly_one
                (Sample.balance_check BalanceCheck.admission "ASO/2024/009")
                (Sample.world []) Hq eq_refl (List.Forall_nil _)) as H.
  cbv zeta in H. destruct H as (st' & Hst & _ & Hnone).
  destruct Hnone as [Hs Ht].
  - vm_compute. intros H. discriminate H.
  - exists st'. split; [exact Hst|]. split; [exact Hs | exact Ht].
Defined.

Lemma template_is_importable_witness :
  log (snd (Students.handleCsvImport (Sample.students_view csvContent)
              (Sample.world []))) =
  [insert_students (csv_objects csvContent); select_students].
Proof.
  pose proof (template_is_importable (Sample.students_view csvContent)
                (Sample.world []) eq_refl (List.Forall_nil _)) as H.
  cbv zeta in H. destruct H as (_ & Hlog & _). exact Hlog.
Defined.
